(** * Content script of the knowledge clipper: page data extraction

    A shallow embedding of [content-script.js] (metadata readers, selection
    reader, Readability/Turndown driver, fallback extractor, the
    [extractPageData] orchestrator and the [chrome.runtime.onMessage]
    listener), followed by the properties of the content record it builds. *)

From Stdlib Require Import List String Ascii NArith ZArith PeanoNat Bool Lia.
From Stdlib Require Import DecimalString Recdef.
Import ListNotations.

Open Scope string_scope.
Open Scope list_scope.

(** ** JavaScript strings

    A JavaScript string is a sequence of UTF-16 code units; [length],
    [substring] and [trim] all count code units.  Selectors, property names
    and the texts that occur literally in the script are kept as [string]s
    and injected with [lit] where they meet page text. *)

Module JS.

Definition code_unit := N.
Definition jstring := list code_unit.

Definition lit (s : string) : jstring :=
  map N_of_ascii (list_ascii_of_string s).

(** ECMAScript WhiteSpace and LineTerminator code points, the ones
    [String.prototype.trim] strips. *)
Definition is_ws (c : code_unit) : bool :=
  ((9 <=? c) && (c <=? 13) || (c =? 32) || (c =? 160) || (c =? 5760)
   || (8192 <=? c) && (c <=? 8202) || (c =? 8232) || (c =? 8233)
   || (c =? 8239) || (c =? 8287) || (c =? 12288) || (c =? 65279))%N.

Fixpoint trimStart (s : jstring) : jstring :=
  match s with
  | [] => []
  | c :: t => if is_ws c then trimStart t else s
  end.

Fixpoint trimEnd (s : jstring) : jstring :=
  match s with
  | [] => []
  | c :: t =>
      match trimEnd t with
      | [] => if is_ws c then [] else [c]
      | t' => c :: t'
      end
  end.

(** [s.trim()] *)
Definition trim (s : jstring) : jstring := trimEnd (trimStart s).

(** [s.substring(0, n)] *)
Definition substring0 (n : nat) (s : jstring) : jstring := firstn n s.

(** [s.split(sep)] for a one-unit separator: always at least one piece. *)
Fixpoint split (sep : code_unit) (s : jstring) : list jstring :=
  match s with
  | [] => [[]]
  | c :: t =>
      if (c =? sep)%N then [] :: split sep t
      else match split sep t with
           | piece :: rest => (c :: piece) :: rest
           | [] => [[c]]
           end
  end.

(** A value that is either a string or [null]/[undefined]. *)
Definition nullable := option jstring.

(** ToBoolean on such a value: only a non-empty string is truthy. *)
Definition truthy (v : nullable) : bool :=
  match v with
  | Some (_ :: _) => true
  | _ => false
  end.

(** [v || d] where the right operand is already a string. *)
Definition or_str (v : nullable) (d : jstring) : jstring :=
  match v with
  | Some (c :: t) => c :: t
  | _ => d
  end.

(** [n || m] on numbers: [0] is the only falsy length. *)
Definition or_num (n m : nat) : nat :=
  match n with
  | O => m
  | S _ => n
  end.

Definition nonempty (s : jstring) : bool :=
  match s with
  | [] => false
  | _ :: _ => true
  end.

End JS.
Import JS.

(** ** Values exchanged with the page, the libraries and the runtime *)

(** A thrown JavaScript [Error] object. *)
Record Exn := { exn_name : string; message : string }.

(** How an evaluation ends: with a value, or by throwing. *)
Inductive Completion (A : Type) : Type :=
| Normal (a : A)
| Throw (e : Exn).
Arguments Normal {A} a.
Arguments Throw {A} e.

(** The properties of a DOM element that the script reads.  [getAttribute]
    answers [null] for a missing attribute; [innerText] is [undefined] on
    elements that are not HTML elements. *)
Record Element := {
  getAttribute : string -> nullable;
  href : jstring;
  innerText : nullable;
  textContent : nullable
}.

(** [window.location] *)
Record Location := {
  location_href : jstring;
  location_hostname : jstring;
  location_origin : jstring
}.

(** What [Readability.prototype.parse] hands back; any field may be null. *)
Record ReadabilityArticle := {
  rd_title : nullable;
  rd_content : nullable;
  rd_textContent : nullable;
  rd_excerpt : nullable;
  rd_byline : nullable;
  rd_siteName : nullable
}.

Record ReadabilityOptions := {
  debug : bool;
  maxElemsToParse : nat;
  nbTopCandidates : nat;
  charThreshold : nat
}.

Record TurndownOptions := {
  headingStyle : string;
  hr : string;
  bulletListMarker : string;
  codeBlockStyle : string;
  emDelimiter : string
}.

(** What a promise will settle to: fulfilled, or rejected with an error. *)
Definition Promise := Completion unit.

(** The browser and the two vendored libraries, as the script sees them.
    [Dom] is the type of document trees (values: a deep copy of a tree is the
    tree).  [document_location d] is the location object of the document,
    the one [window.location] denotes.  [removeAll sel d] is [d] after
    [d.querySelectorAll(sel).forEach(el => el.remove())].
    [Readability_parse d o] is [new Readability(d, o).parse()]: it may throw,
    yield [null] or an article, and it rewrites the tree it was given.
    [TurndownService o] is [new TurndownService(o)]; the function it yields is
    the service's [turndown] method. *)
Record Platform := {
  Dom : Type;
  querySelector : Dom -> string -> option Element;
  document_title : Dom -> jstring;
  document_body : Dom -> option Element;
  document_location : Dom -> Location;
  removeAll : string -> Dom -> Dom;
  Readability_parse :
    Dom -> ReadabilityOptions -> Completion (option ReadabilityArticle) * Dom;
  TurndownService :
    TurndownOptions -> Completion (jstring -> Completion jstring)
}.

(** The object returned by [extractMainContent]. *)
Record Article := {
  art_title : nullable;
  art_content : jstring;
  art_excerpt : jstring;
  art_byline : jstring;
  art_length : nat;
  art_siteName : jstring
}.

(** The object returned by [extractPageData]. *)
Record ContentRecord := {
  url : jstring;
  domain : jstring;
  title : jstring;
  content : jstring;
  excerpt : jstring;
  selectedText : jstring;
  hasSelection : bool;
  description : jstring;
  author : jstring;
  publishedDate : jstring;
  keywords : list jstring;
  ogImage : jstring;
  favicon : jstring;
  contentLength : nat;
  siteName : jstring
}.

(** Assignments to fields of [result]. *)
Definition set_title (v : jstring) (r : ContentRecord) : ContentRecord :=
  {| url := url r; domain := domain r; title := v; content := content r;
     excerpt := excerpt r; selectedText := selectedText r;
     hasSelection := hasSelection r; description := description r;
     author := author r; publishedDate := publishedDate r;
     keywords := keywords r; ogImage := ogImage r; favicon := favicon r;
     contentLength := contentLength r; siteName := siteName r |}.

Definition set_content (v : jstring) (r : ContentRecord) : ContentRecord :=
  {| url := url r; domain := domain r; title := title r; content := v;
     excerpt := excerpt r; selectedText := selectedText r;
     hasSelection := hasSelection r; description := description r;
     author := author r; publishedDate := publishedDate r;
     keywords := keywords r; ogImage := ogImage r; favicon := favicon r;
     contentLength := contentLength r; siteName := siteName r |}.

Definition set_excerpt (v : jstring) (r : ContentRecord) : ContentRecord :=
  {| url := url r; domain := domain r; title := title r; content := content r;
     excerpt := v; selectedText := selectedText r;
     hasSelection := hasSelection r; description := description r;
     author := author r; publishedDate := publishedDate r;
     keywords := keywords r; ogImage := ogImage r; favicon := favicon r;
     contentLength := contentLength r; siteName := siteName r |}.

Definition set_contentLength (v : nat) (r : ContentRecord) : ContentRecord :=
  {| url := url r; domain := domain r; title := title r; content := content r;
     excerpt := excerpt r; selectedText := selectedText r;
     hasSelection := hasSelection r; description := description r;
     author := author r; publishedDate := publishedDate r;
     keywords := keywords r; ogImage := ogImage r; favicon := favicon r;
     contentLength := v; siteName := siteName r |}.

(** The message passed to [chrome.runtime.sendMessage]. *)
Record Notice := {
  note_action : string;
  note_title : string;
  note_message : string;
  note_type : string
}.

(** A [console.error(label, error)] call. *)
Record LogEntry := { log_label : string; log_error : Exn }.

(** The request received by the listener and the object given to
    [sendResponse]: [{success: true, data}] or [{success: false, error}]. *)
Record Request := { action : string }.

Record Response := {
  success : bool;
  data : option ContentRecord;
  error : option string
}.

Definition TypeError (msg : string) : Exn :=
  {| exn_name := "TypeError"; message := msg |}.

(** The double-quote character, for selectors that contain one. *)
Definition dq : string := String (ascii_of_nat 34) EmptyString.

(** ** The content script *)

Section ContentScript.

Variable P : Platform.

(** The globals the script touches: the live document, the current
    selection ([None] when [window.getSelection()] is [null], otherwise its
    [toString()]), the messages handed to [chrome.runtime.sendMessage], how
    the runtime will settle the promise of such a call, the console, and the
    responses given to [sendResponse]. *)
Record World := {
  document : Dom P;
  selection : option jstring;
  outbox : list Notice;
  settlement : Notice -> Promise;
  console : list LogEntry;
  replies : list Response
}.

(** [window.location] *)
Definition window_location (w : World) : Location :=
  document_location P (document w).

(** Statements: they read and update the globals and may throw. *)
Definition M (A : Type) : Type := World -> Completion A * World.

Definition ret {A} (a : A) : M A := fun w => (Normal a, w).

Definition bind {A B} (c : M A) (k : A -> M B) : M B :=
  fun w =>
    match c w with
    | (Normal a, w') => k a w'
    | (Throw e, w') => (Throw e, w')
    end.

Definition throw {A} (e : Exn) : M A := fun w => (Throw e, w).

(** [try { body } catch (error) { handler }] *)
Definition tryCatch {A} (body : M A) (handler : Exn -> M A) : M A :=
  fun w =>
    match body w with
    | (Normal a, w') => (Normal a, w')
    | (Throw e, w') => handler e w'
    end.

Definition reads {A} (f : World -> A) : M A := fun w => (Normal (f w), w).

Definition lift {A} (c : Completion A) : M A := fun w => (c, w).

Definition console_error (label : string) (e : Exn) : M unit :=
  fun w =>
    (Normal tt,
     {| document := document w; selection := selection w;
        outbox := outbox w; settlement := settlement w;
        console := console w ++ [{| log_label := label; log_error := e |}];
        replies := replies w |}).

(** [chrome.runtime.sendMessage(msg)]: the message is handed to the runtime
    and the call returns at once with the promise of its delivery.  Awaiting
    that promise would be [lift] of it. *)
Definition chrome_runtime_sendMessage (msg : Notice) : M Promise :=
  fun w =>
    (Normal (settlement w msg),
     {| document := document w; selection := selection w;
        outbox := outbox w ++ [msg]; settlement := settlement w;
        console := console w; replies := replies w |}).

Definition sendResponse (r : Response) : M unit :=
  fun w =>
    (Normal tt,
     {| document := document w; selection := selection w;
        outbox := outbox w; settlement := settlement w;
        console := console w; replies := replies w ++ [r] |}).

Notation "'do' x <- c ; k" := (bind c (fun x => k))
  (at level 10, x name, c at level 100, k at level 200).
Notation "'run' c ; k" := (bind c (fun _ => k))
  (at level 10, c at level 100, k at level 200).

(** *** Metadata readers *)

Definition meta_selector (property : string) : string :=
  "meta[property=" ++ dq ++ property ++ dq ++ "], meta[name="
    ++ dq ++ property ++ dq ++ "]".

Definition getMetaContent (w : World) (property : string) : nullable :=
  match querySelector P (document w) (meta_selector property) with
  | Some meta => getAttribute meta "content"
  | None => Some []
  end.

Definition getMetaDescription (w : World) : jstring :=
  or_str (getMetaContent w "og:description")
    (or_str (getMetaContent w "description")
       (or_str (getMetaContent w "twitter:description") [])).

Definition getMetaAuthor (w : World) : jstring :=
  or_str (getMetaContent w "author")
    (or_str (getMetaContent w "article:author")
       (or_str (getMetaContent w "og:article:author") [])).

Definition getMetaDate (w : World) : jstring :=
  or_str (getMetaContent w "article:published_time")
    (or_str (getMetaContent w "date")
       (or_str (getMetaContent w "pubdate") [])).

Definition getMetaKeywords (w : World) : list jstring :=
  let keywords := getMetaContent w "keywords" in
  if truthy keywords
  then map trim (split 44%N (or_str keywords []))
  else [].

Definition getMetaImage (w : World) : jstring :=
  or_str (getMetaContent w "og:image")
    (or_str (getMetaContent w "twitter:image") []).

Definition getFaviconUrl (w : World) : jstring :=
  let iconLink :=
    match querySelector P (document w) ("link[rel=" ++ dq ++ "icon" ++ dq ++ "]") with
    | Some l => Some l
    | None =>
        match querySelector P (document w)
                ("link[rel=" ++ dq ++ "shortcut icon" ++ dq ++ "]") with
        | Some l => Some l
        | None =>
            querySelector P (document w)
              ("link[rel=" ++ dq ++ "apple-touch-icon" ++ dq ++ "]")
        end
    end in
  match iconLink with
  | Some l =>
      if nonempty (href l) then href l
      else location_origin (window_location w) ++ lit "/favicon.ico"
  | None => location_origin (window_location w) ++ lit "/favicon.ico"
  end.

Definition getPageTitle (w : World) : jstring :=
  or_str (getMetaContent w "og:title")
    (or_str (getMetaContent w "twitter:title")
       (or_str (Some (document_title P (document w))) [])).

(** *** Selection reader *)

Definition getSelectedText : M jstring :=
  do w <- reads (fun w => w);
  match selection w with
  | Some text => ret (trim text)
  | None =>
      throw (TypeError "Cannot read properties of null (reading 'toString')")
  end.

(** *** Readability and Turndown *)

Definition readabilityOptions : ReadabilityOptions :=
  {| debug := false; maxElemsToParse := 0; nbTopCandidates := 5;
     charThreshold := 500 |}.

Definition turndownOptions : TurndownOptions :=
  {| headingStyle := "atx"; hr := "---"; bulletListMarker := "-";
     codeBlockStyle := "fenced"; emDelimiter := "_" |}.

Definition extractMainContent : M (option Article) :=
  tryCatch
    (do w <- reads (fun w => w);
     let documentClone := document w in
     let documentClone := removeAll P "script, style, noscript" documentClone in
     let '(parsed, _) := Readability_parse P documentClone readabilityOptions in
     do article <- lift parsed;
     match article with
     | Some article =>
         do turndown <- lift (TurndownService P turndownOptions);
         do markdownContent <-
           (if truthy (rd_content article)
            then lift (turndown (or_str (rd_content article) []))
            else ret (or_str (rd_textContent article) []));
         ret (Some {| art_title := rd_title article;
                      art_content := markdownContent;
                      art_excerpt := or_str (rd_excerpt article) [];
                      art_byline := or_str (rd_byline article) [];
                      art_length := or_num (List.length markdownContent) 0;
                      art_siteName := or_str (rd_siteName article) [] |})
     | None => ret None
     end)
    (fun error =>
       run console_error "Readability extraction error:" error;
       ret None).

(** *** Fallback extractor *)

Definition fallbackSelectors : list string :=
  [ "article"; "main"; ("[role=" ++ dq ++ "main" ++ dq ++ "]")%string;
    ".article-content"; ".post-content"; ".entry-content"; ".content" ].

(** [element.innerText || element.textContent || ''] *)
Definition element_text (element : Element) : jstring :=
  or_str (innerText element) (or_str (textContent element) []).

(** The [for] loop: the text of the first selector that finds an element. *)
Fixpoint scanSelectors (d : Dom P) (selectors : list string) : option jstring :=
  match selectors with
  | [] => None
  | selector :: rest =>
      match querySelector P d selector with
      | Some element => Some (element_text element)
      | None => scanSelectors d rest
      end
  end.

Definition extractFallbackContent : M jstring :=
  do w <- reads (fun w => w);
  match scanSelectors (document w) fallbackSelectors with
  | Some text => ret text
  | None =>
      match document_body P (document w) with
      | Some body => ret (element_text body)
      | None =>
          throw (TypeError "Cannot read properties of null (reading 'innerText')")
      end
  end.

(** *** Orchestrator *)

Definition degradedNotice : Notice :=
  {| note_action := "showNotification";
     note_title := "Content Extraction Notice";
     note_message :=
       "Using basic extraction. Page structure may not be optimized for reading.";
     note_type := "info" |}.

(** Lines 189-214: the object literal. *)
Definition prepareResult (selectedText : jstring) (hasSelection : bool)
    (article : option Article) (w : World) : ContentRecord :=
  {| url := location_href (window_location w);
     domain := location_hostname (window_location w);
     title := getPageTitle w;
     content := [];
     excerpt := [];
     selectedText := selectedText;
     hasSelection := hasSelection;
     description := getMetaDescription w;
     author := or_str (Some (getMetaAuthor w))
                 (match article with
                  | Some article => art_byline article
                  | None => []
                  end);
     publishedDate := getMetaDate w;
     keywords := getMetaKeywords w;
     ogImage := getMetaImage w;
     favicon := getFaviconUrl w;
     contentLength := 0;
     siteName := match article with
                 | Some article => art_siteName article
                 | None => location_hostname (window_location w)
                 end |}.

(** Lines 219-221: the selection is the content. *)
Definition useSelection (result : ContentRecord) : ContentRecord :=
  let result := set_content (selectedText result) result in
  let result := set_excerpt (substring0 300 (selectedText result)) result in
  set_contentLength (List.length (selectedText result)) result.

(** Lines 224-231: the extracted article is the content. *)
Definition useArticle (article : Article) (result : ContentRecord)
  : ContentRecord :=
  let result := set_content (art_content article) result in
  let result :=
    set_excerpt (or_str (Some (art_excerpt article))
                   (substring0 300 (art_content article))) result in
  let result :=
    set_contentLength
      (or_num (art_length article) (List.length (art_content article)))
      result in
  if truthy (art_title article)
     && (0 <? List.length (or_str (art_title article) []))%nat
  then set_title (or_str (art_title article) []) result
  else result.

(** Lines 242-244: the fallback text is the content. *)
Definition useFallbackText (text : jstring) (result : ContentRecord)
  : ContentRecord :=
  let result := set_content text result in
  let result := set_excerpt (substring0 300 (content result)) result in
  set_contentLength (List.length (content result)) result.

(** Lines 232-245: the [else] branch. *)
Definition useFallback (result : ContentRecord) : M ContentRecord :=
  run chrome_runtime_sendMessage degradedNotice;
  do text <- extractFallbackContent;
  ret (useFallbackText text result).

(** Lines 217-245: the three-way choice of the content. *)
Definition determineContent (article : option Article)
    (result : ContentRecord) : M ContentRecord :=
  if hasSelection result then ret (useSelection result)
  else
    match article with
    | Some article =>
        if nonempty (art_content article)
        then ret (useArticle article result)
        else useFallback result
    | None => useFallback result
    end.

(** Lines 247-250. *)
Definition descriptionAsExcerpt (result : ContentRecord) : ContentRecord :=
  if negb (nonempty (excerpt result)) && nonempty (description result)
  then set_excerpt (description result) result
  else result.

Definition extractPageData : M ContentRecord :=
  do selectedText <- getSelectedText;
  let hasSelection := (0 <? List.length selectedText)%nat in
  do article <- extractMainContent;
  do result <- reads (prepareResult selectedText hasSelection article);
  do result <- determineContent article result;
  ret (descriptionAsExcerpt result).

(** *** Message listener *)

Definition onMessage (request : Request) : M bool :=
  run (if String.eqb (action request) "extractPageData" then
         tryCatch
           (do pageData <- extractPageData;
            sendResponse {| success := true; data := Some pageData;
                            error := None |})
           (fun error =>
              run console_error "Content extraction error:" error;
              sendResponse {| success := false; data := None;
                              error := Some (message error) |})
       else ret tt);
  ret true.

End ContentScript.

Arguments document {P} w.
Arguments selection {P} w.
Arguments outbox {P} w.
Arguments settlement {P} w.
Arguments console {P} w.
Arguments replies {P} w.

(** ** Vocabulary of the specification *)

(** The value of a completion, when there is one. *)
Definition returned {A} (c : Completion A) : option A :=
  match c with
  | Normal a => Some a
  | Throw _ => None
  end.

Section Vocabulary.

Variable P : Platform.

(** The three mutually exclusive origins of [content]. *)
Inductive Source := SELECTION | STRUCTURED | FALLBACK.

(** What the structured extractor yields on the page of [w]; [None] is its
    [null]. *)
Definition structured (w : World P) : option Article :=
  match fst (extractMainContent P w) with
  | Normal article => article
  | Throw _ => None
  end.

(** The branch of lines 217/222/232 that [extractPageData] takes in [w];
    [None] when the selection cannot be read at all. *)
Definition sourceOf (w : World P) : option Source :=
  match selection w with
  | None => None
  | Some text =>
      Some (if nonempty (trim text) then SELECTION
            else match structured w with
                 | Some article =>
                     if nonempty (art_content article) then STRUCTURED
                     else FALLBACK
                 | None => FALLBACK
                 end)
  end.

(** Two worlds show the same page: same document and same selection. *)
Definition samePage (w w' : World P) : Prop :=
  document w = document w' /\ selection w = selection w'.

(** The same world, with another fate for the promises of the runtime. *)
Definition withSettlement (settle : Notice -> Promise) (w : World P)
  : World P :=
  {| document := document w; selection := selection w;
     outbox := outbox w; settlement := settle;
     console := console w; replies := replies w |}.

(** The first non-empty candidate of an ordered fallback chain. *)
Fixpoint firstNonEmpty (candidates : list nullable) : jstring :=
  match candidates with
  | [] => []
  | Some (c :: t) :: _ => c :: t
  | _ :: rest => firstNonEmpty rest
  end.

(** The element whose text the fallback extractor returns: the first
    container found by the selector list, else the body. *)
Fixpoint firstContainer (d : Dom P) (selectors : list string) : option Element :=
  match selectors with
  | [] => None
  | selector :: rest =>
      match querySelector P d selector with
      | Some element => Some element
      | None => firstContainer d rest
      end
  end.

Definition fallbackElement (w : World P) : option Element :=
  match firstContainer (document w) fallbackSelectors with
  | Some element => Some element
  | None => document_body P (document w)
  end.

End Vocabulary.

Arguments structured {P} w.
Arguments sourceOf {P} w.
Arguments samePage {P} w w'.
Arguments withSettlement {P} settle w.
Arguments fallbackElement {P} w.

(** ** Sample pages

    A small platform to run the script on: a document is a table from
    selectors to the element each one finds, with a title, a body and the
    outcome Readability has on it.  Its Readability empties the tree it is
    given; its Turndown keeps the markup as it is. *)

Module Sample.

Record Doc := {
  found : list (string * Element);
  doc_title : jstring;
  body : option Element;
  address : Location;
  readable : Completion (option ReadabilityArticle)
}.

Fixpoint lookup (table : list (string * Element)) (selector : string)
  : option Element :=
  match table with
  | [] => None
  | (s, e) :: rest => if String.eqb s selector then Some e else lookup rest selector
  end.

Definition drop (selector : string) (d : Doc) : Doc :=
  {| found := filter (fun se => negb (String.eqb (fst se) selector)) (found d);
     doc_title := doc_title d; body := body d; address := address d;
     readable := readable d |}.

Definition platform : Platform :=
  {| Dom := Doc;
     querySelector := fun d selector => lookup (found d) selector;
     document_title := doc_title;
     document_body := body;
     document_location := address;
     removeAll := drop;
     Readability_parse := fun d _ =>
       (readable d,
        {| found := []; doc_title := doc_title d; body := None;
           address := address d; readable := readable d |});
     TurndownService := fun _ => Normal (fun html => Normal html) |}.

Definition textNode (text : string) : Element :=
  {| getAttribute := fun _ => None; href := [];
     innerText := Some (lit text); textContent := Some (lit text) |}.

Definition metaTag (value : string) : Element :=
  {| getAttribute := fun name =>
       if String.eqb name "content" then Some (lit value) else None;
     href := []; innerText := Some []; textContent := Some [] |}.

Definition here : Location :=
  {| location_href := lit "https://example.com/post";
     location_hostname := lit "example.com";
     location_origin := lit "https://example.com" |}.

Definition delivered : Notice -> Promise := fun _ => Normal tt.

Definition undeliverable : Notice -> Promise :=
  fun _ =>
    Throw {| exn_name := "Error";
             message :=
               "Could not establish connection. Receiving end does not exist." |}.

Definition world (d : Doc) (sel : option jstring) : World platform :=
  Build_World platform d sel [] delivered [] [].

Definition story : ReadabilityArticle :=
  {| rd_title := Some (lit "Extractor Title");
     rd_content := Some (lit "<p>Body of the story</p>");
     rd_textContent := Some (lit "Body of the story");
     rd_excerpt := None;
     rd_byline := Some (lit "A. Writer");
     rd_siteName := None |}.

(** A page with an article, an [og:title] and a description. *)
Definition articleDoc : Doc :=
  {| found := [ (meta_selector "og:title", metaTag "OG Title");
                (meta_selector "og:description", metaTag "About the story") ];
     doc_title := lit "Document Title";
     body := Some (textNode "Menu Body of the story Footer");
     address := here;
     readable := Normal (Some story) |}.

(** A page Readability gives up on, with no semantic container. *)
Definition plainDoc : Doc :=
  {| found := [];
     doc_title := lit "Plain";
     body := Some (textNode "Hello");
     address := here;
     readable := Normal None |}.

(** The same, but with an empty [<article>] element in the body. *)
Definition emptyArticleDoc : Doc :=
  {| found := [ ("article", textNode EmptyString) ];
     doc_title := lit "Plain";
     body := Some (textNode "Hello");
     address := here;
     readable := Normal None |}.

(** A page on which Readability throws and that has no body. *)
Definition brokenDoc : Doc :=
  {| found := [];
     doc_title := [];
     body := None;
     address := here;
     readable := Throw {| exn_name := "Error"; message := "parse failed" |} |}.

Definition nothingSelected : option jstring := Some [].

Definition withSelection : World platform :=
  world articleDoc (Some (lit "  Hello world ")).
Definition withArticle : World platform := world articleDoc nothingSelected.
Definition plain : World platform := world plainDoc nothingSelected.
Definition emptyArticle : World platform := world emptyArticleDoc nothingSelected.
Definition broken : World platform := world brokenDoc nothingSelected.
Definition noSelectionObject : World platform := world articleDoc None.

(** A page Readability gives up on, with a [<main>] and a [.content]. *)
Definition mainDoc : Doc :=
  {| found := [ (".content", textNode "Side column");
                ("main", textNode "Main column") ];
     doc_title := lit "Columns";
     body := Some (textNode "Header Main column Side column");
     address := here;
     readable := Normal None |}.

Definition withMain : World platform := world mainDoc nothingSelected.

(** The article page again, after earlier traffic on every channel. *)
Definition withArticleLater : World platform :=
  Build_World platform articleDoc nothingSelected
    [ {| note_action := "showNotification"; note_title := "Earlier";
         note_message := "Earlier notice"; note_type := "info" |} ]
    undeliverable
    [ {| log_label := "Readability extraction error:";
         log_error := {| exn_name := "Error"; message := "earlier" |} |} ]
    [ {| success := false; data := None; error := Some "earlier" |} ].

End Sample.

(** ** More JavaScript primitives *)

(** [list.join(sep)] *)
Fixpoint join (sep : jstring) (pieces : list jstring) : jstring :=
  match pieces with
  | [] => []
  | [piece] => piece
  | piece :: rest => piece ++ sep ++ join sep rest
  end.

(** The decimal digits of a number, as in a template literal. *)
Definition decimal (n : nat) : string :=
  NilEmpty.string_of_uint (Nat.to_uint n).

(** ToBoolean on a number or [null]: zero and [null] are falsy. *)
Definition truthy_num (v : option nat) : bool :=
  match v with
  | Some (S _) => true
  | _ => false
  end.

Definition truthy_int (v : option Z) : bool :=
  match v with
  | Some z => negb (Z.eqb z 0)
  | None => false
  end.

(** ** The background service worker *)

Module Background.

(** The options of a [chrome.tabs.captureVisibleTab] call. *)
Record CaptureOptions := { format : string; quality : nat }.

(** The [data] object the popup sends with a save or update request. *)
Record SaveData := {
  d_title : jstring;
  d_url : nullable;
  d_content : nullable;
  d_description : jstring;
  d_notes : jstring;
  d_tags : option (list jstring);
  d_privacy : jstring;
  d_ttl : option Z;
  d_author : nullable;
  d_ogImage : nullable;
  d_favicon : nullable;
  d_captureScreenshot : bool;
  d_tabId : option nat;
  d_autoRefreshEnabled : option bool;
  d_refreshIntervalMinutes : option Z
}.

(** The fields of a JSON body that the worker reads: the validation errors
    (field by field, each with its messages), the message, and the data. *)
Record BodyFields (Doc : Type) := {
  body_errors : option (list (string * list jstring));
  body_message : nullable;
  body_data : option Doc
}.
Arguments body_errors {Doc} b.
Arguments body_message {Doc} b.
Arguments body_data {Doc} b.

(** A parsed JSON body: [None] is the JSON value [null]. *)
Definition JsonBody (Doc : Type) := option (BodyFields Doc).

(** The [{}] that stands in for a body that does not parse. *)
Definition emptyObject {Doc} : JsonBody Doc :=
  Some {| body_errors := None; body_message := None; body_data := None |}.

(** What [fetch] resolves to: [ok], [status], and the outcome of [json()]. *)
Record HttpResponse (Doc : Type) := {
  ok : bool;
  status : nat;
  json : Completion (JsonBody Doc)
}.
Arguments ok {Doc} h.
Arguments status {Doc} h.
Arguments json {Doc} h.

(** The payload of a save request; an absent key is [None]. *)
Record Payload (DataUrl : Type) := {
  p_title : jstring;
  p_content_type : string;
  p_content : nullable;
  p_description : jstring;
  p_tags : list jstring;
  p_privacy_level : jstring;
  p_notes : option jstring;
  p_ttl_hours : option Z;
  p_external_source_identifier : option jstring;
  p_author : option jstring;
  p_thumbnail_url : option jstring;
  p_favicon_url : option jstring;
  p_auto_refresh_enabled : option bool;
  p_refresh_interval_minutes : option (option Z);
  p_screenshot : option DataUrl
}.
Arguments p_title {DataUrl} p.
Arguments p_content_type {DataUrl} p.
Arguments p_content {DataUrl} p.
Arguments p_description {DataUrl} p.
Arguments p_tags {DataUrl} p.
Arguments p_privacy_level {DataUrl} p.
Arguments p_notes {DataUrl} p.
Arguments p_ttl_hours {DataUrl} p.
Arguments p_external_source_identifier {DataUrl} p.
Arguments p_author {DataUrl} p.
Arguments p_thumbnail_url {DataUrl} p.
Arguments p_favicon_url {DataUrl} p.
Arguments p_auto_refresh_enabled {DataUrl} p.
Arguments p_refresh_interval_minutes {DataUrl} p.
Arguments p_screenshot {DataUrl} p.

(** The payload of an update request. *)
Record UpdatePayload := {
  u_title : jstring;
  u_description : jstring;
  u_tags : list jstring;
  u_privacy_level : jstring;
  u_notes : option jstring;
  u_ttl_hours : option Z;
  u_auto_refresh_enabled : option bool;
  u_refresh_interval_minutes : option Z
}.

(** The body of a request, before [JSON.stringify]. *)
Inductive RequestBody (DataUrl : Type) : Type :=
| NoBody
| SaveBody (payload : Payload DataUrl)
| UpdateBody (payload : UpdatePayload).
Arguments NoBody {DataUrl}.
Arguments SaveBody {DataUrl} payload.
Arguments UpdateBody {DataUrl} payload.

(** A [fetch] call: the address, the options, and the delay after which the
    abort signal fires. *)
Record FetchRequest (DataUrl : Type) := {
  req_url : jstring;
  req_method : string;
  req_headers : list (string * jstring);
  req_body : RequestBody DataUrl;
  req_timeout : N
}.
Arguments req_url {DataUrl} f.
Arguments req_method {DataUrl} f.
Arguments req_headers {DataUrl} f.
Arguments req_body {DataUrl} f.
Arguments req_timeout {DataUrl} f.

(** The options of a [chrome.notifications.create] call. *)
Record Notification := {
  n_type : string;
  n_iconUrl : string;
  n_title : jstring;
  n_message : jstring;
  n_priority : nat
}.

(** The calls to the console, by what they report. *)
Inductive LogLine : Type :=
| LogTooLarge (bytes : N) (retryQuality : nat)
| WarnStillTooLarge (bytes : N)
| LogCaptured (bytes : N)
| LogNotification (title message : jstring)
| ErrorLine (label : string) (e : Exn).

(** The message received by the listener. *)
Record Message := {
  action : string;
  m_apiUrl : jstring;
  m_token : jstring;
  m_data : SaveData;
  m_documentId : jstring;
  m_tabId : option nat;
  m_title : jstring;
  m_message : jstring;
  m_type : option string
}.

(** The environment of the worker.  [DataUrl] is the type of the data URLs
    that a capture yields, of which the worker reads the length alone; [Doc]
    that of the JSON documents it passes on.  A capture and a fetch may
    answer differently from one call to the next: each is given the calls
    made before it. *)
Record Platform := {
  DataUrl : Type;
  Doc : Type;
  dataUrl_length : DataUrl -> N;
  captureVisibleTab :
    list CaptureOptions -> CaptureOptions -> Completion DataUrl;
  fetch :
    list (FetchRequest DataUrl) -> FetchRequest DataUrl
    -> Completion (HttpResponse Doc)
}.

Definition SCREENSHOT_INITIAL_QUALITY : nat := 60.
Definition SCREENSHOT_MIN_QUALITY : nat := 20.
Definition SCREENSHOT_QUALITY_DECREMENT : nat := 10.
Definition SCREENSHOT_MAX_SIZE_BYTES : N := 1 * 1024 * 1024.

Section Worker.

Variable B : Platform.

(** The object given to [sendResponse], by its shape. *)
Inductive Reply : Type :=
| TokenValid (user : JsonBody (Doc B))
| TokenInvalid (error : jstring)
| Succeeded (data : option (Doc B))
| Failed (error : jstring)
| Shot (dataUrl : DataUrl B)
| Acknowledged.

(** The state around the worker: whether [chrome.notifications] exists, the
    notifications created, the console, the captures and fetches made, the
    responses sent, and the rejections nobody handled. *)
Record World := {
  notifications : bool;
  created : list Notification;
  console : list LogLine;
  captures : list CaptureOptions;
  requests : list (FetchRequest (DataUrl B));
  replies : list Reply;
  unhandled : list Exn
}.

Definition M (A : Type) : Type := World -> Completion A * World.

Definition ret {A} (a : A) : M A := fun w => (Normal a, w).

Definition bind {A C} (c : M A) (k : A -> M C) : M C :=
  fun w =>
    match c w with
    | (Normal a, w') => k a w'
    | (Throw e, w') => (Throw e, w')
    end.

Definition throw {A} (e : Exn) : M A := fun w => (Throw e, w).

Definition tryCatch {A} (body : M A) (handler : Exn -> M A) : M A :=
  fun w =>
    match body w with
    | (Normal a, w') => (Normal a, w')
    | (Throw e, w') => handler e w'
    end.

Definition lift {A} (c : Completion A) : M A := fun w => (c, w).

Notation "'do' x <- c ; k" := (bind c (fun x => k))
  (at level 10, x name, c at level 100, k at level 200).
Notation "'run' c ; k" := (bind c (fun _ => k))
  (at level 10, c at level 100, k at level 200).

Definition console_write (line : LogLine) : M unit :=
  fun w =>
    (Normal tt,
     {| notifications := notifications w; created := created w;
        console := console w ++ [line]; captures := captures w;
        requests := requests w; replies := replies w;
        unhandled := unhandled w |}).

Definition chrome_notifications_create (options : Notification) : M unit :=
  fun w =>
    (Normal tt,
     {| notifications := notifications w; created := created w ++ [options];
        console := console w; captures := captures w;
        requests := requests w; replies := replies w;
        unhandled := unhandled w |}).

(** [await chrome.tabs.captureVisibleTab(null, options)] *)
Definition chrome_tabs_captureVisibleTab (options : CaptureOptions)
  : M (DataUrl B) :=
  fun w =>
    (captureVisibleTab B (captures w) options,
     {| notifications := notifications w; created := created w;
        console := console w; captures := captures w ++ [options];
        requests := requests w; replies := replies w;
        unhandled := unhandled w |}).

(** [await fetch(url, options)] *)
Definition await_fetch (request : FetchRequest (DataUrl B))
  : M (HttpResponse (Doc B)) :=
  fun w =>
    (fetch B (requests w) request,
     {| notifications := notifications w; created := created w;
        console := console w; captures := captures w;
        requests := requests w ++ [request]; replies := replies w;
        unhandled := unhandled w |}).

Definition sendResponse (reply : Reply) : M unit :=
  fun w =>
    (Normal tt,
     {| notifications := notifications w; created := created w;
        console := console w; captures := captures w;
        requests := requests w; replies := replies w ++ [reply];
        unhandled := unhandled w |}).

(** [promise.then(k)] with nobody to catch: a rejection is left unhandled. *)
Definition andThen {A} (promise : M A) (k : A -> M unit) : M unit :=
  fun w =>
    match promise w with
    | (Normal a, w') => k a w'
    | (Throw e, w') =>
        (Normal tt,
         {| notifications := notifications w'; created := created w';
            console := console w'; captures := captures w';
            requests := requests w'; replies := replies w';
            unhandled := unhandled w' ++ [e] |})
    end.

(** *** fetchWithTimeout *)

Definition fetchWithTimeout (url : jstring) (method : string)
    (headers : list (string * jstring)) (body : RequestBody (DataUrl B))
  : M (HttpResponse (Doc B)) :=
  let timeout := 30000%N in
  tryCatch
    (await_fetch {| req_url := url; req_method := method;
                    req_headers := headers; req_body := body;
                    req_timeout := timeout |})
    (fun error =>
       if String.eqb (exn_name error) "AbortError"
       then throw {| exn_name := "Error"; message := "Request timeout" |}
       else throw error).

(** *** showNotification *)

Definition showNotification (title message : jstring) (type : option string)
  : M unit :=
  let type := match type with Some t => t | None => "info" end in
  do w <- (fun w => (Normal w, w));
  if negb (notifications w) then
    console_write (LogNotification title message)
  else
    let iconPath :=
      if String.eqb type "success" then "icons/icon-128.png"
      else "icons/icon-128.png" in
    chrome_notifications_create
      {| n_type := "basic"; n_iconUrl := iconPath; n_title := title;
         n_message := message; n_priority := 1 |}.

(** *** validateToken *)

Definition bearer (token : jstring) : jstring := lit "Bearer " ++ token.

(** [error.message || 'Network error'] *)
Definition messageOr (e : Exn) (fallback : string) : jstring :=
  or_str (Some (lit (message e))) (lit fallback).

Definition validateToken (apiUrl token : jstring) : M Reply :=
  tryCatch
    (do response <-
       fetchWithTimeout (apiUrl ++ lit "/api/user") "GET"
         [ ("Authorization", bearer token); ("Accept", lit "application/json") ]
         NoBody;
     if negb (ok response) then
       ret (TokenInvalid
              (if Nat.eqb (status response) 401 then lit "Invalid token"
               else lit ("Server error: " ++ decimal (status response))))
     else
       do data <- lift (json response);
       ret (TokenValid data))
    (fun error =>
       run console_write (ErrorLine "Token validation error:" error);
       ret (TokenInvalid (messageOr error "Network error"))).

(** *** saveKnowledge *)

Set Warnings "-funind-cannot-define-graph,-funind-cannot-build-inversion".

(** The [while] loop of the screenshot retry, from a quality and the capture
    made at that quality; the state is passed along by hand.  The quality
    goes down at every turn, which is why the loop ends. *)
Function retryCapture (quality : nat) (screenshotResult : DataUrl B)
    (w : World) {measure (fun q => q) quality}
  : Completion (DataUrl B) * World :=
  if (SCREENSHOT_MAX_SIZE_BYTES <? dataUrl_length B screenshotResult)%N
     && (SCREENSHOT_MIN_QUALITY <? quality)%nat
  then
    let quality' := quality - SCREENSHOT_QUALITY_DECREMENT in
    match (run console_write
                 (LogTooLarge (dataUrl_length B screenshotResult) quality');
           chrome_tabs_captureVisibleTab
             {| format := "jpeg"; quality := quality' |}) w with
    | (Normal screenshotResult', w') =>
        retryCapture quality' screenshotResult' w'
    | (Throw e, w') => (Throw e, w')
    end
  else ret screenshotResult w.
Proof.
  intros.
  match goal with
  | more : (_ && _)%bool = true |- _ =>
      apply andb_prop in more; destruct more as (_ & more);
      apply Nat.ltb_lt in more;
      unfold SCREENSHOT_MIN_QUALITY, SCREENSHOT_QUALITY_DECREMENT in *; lia
  end.
Defined.

(** Lines 102-132: the screenshot, when one is asked for and fits. *)
Definition takeScreenshot (data : SaveData) : M (option (DataUrl B)) :=
  if d_captureScreenshot data && truthy_num (d_tabId data) then
    tryCatch
      (let quality := SCREENSHOT_INITIAL_QUALITY in
       do screenshotResult <-
         chrome_tabs_captureVisibleTab
           {| format := "jpeg"; quality := quality |};
       do screenshotResult <- retryCapture quality screenshotResult;
       if (dataUrl_length B screenshotResult <=? SCREENSHOT_MAX_SIZE_BYTES)%N
       then ret (Some screenshotResult)
       else
         run console_write
               (WarnStillTooLarge (dataUrl_length B screenshotResult));
         ret None)
      (fun error =>
         run console_write (ErrorLine "Screenshot capture error:" error);
         ret None)
  else ret None.

(** [if (v) payload.key = v] for a string [v]. *)
Definition whenTruthy (v : nullable) : option jstring :=
  if truthy v then Some (or_str v []) else None.

(** [if (screenshotDataUrl)]: a data URL that is there and not empty. *)
Definition usableScreenshot (screenshotDataUrl : option (DataUrl B))
  : option (DataUrl B) :=
  match screenshotDataUrl with
  | Some url => if (0 <? dataUrl_length B url)%N then Some url else None
  | None => None
  end.

(** Lines 134-180: the payload of a save. *)
Definition savePayload (data : SaveData)
    (screenshotDataUrl : option (DataUrl B)) : Payload (DataUrl B) :=
  {| p_title := d_title data;
     p_content_type := "text";
     p_content := d_content data;
     p_description := or_str (Some (d_description data)) [];
     p_tags := match d_tags data with Some tags => tags | None => [] end
               ++ [lit "source:clipper"];
     p_privacy_level := or_str (Some (d_privacy data)) (lit "private");
     p_notes := whenTruthy (Some (d_notes data));
     p_ttl_hours := d_ttl data;
     p_external_source_identifier := whenTruthy (d_url data);
     p_author := whenTruthy (d_author data);
     p_thumbnail_url := whenTruthy (d_ogImage data);
     p_favicon_url := whenTruthy (d_favicon data);
     p_auto_refresh_enabled :=
       match d_autoRefreshEnabled data with
       | Some true => Some true
       | _ => None
       end;
     p_refresh_interval_minutes :=
       match d_autoRefreshEnabled data with
       | Some true => Some (d_refreshIntervalMinutes data)
       | _ => None
       end;
     p_screenshot := usableScreenshot screenshotDataUrl |}.

(** [Object.values(errorData.errors).flat().join(', ')] *)
Definition joinedErrors (errors : list (string * list jstring)) : jstring :=
  join (lit ", ") (List.concat (map snd errors)).

(** Reading a property of a parsed body: a TypeError on [null]. *)
Definition fieldsOf (body : JsonBody (Doc B)) (property : string)
  : M (BodyFields (Doc B)) :=
  match body with
  | Some fields => ret fields
  | None =>
      throw (TypeError ("Cannot read properties of null (reading '"
                          ++ property ++ "')"))
  end.

(** Lines 193-210 and 275-292: the message for a response that is not ok.
    [forbidden] is the text for status 403, [failed] the default. *)
Definition failureMessage (failed forbidden : string)
    (response : HttpResponse (Doc B)) : M jstring :=
  do errorData <- tryCatch (lift (json response)) (fun _ => ret emptyObject);
  if Nat.eqb (status response) 401 then ret (lit "Authentication failed")
  else if Nat.eqb (status response) 403 then ret (lit forbidden)
  else
    do viaErrors <-
      (if Nat.eqb (status response) 422 then
         do fields <- fieldsOf errorData "errors";
         ret (body_errors fields)
       else ret None);
    match viaErrors with
    | Some errors => ret (joinedErrors errors)
    | None =>
        do fields <- fieldsOf errorData "message";
        if truthy (body_message fields)
        then ret (or_str (body_message fields) [])
        else ret (lit failed)
    end.

Definition jsonHeaders (token : jstring) : list (string * jstring) :=
  [ ("Authorization", bearer token);
    ("Content-Type", lit "application/json");
    ("Accept", lit "application/json") ].

(** Lines 134-226: the payload, the request, and what to make of the
    response. *)
Definition sendSave (data : SaveData) (screenshotDataUrl : option (DataUrl B))
    (apiUrl token : jstring) : M Reply :=
  let payload := savePayload data screenshotDataUrl in
  run (match p_screenshot payload with
       | Some url => console_write (LogCaptured (dataUrl_length B url))
       | None => ret tt
       end);
  do response <-
    fetchWithTimeout (apiUrl ++ lit "/api/v1/knowledge") "POST"
      (jsonHeaders token) (SaveBody payload);
  if negb (ok response) then
    do errorMessage <-
      failureMessage "Failed to save"
        "Permission denied. Token requires knowledge:create scope"
        response;
    ret (Failed errorMessage)
  else
    do responseData <- lift (json response);
    run showNotification (lit "Saved Successfully")
          (lit dq ++ d_title data
             ++ lit (dq ++ " has been added to your knowledge system"))
          (Some "success");
    do fields <- fieldsOf responseData "data";
    ret (Succeeded (body_data fields)).

Definition saveKnowledge (data : SaveData) (apiUrl token : jstring)
  : M Reply :=
  tryCatch
    (do screenshotDataUrl <- takeScreenshot data;
     sendSave data screenshotDataUrl apiUrl token)
    (fun error =>
       run console_write (ErrorLine "Save knowledge error:" error);
       ret (Failed (messageOr error "Network error"))).

(** *** updateKnowledge *)

Definition updatePayload (data : SaveData) : UpdatePayload :=
  {| u_title := d_title data;
     u_description := or_str (Some (d_description data)) [];
     u_tags := match d_tags data with Some tags => tags | None => [] end
               ++ [lit "source:clipper"];
     u_privacy_level := or_str (Some (d_privacy data)) (lit "private");
     u_notes := whenTruthy (Some (d_notes data));
     u_ttl_hours := d_ttl data;
     u_auto_refresh_enabled := d_autoRefreshEnabled data;
     u_refresh_interval_minutes :=
       match d_autoRefreshEnabled data with
       | Some true =>
           if truthy_int (d_refreshIntervalMinutes data)
           then d_refreshIntervalMinutes data
           else None
       | _ => None
       end |}.

Definition updateKnowledge (documentId : jstring) (data : SaveData)
    (apiUrl token : jstring) : M Reply :=
  tryCatch
    (let payload := updatePayload data in
     do response <-
       fetchWithTimeout (apiUrl ++ lit "/api/v1/knowledge/" ++ documentId)
         "PUT" (jsonHeaders token) (UpdateBody payload);
     if negb (ok response) then
       do errorMessage <-
         failureMessage "Failed to update" "Permission denied" response;
       ret (Failed errorMessage)
     else
       do responseData <- lift (json response);
       run showNotification (lit "Updated Successfully")
             (lit dq ++ d_title data ++ lit (dq ++ " has been updated"))
             (Some "success");
       do fields <- fieldsOf responseData "data";
       ret (Succeeded (body_data fields)))
    (fun error =>
       run console_write (ErrorLine "Update knowledge error:" error);
       ret (Failed (messageOr error "Network error"))).

(** *** captureScreenshot *)

Definition captureScreenshot (tabId : option nat) : M Reply :=
  tryCatch
    (do dataUrl <-
       chrome_tabs_captureVisibleTab {| format := "png"; quality := 90 |};
     ret (Shot dataUrl))
    (fun error =>
       run console_write (ErrorLine "Screenshot capture error:" error);
       ret (Failed (lit (message error)))).

(** *** Message listener

    The value returned: [Some true] keeps the channel open, [Some false]
    closes it, [None] is [undefined]. *)
Definition onMessage (request : Message) : M (option bool) :=
  if String.eqb (action request) "validateToken" then
    run andThen (validateToken (m_apiUrl request) (m_token request))
          sendResponse;
    ret (Some true)
  else if String.eqb (action request) "saveKnowledge" then
    run andThen (saveKnowledge (m_data request) (m_apiUrl request)
                   (m_token request))
          sendResponse;
    ret (Some true)
  else if String.eqb (action request) "updateKnowledge" then
    run andThen (updateKnowledge (m_documentId request) (m_data request)
                   (m_apiUrl request) (m_token request))
          sendResponse;
    ret (Some true)
  else if String.eqb (action request) "captureScreenshot" then
    run andThen (captureScreenshot (m_tabId request)) sendResponse;
    ret (Some true)
  else if String.eqb (action request) "showNotification" then
    run showNotification (m_title request) (m_message request)
          (m_type request);
    run sendResponse Acknowledged;
    ret (Some false)
  else ret None.

End Worker.

Arguments notifications {B} w.
Arguments created {B} w.
Arguments console {B} w.
Arguments captures {B} w.
Arguments requests {B} w.
Arguments replies {B} w.
Arguments unhandled {B} w.
Arguments TokenValid {B} user.
Arguments TokenInvalid {B} error.
Arguments Succeeded {B} data.
Arguments Failed {B} error.
Arguments Shot {B} dataUrl.
Arguments Acknowledged {B}.

(** A capture for the save request, at a given quality. *)
Definition jpeg (q : nat) : CaptureOptions :=
  {| format := "jpeg"; quality := q |}.

(** [qs] are the qualities of successive retries that start below
    [quality]: each is ten less than the one before, which was above the
    minimum. *)
Fixpoint descends (quality : nat) (qs : list nat) : Prop :=
  match qs with
  | [] => True
  | q :: rest =>
      SCREENSHOT_MIN_QUALITY < quality
      /\ q = quality - SCREENSHOT_QUALITY_DECREMENT
      /\ descends q rest
  end.

(** Whether a save is to come with a screenshot:
    [data.captureScreenshot && data.tabId]. *)
Definition wantsScreenshot (data : SaveData) : bool :=
  d_captureScreenshot data && truthy_num (d_tabId data).

(** The request of a save, with the payload it carries. *)
Definition saveRequest {B} (data : SaveData) (shot : option (DataUrl B))
    (apiUrl token : jstring) : FetchRequest (DataUrl B) :=
  {| req_url := apiUrl ++ lit "/api/v1/knowledge";
     req_method := "POST";
     req_headers := jsonHeaders token;
     req_body := SaveBody (savePayload B data shot);
     req_timeout := 30000 |}.

(** The request of an update. *)
Definition updateRequest {B} (documentId : jstring) (data : SaveData)
    (apiUrl token : jstring) : FetchRequest (DataUrl B) :=
  {| req_url := apiUrl ++ lit "/api/v1/knowledge/" ++ documentId;
     req_method := "PUT";
     req_headers := jsonHeaders token;
     req_body := UpdateBody (updatePayload data);
     req_timeout := 30000 |}.

(** The notification of a save that went through. *)
Definition savedNotification (data : SaveData) : Notification :=
  {| n_type := "basic"; n_iconUrl := "icons/icon-128.png";
     n_title := lit "Saved Successfully";
     n_message := lit dq ++ d_title data
                    ++ lit (dq ++ " has been added to your knowledge system");
     n_priority := 1 |}.

(** The notification of an update that went through. *)
Definition updatedNotification (data : SaveData) : Notification :=
  {| n_type := "basic"; n_iconUrl := "icons/icon-128.png";
     n_title := lit "Updated Successfully";
     n_message := lit dq ++ d_title data ++ lit (dq ++ " has been updated");
     n_priority := 1 |}.

(** The request of a token validation. *)
Definition validationRequest {B} (apiUrl token : jstring)
  : FetchRequest (DataUrl B) :=
  {| req_url := apiUrl ++ lit "/api/user";
     req_method := "GET";
     req_headers := [ ("Authorization", bearer token);
                      ("Accept", lit "application/json") ];
     req_body := NoBody;
     req_timeout := 30000 |}.

(** What a thrown error reads like in a reply, after [fetchWithTimeout] has
    renamed an abort. *)
Definition errorText (e : Exn) : jstring :=
  if String.eqb (exn_name e) "AbortError" then lit "Request timeout"
  else messageOr e "Network error".

(** Two states that differ at most in the console and the captures. *)
Definition quiet {B} (w w' : World B) : Prop :=
  notifications w' = notifications w /\ created w' = created w
  /\ requests w' = requests w /\ replies w' = replies w
  /\ unhandled w' = unhandled w.

(** The notice of the content script, as the message the worker receives. *)
Definition ofNotice (notice : Notice) (rest : Message) : Message :=
  {| action := note_action notice;
     m_apiUrl := m_apiUrl rest; m_token := m_token rest;
     m_data := m_data rest; m_documentId := m_documentId rest;
     m_tabId := m_tabId rest;
     m_title := lit (note_title notice);
     m_message := lit (note_message notice);
     m_type := Some (note_type notice) |}.

End Background.

(** ** The storage wrapper

    [chrome.storage.sync] keeps JSON values under string keys.  A write may
    be refused (quota); the wrapper resolves its promise all the same. *)

Module Storage.

Inductive Value : Type :=
| VNull
| VBool (b : bool)
| VNumber (n : Z)
| VString (s : jstring)
| VList (items : list jstring).

(** ToBoolean *)
Definition truthy (v : Value) : bool :=
  match v with
  | VNull => false
  | VBool b => b
  | VNumber n => negb (Z.eqb n 0)
  | VString s => nonempty s
  | VList _ => true
  end.

Definition Store := string -> option Value.

Definition empty : Store := fun _ => None.

Definition put (key : string) (value : Value) (store : Store) : Store :=
  fun k => if String.eqb k key then Some value else store k.

(** Writing the keys of an object, one after the other. *)
Fixpoint putAll (items : list (string * Value)) (store : Store) : Store :=
  match items with
  | [] => store
  | (key, value) :: rest => putAll rest (put key value store)
  end.

(** The object that [getConfig] resolves to. *)
Record Config := {
  apiUrl : Value;
  apiToken : Value;
  defaultPrivacy : Value;
  defaultTags : Value;
  enableScreenshots : Value;
  defaultTTL : Value
}.

Section Wrapper.

(** Whether the storage takes a write, given what it holds. *)
Variable accepts : Store -> list (string * Value) -> bool.

Definition M (A : Type) : Type := Store -> A * Store.

Definition ret {A} (a : A) : M A := fun store => (a, store).

Definition bind {A C} (c : M A) (k : A -> M C) : M C :=
  fun store => let (a, store') := c store in k a store'.

(** [chrome.storage.sync.get(defaults, callback)]: for each key of
    [defaults], the value kept under it, else the default. *)
Definition chrome_storage_sync_get (defaults : list (string * Value))
  : M (list (string * Value)) :=
  fun store =>
    (map (fun kv => (fst kv, match store (fst kv) with
                             | Some v => v
                             | None => snd kv
                             end)) defaults,
     store).

Definition chrome_storage_sync_set (items : list (string * Value)) : M unit :=
  fun store =>
    (tt, if accepts store items then putAll items store else store).

Definition chrome_storage_sync_clear : M unit := fun _ => (tt, empty).

(** Reading a key of the object that [get] resolved to. *)
Fixpoint field (key : string) (items : list (string * Value)) : Value :=
  match items with
  | [] => VNull
  | (k, v) :: rest => if String.eqb k key then v else field key rest
  end.

Definition getConfig : M Config :=
  bind (chrome_storage_sync_get
          [ ("apiUrl", VString []);
            ("apiToken", VString []);
            ("defaultPrivacy", VString (lit "private"));
            ("defaultTags", VList []);
            ("enableScreenshots", VBool true);
            ("defaultTTL", VNull) ])
    (fun config =>
       ret {| apiUrl := field "apiUrl" config;
              apiToken := field "apiToken" config;
              defaultPrivacy := field "defaultPrivacy" config;
              defaultTags := field "defaultTags" config;
              enableScreenshots := field "enableScreenshots" config;
              defaultTTL := field "defaultTTL" config |}).

Definition saveConfig (config : list (string * Value)) : M unit :=
  chrome_storage_sync_set config.

Definition getApiUrl : M Value :=
  bind getConfig (fun config => ret (apiUrl config)).

Definition getApiToken : M Value :=
  bind getConfig (fun config => ret (apiToken config)).

Definition isConfigured : M bool :=
  bind getConfig
    (fun config => ret (truthy (apiUrl config) && truthy (apiToken config))).

Definition clearConfig : M unit := chrome_storage_sync_clear.

Definition updateConfig (key : string) (value : Value) : M unit :=
  chrome_storage_sync_set [(key, value)].


Definition getDefaultTags : M Value :=
  bind getConfig
    (fun config =>
       ret (if truthy (defaultTags config) then defaultTags config
            else VList [])).

Definition isScreenshotsEnabled : M bool :=
  bind getConfig
    (fun config =>
       ret (match enableScreenshots config with
            | VBool false => false
            | _ => true
            end)).

End Wrapper.

(** The six keys of the configuration. *)
Definition configKeys : list string :=
  [ "apiUrl"; "apiToken"; "defaultPrivacy"; "defaultTags";
    "enableScreenshots"; "defaultTTL" ].

(** The field of a configuration object by its key. *)
Definition configField (key : string) (config : Config) : Value :=
  if String.eqb key "apiUrl" then apiUrl config
  else if String.eqb key "apiToken" then apiToken config
  else if String.eqb key "defaultPrivacy" then defaultPrivacy config
  else if String.eqb key "defaultTags" then defaultTags config
  else if String.eqb key "enableScreenshots" then enableScreenshots config
  else if String.eqb key "defaultTTL" then defaultTTL config
  else VNull.

(** A storage without quota. *)
Definition roomy : Store -> list (string * Value) -> bool := fun _ _ => true.

End Storage.

(** ** The popup *)

Module Popup.

(** Lines 439 and 453-455 of [handleSaveSubmit]: the tags typed into the
    field. *)
Definition parseTags (fieldValue : jstring) : list jstring :=
  let tagsInput := trim fieldValue in
  if nonempty tagsInput
  then filter (fun t => (0 <? List.length t)%nat)
         (map trim (split 44%N tagsInput))
  else [].

(** Line 343 of [loadDefaultSettings] and lines 574-575 of
    [fetchAndPopulateDocument]: the tags as they are put into the field. *)
Definition showTags (tags : list jstring) : jstring := join (lit ", ") tags.

(** [s.slice(-n)]: the last [n] units, or all of [s] when it is shorter. *)
Definition sliceLast (n : nat) (s : jstring) : jstring :=
  skipn (List.length s - n) s.

(** Line 199 of [showConfigScreen]: sixteen bullets and the end of the
    token. *)
Definition maskedToken (apiToken : jstring) : jstring :=
  repeat 8226%N 16 ++ sliceLast 8 apiToken.

(** What [populateSaveForm] does to the popup: assignments to properties of
    elements found by id, and the start of an async function. *)
Inductive Effect : Type :=
| Assign (id property : string) (value : jstring)
| Start (name : string).

Section Form.

(** Which ids the popup document has an element for, and how the locale
    writes a number. *)
Variable present : string -> bool.
Variable toLocaleString : nat -> jstring.

Definition W (A : Type) : Type := list Effect -> Completion A * list Effect.

Definition ret {A} (a : A) : W A := fun done => (Normal a, done).

Definition bind {A C} (c : W A) (k : A -> W C) : W C :=
  fun done =>
    match c done with
    | (Normal a, done') => k a done'
    | (Throw e, done') => (Throw e, done')
    end.

Notation "'run' c ; k" := (bind c (fun _ => k))
  (at level 10, c at level 100, k at level 200).

(** [document.getElementById(id).property = value] *)
Definition assign (id property : string) (value : jstring) : W unit :=
  fun done =>
    if present id then (Normal tt, done ++ [Assign id property value])
    else (Throw (TypeError ("Cannot set properties of null (setting '"
                              ++ property ++ "')")),
          done).

(** [document.getElementById(id).style.display = value] *)
Definition display (id : string) (value : jstring) : W unit :=
  fun done =>
    if present id then (Normal tt, done ++ [Assign id "style.display" value])
    else (Throw (TypeError "Cannot read properties of null (reading 'style')"),
          done).

Definition start (name : string) : W unit :=
  fun done => (Normal tt, done ++ [Start name]).

Definition populateSaveForm (pageData : ContentRecord) : W unit :=
  run assign "title" "value" (or_str (Some (title pageData)) []);
  run assign "page-url" "textContent" (or_str (Some (url pageData)) []);
  run assign "description" "value"
        (or_str (Some (description pageData))
           (or_str (Some (excerpt pageData)) []));
  run (if hasSelection pageData
       then display "selection-badge" (lit "inline-flex")
       else ret tt);
  let contentLength :=
    if nonempty (content pageData) then List.length (content pageData)
    else 0 in
  run assign "content-length" "textContent" (toLocaleString contentLength);
  run assign "content-text" "textContent"
        (or_str (Some (content pageData)) (lit "No content extracted"));
  run (if (0 <? List.length (keywords pageData))%nat then
         let suggestedTags := join (lit ", ") (firstn 5 (keywords pageData)) in
         assign "tags" "placeholder" (lit "Suggested: " ++ suggestedTags)
       else ret tt);
  start "loadDefaultSettings".

End Form.

(** The value last assigned to a property of an element. *)
Fixpoint assigned (id property : string) (effects : list Effect)
  : option jstring :=
  match effects with
  | [] => None
  | Assign i p v :: rest =>
      match assigned id property rest with
      | Some later => Some later
      | None =>
          if String.eqb i id && String.eqb p property then Some v else None
      end
  | Start _ :: rest => assigned id property rest
  end.

(** A popup document that has every element. *)
Definition complete : string -> bool := fun _ => true.

End Popup.

(** ** Sample environments of the worker

    Data URLs are given by their length, documents by a number.  A capture
    at quality [q] weighs [weight q]; every fetch gets the answer [answer]. *)

Module WorkerSample.

Import Background.

Definition platform (weight : nat -> N)
    (answer : Completion (HttpResponse nat)) : Platform :=
  {| DataUrl := N;
     Doc := nat;
     dataUrl_length := fun url => url;
     captureVisibleTab := fun _ options => Normal (weight (quality options));
     fetch := fun _ _ => answer |}.

Definition created201 : HttpResponse nat :=
  {| ok := true; status := 201;
     json := Normal (Some {| body_errors := None;
                             body_message := None;
                             body_data := Some 7 |}) |}.



(** 30 000 bytes per point of quality: 60, 50 and 40 are too large. *)
Definition heavy (q : nat) : N := N.of_nat q * 30000.

(** Workers whose server creates the document, rejects it, or cannot be
    reached. *)
Definition accepting : Platform := platform heavy (Normal created201).

Definition start (B : Platform) : World B :=
  {| notifications := true; created := []; console := []; captures := [];
     requests := []; replies := []; unhandled := [] |}.

Definition clipping : SaveData :=
  {| d_title := lit "A story";
     d_url := Some (lit "https://example.com/post");
     d_content := Some (lit "Body of the story");
     d_description := [];
     d_notes := [];
     d_tags := Some [lit "reading"];
     d_privacy := [];
     d_ttl := None;
     d_author := Some (lit "A. Writer");
     d_ogImage := Some [];
     d_favicon := Some (lit "https://example.com/favicon.ico");
     d_captureScreenshot := true;
     d_tabId := Some 12;
     d_autoRefreshEnabled := Some false;
     d_refreshIntervalMinutes := None |}.

End WorkerSample.

(** ** Facts about the string primitives *)

Section StringFacts.

Lemma trimEnd_cons_nonws c t :
  is_ws c = false -> trimEnd (c :: t) = c :: trimEnd t.
Proof.
  intros Hc. simpl. rewrite Hc. destruct (trimEnd t); reflexivity.
Qed.

Lemma trimEnd_idem s : trimEnd (trimEnd s) = trimEnd s.
Proof.
  induction s as [|c t IH]; [reflexivity|].
  simpl. destruct (trimEnd t) as [|d t'] eqn:E.
  - destruct (is_ws c) eqn:Hc; [reflexivity|].
    simpl. rewrite Hc. reflexivity.
  - change (trimEnd (c :: d :: t')) with
      (match trimEnd (d :: t') with
       | [] => if is_ws c then [] else [c]
       | x :: l => c :: x :: l
       end).
    rewrite IH. reflexivity.
Qed.

Lemma trimStart_head s :
  match trimStart s with
  | [] => True
  | c :: _ => is_ws c = false
  end.
Proof.
  induction s as [|c t IH]; simpl; [exact I|].
  destruct (is_ws c) eqn:Hc; [exact IH | exact Hc].
Qed.

Lemma trim_head s :
  match trim s with
  | [] => True
  | c :: _ => is_ws c = false
  end.
Proof.
  unfold trim. pose proof (trimStart_head s) as H.
  destruct (trimStart s) as [|c t]; [exact I|].
  rewrite (trimEnd_cons_nonws _ _ H). exact H.
Qed.

Lemma trimStart_fixed s :
  match s with [] => True | c :: _ => is_ws c = false end ->
  trimStart s = s.
Proof.
  destruct s as [|c t]; [reflexivity|].
  intros Hc. simpl. rewrite Hc. reflexivity.
Qed.

(** [trim] is idempotent: trimming an already trimmed string changes nothing. *)
Lemma trim_idem s : trim (trim s) = trim s.
Proof.
  unfold trim at 1.
  rewrite (trimStart_fixed (trim s) (trim_head s)).
  unfold trim. apply trimEnd_idem.
Qed.

Lemma substring0_length n s : List.length (substring0 n s) <= n.
Proof. unfold substring0. apply firstn_le_length. Qed.

Lemma nonempty_true s : nonempty s = true <-> s <> [].
Proof. destruct s; simpl; split; intros; congruence. Qed.

End StringFacts.

Example trim_hello :
  trim (lit "  Hello world  ") = lit "Hello world".
Proof. reflexivity. Qed.

Example split_keywords :
  map trim (split 44%N (lit "a, b , c")) = [lit "a"; lit "b"; lit "c"].
Proof. reflexivity. Qed.


(** ** Facts about the extraction pipeline *)

Section ExtractionFacts.

Variable P : Platform.
Implicit Types w : World P.

Lemma scanSelectors_firstContainer (d : Dom P) selectors :
  scanSelectors P d selectors
  = option_map element_text (firstContainer P d selectors).
Proof.
  induction selectors as [|selector rest IH]; simpl; [reflexivity|].
  destruct (querySelector P d selector); [reflexivity | exact IH].
Qed.

(** The structured extractor always completes normally: whatever Readability
    or Turndown throw is caught and logged.  It leaves the page, the outbox
    and the responses alone. *)
Lemma extractMainContent_spec w :
  exists w',
    extractMainContent P w = (Normal (structured w), w')
    /\ samePage w w' /\ outbox w' = outbox w /\ replies w' = replies w.
Proof.
  unfold structured, extractMainContent, tryCatch, bind, reads, lift, ret.
  destruct (Readability_parse P _ _) as [[[article|]|e] d']; cbn.
  - destruct (TurndownService P turndownOptions) as [turndown|e]; cbn.
    + destruct (truthy (rd_content article)); cbn.
      * destruct (turndown _) as [md|e]; cbn;
          eexists; repeat split; reflexivity.
      * eexists; repeat split; reflexivity.
    + eexists; repeat split; reflexivity.
  - eexists; repeat split; reflexivity.
  - eexists; repeat split; reflexivity.
Qed.

Lemma structured_document w w' :
  document w = document w' -> structured w = structured w'.
Proof.
  intros Hd.
  unfold structured, extractMainContent, tryCatch, bind, reads, lift, ret.
  rewrite Hd.
  destruct (Readability_parse P _ _) as [[[article|]|e] d']; cbn;
    try reflexivity.
  destruct (TurndownService P turndownOptions) as [turndown|e]; cbn;
    try reflexivity.
  destruct (truthy (rd_content article)); cbn; try reflexivity.
  destruct (turndown _) as [md|e]; reflexivity.
Qed.

(** An article that comes out of [extractMainContent] carries the length of
    its own content. *)
Lemma structured_length w article :
  structured w = Some article ->
  art_length article = List.length (art_content article).
Proof.
  unfold structured, extractMainContent, tryCatch, bind, reads, lift, ret.
  destruct (Readability_parse P _ _) as [[[parsed|]|e] d']; cbn;
    try discriminate.
  destruct (TurndownService P turndownOptions) as [turndown|e]; cbn;
    try discriminate.
  destruct (truthy (rd_content parsed)); cbn.
  - destruct (turndown _) as [md|e]; cbn; try discriminate.
    intros H; injection H as <-. cbn. destruct md; reflexivity.
  - intros H; injection H as <-. cbn.
    destruct (or_str (rd_textContent parsed) []); reflexivity.
Qed.

Lemma prepareResult_samePage text has article w w' :
  samePage w w' ->
  prepareResult P text has article w = prepareResult P text has article w'.
Proof.
  intros (Hd & _).
  unfold prepareResult, getPageTitle, getMetaDescription, getMetaAuthor,
    getMetaDate, getMetaKeywords, getMetaImage, getFaviconUrl, getMetaContent,
    window_location.
  rewrite Hd. reflexivity.
Qed.

Lemma samePage_refl w : samePage w w.
Proof. repeat split. Qed.

Lemma samePage_trans w1 w2 w3 :
  samePage w1 w2 -> samePage w2 w3 -> samePage w1 w3.
Proof. intros (A & B) (A' & B'). repeat split; congruence. Qed.

Lemma sourceOf_samePage w w' : samePage w w' -> sourceOf w = sourceOf w'.
Proof.
  intros (Hd & Hs). unfold sourceOf.
  rewrite Hs, (structured_document w w' Hd). reflexivity.
Qed.

Lemma fallbackElement_samePage w w' :
  samePage w w' -> fallbackElement w = fallbackElement w'.
Proof. intros (Hd & _). unfold fallbackElement. rewrite Hd. reflexivity. Qed.

Lemma hasSelection_test (text : jstring) :
  (0 <? List.length text)%nat = nonempty text.
Proof. destruct text; reflexivity. Qed.

Lemma useFallback_run result w :
  exists w',
    samePage w w' /\ replies w' = replies w
    /\ outbox w' = outbox w ++ [degradedNotice]
    /\ useFallback P result w
       = (match fallbackElement w with
          | Some element =>
              Normal (useFallbackText (element_text element) result)
          | None =>
              Throw (TypeError
                       "Cannot read properties of null (reading 'innerText')")
          end, w').
Proof.
  unfold useFallback, extractFallbackContent, bind, reads, ret, throw,
    chrome_runtime_sendMessage, fallbackElement.
  cbn -[scanSelectors firstContainer fallbackSelectors].
  rewrite scanSelectors_firstContainer.
  destruct (firstContainer P (document w) fallbackSelectors) as [element|]; cbn.
  - eexists; refine (conj _ (conj _ (conj _ eq_refl)));
      [repeat split | reflexivity | reflexivity].
  - destruct (document_body P (document w)) as [body|]; cbn;
      (eexists; refine (conj _ (conj _ (conj _ eq_refl)));
       [repeat split | reflexivity | reflexivity]).
Qed.

(** The three ways [extractPageData] can go once the selection is readable. *)
Lemma extractPageData_cases w text :
  selection w = Some text ->
  let base :=
    prepareResult P (trim text) (nonempty (trim text)) (structured w) w in
  exists w1,
    samePage w w1 /\ replies w1 = replies w
    /\ ((sourceOf w = Some SELECTION /\ nonempty (trim text) = true
         /\ outbox w1 = outbox w
         /\ extractPageData P w
            = (Normal (descriptionAsExcerpt (useSelection base)), w1))
        \/ (exists article,
              sourceOf w = Some STRUCTURED /\ nonempty (trim text) = false
              /\ structured w = Some article
              /\ nonempty (art_content article) = true
              /\ outbox w1 = outbox w
              /\ extractPageData P w
                 = (Normal (descriptionAsExcerpt (useArticle article base)),
                    w1))
        \/ (sourceOf w = Some FALLBACK /\ nonempty (trim text) = false
            /\ outbox w1 = outbox w ++ [degradedNotice]
            /\ extractPageData P w
               = (match fallbackElement w with
                  | Some element =>
                      Normal (descriptionAsExcerpt
                                (useFallbackText (element_text element) base))
                  | None =>
                      Throw (TypeError
                               "Cannot read properties of null (reading 'innerText')")
                  end, w1))).
Proof.
  intros Hsel base.
  destruct (extractMainContent_spec w) as (w0 & E & Hp & Ho & Hr).
  assert (Hrun : extractPageData P w
                 = bind P (determineContent P (structured w) base)
                     (fun result => ret P (descriptionAsExcerpt result)) w0).
  { unfold extractPageData, getSelectedText, bind at 1 2 3 4, reads, ret.
    rewrite Hsel. cbn -[Nat.ltb]. rewrite E. cbn -[Nat.ltb].
    rewrite hasSelection_test.
    rewrite <- (prepareResult_samePage _ _ _ _ _ Hp). reflexivity. }
  rewrite Hrun. unfold sourceOf. rewrite Hsel.
  unfold determineContent, bind. cbn [hasSelection base prepareResult].
  destruct (nonempty (trim text)) eqn:Hn.
  - exists w0. split; [exact Hp|]. split; [exact Hr|]. left.
    repeat split; try assumption. 
  - assert (Hfb :
      exists w1, samePage w w1 /\ replies w1 = replies w
        /\ outbox w1 = outbox w ++ [degradedNotice]
        /\ (let (c, w') := useFallback P base w0 in
            match c with
            | Normal a => ret P (descriptionAsExcerpt a) w'
            | Throw e => (Throw e, w')
            end)
           = (match fallbackElement w with
              | Some element =>
                  Normal (descriptionAsExcerpt
                            (useFallbackText (element_text element) base))
              | None =>
                  Throw (TypeError
                           "Cannot read properties of null (reading 'innerText')")
              end, w1)).
    { destruct (useFallback_run base w0) as (w1 & Hp1 & Hr1 & Ho1 & E1).
      exists w1. split; [eapply samePage_trans; eassumption|].
      split; [congruence|]. split; [congruence|].
      rewrite E1, <- (fallbackElement_samePage _ _ Hp).
      destruct (fallbackElement w); reflexivity. }
    destruct (structured w) as [article|] eqn:Hst.
    + destruct (nonempty (art_content article)) eqn:Hc.
      * exists w0. split; [exact Hp|]. split; [exact Hr|]. right; left.
        exists article. repeat split; try assumption.
      * destruct Hfb as (w1 & A & B & C & D). exists w1.
        split; [exact A|]. split; [exact B|]. right; right.
        repeat split; assumption.
    + destruct Hfb as (w1 & A & B & C & D). exists w1.
      split; [exact A|]. split; [exact B|]. right; right.
      repeat split; assumption.
Qed.

(** With no selection object the script throws before it does anything. *)
Lemma extractPageData_noSelectionObject w :
  selection w = None ->
  extractPageData P w
  = (Throw (TypeError "Cannot read properties of null (reading 'toString')"),
     w).
Proof.
  intros Hsel. unfold extractPageData, getSelectedText, bind, reads, throw.
  rewrite Hsel. reflexivity.
Qed.

End ExtractionFacts.

(** ** Fields of the record after each branch *)

Section RecordFacts.

Lemma descriptionAsExcerpt_keeps r :
  url (descriptionAsExcerpt r) = url r
  /\ domain (descriptionAsExcerpt r) = domain r
  /\ title (descriptionAsExcerpt r) = title r
  /\ content (descriptionAsExcerpt r) = content r
  /\ selectedText (descriptionAsExcerpt r) = selectedText r
  /\ hasSelection (descriptionAsExcerpt r) = hasSelection r
  /\ description (descriptionAsExcerpt r) = description r
  /\ author (descriptionAsExcerpt r) = author r
  /\ contentLength (descriptionAsExcerpt r) = contentLength r
  /\ siteName (descriptionAsExcerpt r) = siteName r.
Proof.
  unfold descriptionAsExcerpt.
  destruct (negb (nonempty (excerpt r)) && nonempty (description r));
    repeat split.
Qed.

(** The last step is the identity on a record that already has an excerpt. *)
Lemma descriptionAsExcerpt_idle r :
  excerpt r <> [] -> descriptionAsExcerpt r = r.
Proof.
  unfold descriptionAsExcerpt. destruct (excerpt r); [congruence|reflexivity].
Qed.

Lemma useArticle_keeps article r :
  content (useArticle article r) = art_content article
  /\ excerpt (useArticle article r)
     = or_str (Some (art_excerpt article))
         (substring0 300 (art_content article))
  /\ contentLength (useArticle article r)
     = or_num (art_length article) (List.length (art_content article))
  /\ title (useArticle article r) = or_str (art_title article) (title r)
  /\ selectedText (useArticle article r) = selectedText r
  /\ hasSelection (useArticle article r) = hasSelection r
  /\ description (useArticle article r) = description r
  /\ author (useArticle article r) = author r
  /\ siteName (useArticle article r) = siteName r.
Proof.
  unfold useArticle.
  destruct (art_title article) as [[|c t]|]; cbn; repeat split.
Qed.

Lemma excerpt_of_nonempty (given text : jstring) :
  text <> [] -> or_str (Some given) (substring0 300 text) <> [].
Proof.
  intros Ht. destruct given as [|c t]; cbn; [|discriminate].
  destruct text; [congruence | discriminate].
Qed.

End RecordFacts.

(** ** Properties of the content record *)

Section Properties.

Variable P : Platform.
Implicit Types (w : World P) (r : ContentRecord).

(** What [extractPageData] evaluates to, by the source of the content. *)
Lemma extractPageData_value w text :
  selection w = Some text ->
  let base :=
    prepareResult P (trim text) (nonempty (trim text)) (structured w) w in
  fst (extractPageData P w)
  = match sourceOf w, structured w with
    | Some SELECTION, _ => Normal (descriptionAsExcerpt (useSelection base))
    | Some STRUCTURED, Some article =>
        Normal (descriptionAsExcerpt (useArticle article base))
    | _, _ =>
        match fallbackElement w with
        | Some element =>
            Normal (descriptionAsExcerpt
                      (useFallbackText (element_text element) base))
        | None =>
            Throw (TypeError
                     "Cannot read properties of null (reading 'innerText')")
        end
    end.
Proof.
  intros Hsel base.
  pose proof (extractPageData_cases P w text Hsel) as H.
  cbv zeta in H. fold base in H. clearbody base.
  destruct H
    as (w1 & _ & _ & [(Hs & _ & _ & E) | [(a & Hs & _ & Ha & _ & _ & E)
                                         | (Hs & _ & _ & E)]]);
    rewrite E, Hs; cbn [fst]; try reflexivity.
  rewrite Ha. reflexivity.
Qed.

(** C1.  Whenever the current selection is non-empty after trimming,
    [extractPageData] returns a record with [hasSelection] true whose
    [content] and [selectedText] are both the trimmed selection, whatever
    the structured extractor finds; and in every record returned,
    [selectedText] is the trimmed selection and [hasSelection] is true
    exactly when [selectedText] is non-empty after trimming. *)
Theorem selection_wins w text :
  selection w = Some text ->
  (trim text <> [] ->
   exists r w',
     extractPageData P w = (Normal r, w')
     /\ hasSelection r = true
     /\ content r = trim text
     /\ selectedText r = trim text)
  /\ (forall r w',
        extractPageData P w = (Normal r, w') ->
        selectedText r = trim text
        /\ (hasSelection r = true <-> trim (selectedText r) <> [])
        /\ (hasSelection r = true -> content r = selectedText r)).
Proof.
  intros Hsel.
  destruct (extractPageData_cases P w text Hsel)
    as (w1 & _ & _ & [(_ & Hn & _ & E) | [(a & _ & Hn & _ & _ & _ & E)
                                         | (_ & Hn & _ & E)]]).
  - split.
    + intros _. eexists _, _. split; [exact E|].
      destruct (descriptionAsExcerpt_keeps
                  (useSelection
                     (prepareResult P (trim text) (nonempty (trim text))
                        (structured w) w)))
        as (_ & _ & _ & Hc & Hst & Hh & _).
      rewrite Hc, Hst, Hh. cbn -[trim nonempty]. repeat split. exact Hn.
    + intros r w' H. rewrite E in H. injection H as <- _.
      destruct (descriptionAsExcerpt_keeps
                  (useSelection
                     (prepareResult P (trim text) (nonempty (trim text))
                        (structured w) w)))
        as (_ & _ & _ & Hc & Hst & Hh & _).
      rewrite Hc, Hst, Hh. cbn -[trim nonempty]. rewrite trim_idem.
      repeat split; auto. intros _. now apply nonempty_true.
  - split.
    + intros Hne. apply nonempty_true in Hne. congruence.
    + intros r w' H. rewrite E in H. injection H as <- _.
      destruct (descriptionAsExcerpt_keeps
                  (useArticle a
                     (prepareResult P (trim text) (nonempty (trim text))
                        (structured w) w)))
        as (_ & _ & _ & _ & Hst & Hh & _).
      destruct (useArticle_keeps a
                  (prepareResult P (trim text) (nonempty (trim text))
                     (structured w) w))
        as (_ & _ & _ & _ & Hst' & Hh' & _).
      rewrite Hst, Hh, Hst', Hh'. cbn -[trim nonempty]. rewrite trim_idem, Hn.
      split; [reflexivity|]. split; [|discriminate].
      split; [discriminate|]. intros Hne. apply nonempty_true in Hne. congruence.
  - split.
    + intros Hne. apply nonempty_true in Hne. congruence.
    + intros r w' H. rewrite E in H.
      destruct (fallbackElement w) as [element|]; [|discriminate].
      injection H as <- _.
      destruct (descriptionAsExcerpt_keeps
                  (useFallbackText (element_text element)
                     (prepareResult P (trim text) (nonempty (trim text))
                        (structured w) w)))
        as (_ & _ & _ & _ & Hst & Hh & _).
      rewrite Hst, Hh. cbn -[trim nonempty]. rewrite trim_idem, Hn.
      split; [reflexivity|]. split; [|discriminate].
      split; [discriminate|]. intros Hne. apply nonempty_true in Hne. congruence.
Qed.

(** C2.  In every record returned by [extractPageData], on the selection,
    structured and fallback branches alike, [contentLength] is exactly the
    length of [content]. *)
Theorem contentLength_exact w r w' :
  extractPageData P w = (Normal r, w') ->
  contentLength r = List.length (content r).
Proof.
  intros H.
  destruct (selection w) as [text|] eqn:Hsel;
    [|rewrite (extractPageData_noSelectionObject P w Hsel) in H; discriminate].
  destruct (extractPageData_cases P w text Hsel)
    as (w1 & _ & _ & [(_ & _ & _ & E) | [(a & _ & _ & Ha & Hc & _ & E)
                                        | (_ & _ & _ & E)]]);
    rewrite E in H.
  - injection H as <- _.
    destruct (descriptionAsExcerpt_keeps
                (useSelection
                   (prepareResult P (trim text) (nonempty (trim text))
                      (structured w) w)))
      as (_ & _ & _ & Hco & _ & _ & _ & _ & Hl & _).
    rewrite Hco, Hl. reflexivity.
  - injection H as <- _.
    destruct (descriptionAsExcerpt_keeps
                (useArticle a
                   (prepareResult P (trim text) (nonempty (trim text))
                      (structured w) w)))
      as (_ & _ & _ & Hco & _ & _ & _ & _ & Hl & _).
    destruct (useArticle_keeps a
                (prepareResult P (trim text) (nonempty (trim text))
                   (structured w) w))
      as (Hco' & _ & Hl' & _).
    rewrite Hco, Hl, Hco', Hl', (structured_length P w a Ha).
    destruct (art_content a); reflexivity.
  - destruct (fallbackElement w) as [element|]; [|discriminate].
    injection H as <- _.
    destruct (descriptionAsExcerpt_keeps
                (useFallbackText (element_text element)
                   (prepareResult P (trim text) (nonempty (trim text))
                      (structured w) w)))
      as (_ & _ & _ & Hco & _ & _ & _ & _ & Hl & _).
    rewrite Hco, Hl. reflexivity.
Qed.

(** Every record that [extractPageData] returns was put together on one of
    the three branches and then passed through the last step. *)
Lemma extractPageData_returns w r w' :
  extractPageData P w = (Normal r, w') ->
  exists text base r0,
    selection w = Some text
    /\ base = prepareResult P (trim text) (nonempty (trim text))
                (structured w) w
    /\ r = descriptionAsExcerpt r0
    /\ ((sourceOf w = Some SELECTION /\ nonempty (trim text) = true
         /\ r0 = useSelection base)
        \/ (exists article,
              sourceOf w = Some STRUCTURED /\ nonempty (trim text) = false
              /\ structured w = Some article
              /\ nonempty (art_content article) = true
              /\ r0 = useArticle article base)
        \/ (exists element,
              sourceOf w = Some FALLBACK /\ nonempty (trim text) = false
              /\ fallbackElement w = Some element
              /\ r0 = useFallbackText (element_text element) base)).
Proof.
  intros H.
  destruct (selection w) as [text|] eqn:Hsel;
    [|rewrite (extractPageData_noSelectionObject P w Hsel) in H; discriminate].
  exists text. eexists. 
  destruct (extractPageData_cases P w text Hsel)
    as (w1 & _ & _ & [(Hs & Hn & _ & E) | [(a & Hs & Hn & Ha & Hc & _ & E)
                                          | (Hs & Hn & _ & E)]]);
    rewrite E in H.
  - injection H as <- _. eexists. repeat split. left. repeat split; assumption.
  - injection H as <- _. eexists. repeat split. right; left.
    exists a. repeat split; assumption.
  - destruct (fallbackElement w) as [element|]; [|discriminate].
    injection H as <- _. eexists. repeat split. right; right.
    exists element. repeat split; assumption.
Qed.

(** C3, as the code has it.  On the fallback branch the content is the text
    of the first container that the selector list finds, and the text of the
    body only when the list finds none: with such an element at hand the
    extraction returns a record whose content is that element's text; and
    when no container is found, a record with empty content means that the
    body has no text. *)
Theorem fallback_content w :
  sourceOf w = Some FALLBACK ->
  (forall element,
     fallbackElement w = Some element ->
     exists r w',
       extractPageData P w = (Normal r, w')
       /\ content r = element_text element)
  /\ (firstContainer P (document w) fallbackSelectors = None ->
      forall r w' body,
        extractPageData P w = (Normal r, w') ->
        document_body P (document w) = Some body ->
        content r = element_text body
        /\ (content r = [] -> element_text body = [])).
Proof.
  intros Hsrc. split.
  - intros element Hel.
    destruct (selection w) as [text|] eqn:Hsel;
      [|unfold sourceOf in Hsrc; rewrite Hsel in Hsrc; discriminate].
    destruct (extractPageData_cases P w text Hsel)
      as (w1 & _ & _ & [(Hs & _) | [(a & Hs & _) | (_ & _ & _ & E)]]);
      try congruence.
    rewrite Hel in E. eexists _, _. split; [exact E|].
    destruct (descriptionAsExcerpt_keeps
                (useFallbackText (element_text element)
                   (prepareResult P (trim text) (nonempty (trim text))
                      (structured w) w)))
      as (_ & _ & _ & Hc & _).
    rewrite Hc. reflexivity.
  - intros Hnone r w' body H Hbody.
    destruct (extractPageData_returns w r w' H)
      as (text & base & r0 & _ & _ & -> & [(Hs & _) | [(a & Hs & _)
                                          | (element & _ & _ & Hel & ->)]]);
      try congruence.
    unfold fallbackElement in Hel. rewrite Hnone, Hbody in Hel.
    injection Hel as <-.
    destruct (descriptionAsExcerpt_keeps
                (useFallbackText (element_text body) base))
      as (_ & _ & _ & Hc & _).
    rewrite Hc. cbn. split; [reflexivity | trivial].
Qed.

(** C4.  In every record returned, the title is the extractor's title when
    the structured branch was taken and that title is non-empty, and the
    metadata title otherwise, which is the first non-empty of [og:title],
    [twitter:title] and the document title, else the empty string. *)
Theorem title_precedence w r w' :
  extractPageData P w = (Normal r, w') ->
  title r
  = match sourceOf w, structured w with
    | Some STRUCTURED, Some article =>
        or_str (art_title article) (getPageTitle P w)
    | _, _ => getPageTitle P w
    end
  /\ getPageTitle P w
     = firstNonEmpty [ getMetaContent P w "og:title";
                       getMetaContent P w "twitter:title";
                       Some (document_title P (document w)) ].
Proof.
  intros H. split.
  - destruct (extractPageData_returns w r w' H)
      as (text & base & r0 & _ & Hb & -> & [(Hs & _ & ->) | [(a & Hs & _ & Ha & _ & ->)
                                          | (element & Hs & _ & _ & ->)]]);
      rewrite Hs;
      match goal with
      | |- title (descriptionAsExcerpt ?x) = _ =>
          destruct (descriptionAsExcerpt_keeps x) as (_ & _ & -> & _)
      end.
    + subst base. reflexivity.
    + rewrite Ha.
      destruct (useArticle_keeps a base) as (_ & _ & _ & -> & _).
      subst base. reflexivity.
    + subst base. destruct (structured w); reflexivity.
  - unfold getPageTitle, firstNonEmpty, or_str.
    destruct (getMetaContent P w "og:title") as [[|c t]|];
      destruct (getMetaContent P w "twitter:title") as [[|c' t']|];
      destruct (document_title P (document w)); reflexivity.
Qed.

(** C5.  Whenever the excerpt of a returned record comes from truncation
    (on the selection branch; on the structured branch when the extractor
    gave no excerpt; on the fallback branch unless the description stepped
    in for an empty content), it is the first 300 code units of its source
    and so at most 300 long. *)
Theorem excerpt_capped w r w' :
  extractPageData P w = (Normal r, w') ->
  (sourceOf w = Some SELECTION ->
   excerpt r = substring0 300 (selectedText r)
   /\ List.length (excerpt r) <= 300)
  /\ (sourceOf w = Some STRUCTURED ->
      (forall article, structured w = Some article -> art_excerpt article = []) ->
      excerpt r = substring0 300 (content r)
      /\ List.length (excerpt r) <= 300)
  /\ (sourceOf w = Some FALLBACK ->
      content r <> [] \/ description r = [] ->
      excerpt r = substring0 300 (content r)
      /\ List.length (excerpt r) <= 300).
Proof.
  intros H.
  destruct (extractPageData_returns w r w' H)
    as (text & base & r0 & _ & Hb & -> & [(Hs & Hn & ->) | [(a & Hs & _ & Ha & Hc & ->)
                                        | (element & Hs & _ & _ & ->)]]);
    rewrite Hs; (split; [|split]); try discriminate.
  - intros _. apply nonempty_true in Hn.
    assert (Hex : excerpt (useSelection base) = substring0 300 (trim text))
      by (subst base; reflexivity).
    rewrite descriptionAsExcerpt_idle.
    + rewrite Hex. split; [subst base; reflexivity | apply substring0_length].
    + rewrite Hex. destruct (trim text); [congruence | discriminate].
  - intros _ Hnone. apply nonempty_true in Hc.
    destruct (useArticle_keeps a base) as (Hco & Hex & _).
    rewrite descriptionAsExcerpt_idle.
    + rewrite Hex, Hco, (Hnone a Ha). cbn -[substring0].
      split; [reflexivity | apply substring0_length].
    + rewrite Hex. now apply excerpt_of_nonempty.
  - intros _ Hor.
    destruct (descriptionAsExcerpt_keeps
                (useFallbackText (element_text element) base))
      as (_ & _ & _ & Hco & _ & _ & Hde & _).
    rewrite Hco, Hde in Hor. rewrite Hco. cbn -[substring0] in Hor |- *.
    unfold descriptionAsExcerpt. cbn -[substring0].
    destruct (element_text element) as [|c t] eqn:Het; cbn -[substring0].
    + destruct Hor as [Hor|Hor]; [congruence|].
      cbn -[substring0] in Hor. rewrite Hor. cbn. split; [reflexivity | lia].
    + split; [reflexivity|]. apply (substring0_length 300 (c :: t)).
Qed.

(** C6, as the code has it.  In every record returned, the author is the
    metadata author when that is non-empty and otherwise the extractor's
    byline (empty when the extractor gave nothing); the site name is the
    extractor's site name whenever the extractor gave an article, be that
    name empty or not, and the host name of the page only when the extractor
    gave nothing. *)
Theorem author_siteName_fallbacks w r w' :
  extractPageData P w = (Normal r, w') ->
  author r
  = (if nonempty (getMetaAuthor P w) then getMetaAuthor P w
     else match structured w with
          | Some article => art_byline article
          | None => []
          end)
  /\ siteName r
     = match structured w with
       | Some article => art_siteName article
       | None => location_hostname (window_location P w)
       end.
Proof.
  intros H.
  assert (Hbase : forall text has,
            let base := prepareResult P text has (structured w) w in
            author base
            = (if nonempty (getMetaAuthor P w) then getMetaAuthor P w
               else match structured w with
                    | Some article => art_byline article
                    | None => []
                    end)
            /\ siteName base
               = match structured w with
                 | Some article => art_siteName article
                 | None => location_hostname (window_location P w)
                 end).
  { intros text has. cbn. split; [|reflexivity].
    destruct (getMetaAuthor P w); reflexivity. }
  destruct (extractPageData_returns w r w' H)
    as (text & base & r0 & _ & Hb & -> & [(_ & _ & ->) | [(a & _ & _ & _ & _ & ->)
                                        | (element & _ & _ & _ & ->)]]);
    match goal with
    | |- author (descriptionAsExcerpt ?x) = _ /\ _ =>
        destruct (descriptionAsExcerpt_keeps x)
          as (_ & _ & _ & _ & _ & _ & _ & -> & _ & ->)
    end;
    try (destruct (useArticle_keeps a base)
           as (_ & _ & _ & _ & _ & _ & _ & -> & ->));
    subst base; apply Hbase.
Qed.

(** The outcome of [extractPageData] is a function of the page. *)
Lemma extractPageData_samePage w w' :
  samePage w w' ->
  fst (extractPageData P w) = fst (extractPageData P w').
Proof.
  intros Hp.
  destruct (selection w) as [text|] eqn:Hsel.
  - assert (Hsel' : selection w' = Some text)
      by (destruct Hp as (_ & <-); exact Hsel).
    rewrite (extractPageData_value w text Hsel),
      (extractPageData_value w' text Hsel').
    rewrite <- (sourceOf_samePage P w w' Hp),
      <- (fallbackElement_samePage P w w' Hp),
      <- (structured_document P w w' (proj1 Hp)),
      <- (prepareResult_samePage P _ _ _ w w' Hp).
    reflexivity.
  - assert (Hsel' : selection w' = None)
      by (destruct Hp as (_ & <-); exact Hsel).
    rewrite (extractPageData_noSelectionObject P w Hsel),
      (extractPageData_noSelectionObject P w' Hsel').
    reflexivity.
Qed.

(** [extractPageData] returns a record unless the selection object is
    missing or the fallback branch finds neither a container nor a body. *)
Lemma extractPageData_returns_iff w :
  (exists r w', extractPageData P w = (Normal r, w'))
  <-> (selection w <> None
       /\ (sourceOf w = Some FALLBACK -> fallbackElement w <> None)).
Proof.
  split.
  - intros (r & w' & H).
    destruct (extractPageData_returns w r w' H)
      as (text & base & r0 & Hsel & _ & _ & [(Hs & _) | [(a & Hs & _)
                                           | (element & _ & _ & Hel & _)]]);
      (split; [congruence|]); congruence.
  - intros (Hsel & Hfb).
    destruct (selection w) as [text|] eqn:Hsel'; [|congruence].
    destruct (extractPageData_cases P w text Hsel')
      as (w1 & _ & _ & [(_ & _ & _ & E) | [(a & _ & _ & _ & _ & _ & E)
                                          | (Hs & _ & _ & E)]]);
      try (eexists _, _; exact E).
    destruct (fallbackElement w) as [element|]; [|exfalso; now apply Hfb].
    eexists _, _; exact E.
Qed.

(** What a run of [extractPageData] does to the globals: the page and the
    responses stay as they were, and the outbox grows by the notice exactly
    when the fallback branch is taken. *)
Lemma extractPageData_effects w :
  samePage w (snd (extractPageData P w))
  /\ replies (snd (extractPageData P w)) = replies w
  /\ outbox (snd (extractPageData P w))
     = outbox w ++ match sourceOf w with
                   | Some FALLBACK => [degradedNotice]
                   | _ => []
                   end.
Proof.
  destruct (selection w) as [text|] eqn:Hsel.
  - destruct (extractPageData_cases P w text Hsel)
      as (w1 & Hp & Hr & [(Hs & _ & Ho & E) | [(a & Hs & _ & _ & _ & Ho & E)
                                              | (Hs & _ & Ho & E)]]);
      rewrite E, Hs; cbn [snd]; rewrite Ho, ?app_nil_r; auto.
  - rewrite (extractPageData_noSelectionObject P w Hsel). cbn [snd].
    unfold sourceOf. rewrite Hsel, app_nil_r.
    split; [apply samePage_refl | split; reflexivity].
Qed.

(** The listener on an extraction request: it completes with [true] after
    one more response, success with the record or failure with the message
    of what was thrown. *)
Lemma onMessage_extract w request :
  action request = "extractPageData" ->
  exists w2,
    onMessage P request w = (Normal true, w2)
    /\ outbox w2 = outbox (snd (extractPageData P w))
    /\ replies w2
       = replies (snd (extractPageData P w))
           ++ [match fst (extractPageData P w) with
               | Normal pageData =>
                   {| success := true; data := Some pageData; error := None |}
               | Throw e =>
                   {| success := false; data := None;
                      error := Some (message e) |}
               end].
Proof.
  intros Hact.
  unfold onMessage, bind at 1, tryCatch, bind at 1, sendResponse,
    console_error, ret.
  rewrite Hact. cbn [String.eqb Ascii.eqb Bool.eqb].
  change (String.eqb "extractPageData" "extractPageData") with true.
  cbn iota.
  destruct (extractPageData P w) as [[pageData|e] w1]; cbn;
    eexists; (split; [reflexivity|]); split; reflexivity.
Qed.

(** C7.  A run of [extractPageData], and so a run of the listener on an
    extraction request, hands the degraded-extraction notice to the runtime
    exactly once when the fallback branch is taken and hands it nothing on
    the selection and structured branches; the promise of the delivery is
    not awaited: whatever it settles to, the outcome of the extraction is
    the same. *)
Theorem notification_once w :
  outbox (snd (extractPageData P w))
  = outbox w ++ match sourceOf w with
                | Some FALLBACK => [degradedNotice]
                | _ => []
                end
  /\ outbox (snd (onMessage P {| action := "extractPageData" |} w))
     = outbox w ++ match sourceOf w with
                   | Some FALLBACK => [degradedNotice]
                   | _ => []
                   end
  /\ (forall settle,
        fst (extractPageData P (withSettlement settle w))
        = fst (extractPageData P w)).
Proof.
  destruct (extractPageData_effects w) as (_ & _ & Ho).
  split; [exact Ho|]. split.
  - destruct (onMessage_extract w {| action := "extractPageData" |} eq_refl)
      as (w2 & E & Ho2 & _).
    rewrite E. cbn [snd]. congruence.
  - intros settle. apply extractPageData_samePage. split; reflexivity.
Qed.

(** C8.  The listener never throws: on every request and in every state it
    completes normally with [true]; on an extraction request it responds
    exactly once, with the record when [extractPageData] returned one and
    with a failure carrying the message of the exception when
    [extractPageData] threw; on any other request it does not respond. *)
Theorem listener_never_throws w request :
  exists w2,
    onMessage P request w = (Normal true, w2)
    /\ replies w2
       = replies w
           ++ (if String.eqb (action request) "extractPageData"
               then [match fst (extractPageData P w) with
                     | Normal pageData =>
                         {| success := true; data := Some pageData;
                            error := None |}
                     | Throw e =>
                         {| success := false; data := None;
                            error := Some (message e) |}
                     end]
               else []).
Proof.
  destruct (String.eqb (action request) "extractPageData") eqn:Hact.
  - apply String.eqb_eq in Hact.
    destruct (onMessage_extract w request Hact) as (w2 & E & _ & Hr).
    destruct (extractPageData_effects w) as (_ & Hr1 & _).
    exists w2. split; [exact E|]. rewrite Hr, Hr1. reflexivity.
  - exists w. unfold onMessage, bind, ret. rewrite Hact.
    rewrite app_nil_r. split; reflexivity.
Qed.

(** C9.  The outcome of [extractPageData] is a function of the document
    and the selection: in two states with the same document and the same
    selection it is the same, record for record and field for field; a run
    leaves document and selection as they were, and so a second run right
    after the first gives the same outcome again. *)
Theorem extraction_deterministic w w' :
  samePage w w' ->
  fst (extractPageData P w) = fst (extractPageData P w')
  /\ samePage w (snd (extractPageData P w))
  /\ fst (extractPageData P (snd (extractPageData P w)))
     = fst (extractPageData P w).
Proof.
  intros Hp. destruct (extractPageData_effects w) as (Hkeep & _).
  split; [exact (extractPageData_samePage _ _ Hp)|]. split; [exact Hkeep|].
  symmetry. exact (extractPageData_samePage _ _ Hkeep).
Qed.

(** C10.  In every record returned, a non-empty content comes with a
    non-empty excerpt, and on the selection and structured branches both are
    non-empty; accordingly the last step, which puts the description in for
    a missing excerpt, changes the record chosen by [determineContent] only
    when that record's content is empty. *)
Theorem excerpt_nonempty w r w' :
  extractPageData P w = (Normal r, w') ->
  (content r <> [] -> excerpt r <> [])
  /\ (sourceOf w = Some SELECTION \/ sourceOf w = Some STRUCTURED ->
      content r <> [] /\ excerpt r <> [])
  /\ (forall article result w0 r0 w1,
        determineContent P article result w0 = (Normal r0, w1) ->
        descriptionAsExcerpt r0 <> r0 -> content r0 = []).
Proof.
  intros H.
  assert (Hsel : forall base,
            selectedText base <> [] ->
            content (useSelection base) <> []
            /\ excerpt (useSelection base) <> []).
  { intros base Hne. cbn -[substring0]. split; [exact Hne|].
    destruct (selectedText base); [congruence | discriminate]. }
  assert (Hart : forall a base,
            art_content a <> [] ->
            content (useArticle a base) <> []
            /\ excerpt (useArticle a base) <> []).
  { intros a base Hne.
    destruct (useArticle_keeps a base) as (-> & -> & _).
    split; [exact Hne | now apply excerpt_of_nonempty]. }
  assert (Hfb : forall text base,
            text <> [] -> excerpt (useFallbackText text base) <> []).
  { intros text base Hne. cbn -[substring0].
    destruct text; [congruence | discriminate]. }
  assert (Hlast : forall r0,
            (content r0 <> [] -> excerpt r0 <> []) ->
            content (descriptionAsExcerpt r0) <> [] ->
            excerpt (descriptionAsExcerpt r0) <> []).
  { intros r0 Himp Hne.
    destruct (descriptionAsExcerpt_keeps r0) as (_ & _ & _ & Hc & _).
    rewrite Hc in Hne. rewrite (descriptionAsExcerpt_idle r0 (Himp Hne)).
    exact (Himp Hne). }
  split; [|split].
  - destruct (extractPageData_returns w r w' H)
      as (text & base & r0 & _ & Hb & -> & [(_ & Hn & ->) | [(a & _ & _ & _ & Hc & ->)
                                          | (element & _ & _ & _ & ->)]]);
      apply Hlast; intros Hne.
    + apply Hsel. subst base. cbn. now apply nonempty_true.
    + apply Hart. now apply nonempty_true.
    + apply Hfb. exact Hne.
  - intros Hsrc.
    destruct (extractPageData_returns w r w' H)
      as (text & base & r0 & _ & Hb & -> & [(_ & Hn & ->) | [(a & _ & _ & _ & Hc & ->)
                                          | (element & Hs & _)]]).
    + assert (Hne : selectedText base <> [])
        by (subst base; cbn; now apply nonempty_true).
      destruct (Hsel base Hne) as (Hc & He).
      rewrite (descriptionAsExcerpt_idle _ He). split; assumption.
    + apply nonempty_true in Hc.
      destruct (Hart a base Hc) as (Hc' & He).
      rewrite (descriptionAsExcerpt_idle _ He). split; assumption.
    + destruct Hsrc; congruence.
  - intros article result w0 r0 w1 Hrun Hchanged.
    destruct (content r0) as [|c t] eqn:Hcontent; [reflexivity|].
    exfalso. apply Hchanged. apply descriptionAsExcerpt_idle.
    unfold determineContent in Hrun.
    destruct (hasSelection result).
    + injection Hrun as <- _. cbn -[substring0] in Hcontent |- *.
      rewrite Hcontent. discriminate.
    + assert (Hfall : useFallback P result w0 = (Normal r0, w1) ->
                      excerpt r0 <> []).
      { intros Hf.
        destruct (useFallback_run P result w0) as (w2 & _ & _ & _ & E).
        rewrite E in Hf.
        destruct (fallbackElement w0) as [element|]; [|discriminate].
        injection Hf as <- _. apply Hfb.
        cbn in Hcontent. rewrite Hcontent. discriminate. }
      destruct article as [a|]; [|exact (Hfall Hrun)].
      destruct (nonempty (art_content a)) eqn:Hc; [|exact (Hfall Hrun)].
      injection Hrun as <- _. apply Hart. now apply nonempty_true.
Qed.

End Properties.

(** ** The script on the sample pages *)

(** Scenario A: a selection is the content, and its own excerpt. *)
Example scenario_selection :
  option_map (fun r => (content r, hasSelection r, excerpt r))
    (returned (fst (extractPageData Sample.platform Sample.withSelection)))
  = Some (lit "Hello world", true, lit "Hello world").
Proof. reflexivity. Qed.

(** Scenario B: the extractor's title replaces [og:title]. *)
Example scenario_structured :
  sourceOf Sample.withArticle = Some STRUCTURED
  /\ getPageTitle Sample.platform Sample.withArticle = lit "OG Title"
  /\ option_map title
       (returned (fst (extractPageData Sample.platform Sample.withArticle)))
     = Some (lit "Extractor Title").
Proof. repeat split. Qed.

(** Scenario C: no container, the body's text, one notice. *)
Example scenario_fallback :
  sourceOf Sample.plain = Some FALLBACK
  /\ option_map content
       (returned (fst (extractPageData Sample.platform Sample.plain)))
     = Some (lit "Hello")
  /\ outbox (snd (extractPageData Sample.platform Sample.plain))
     = [degradedNotice].
Proof. repeat split. Qed.

(** The notice cannot be delivered: the record is returned all the same. *)
Example fallback_with_undeliverable_notice :
  option_map content
    (returned
       (fst (extractPageData Sample.platform
               (withSettlement Sample.undeliverable Sample.plain))))
  = Some (lit "Hello").
Proof. reflexivity. Qed.

(** A page without body on which Readability throws: the parse error is
    logged and swallowed, the missing body surfaces as a failure response. *)
Example listener_on_broken_page :
  let after :=
    snd (onMessage Sample.platform {| action := "extractPageData" |}
           Sample.broken) in
  replies after
  = [ {| success := false; data := None;
         error :=
           Some "Cannot read properties of null (reading 'innerText')" |} ]
  /\ map log_label (console after)
     = [ "Readability extraction error:"; "Content extraction error:" ]
  /\ outbox after = [degradedNotice].
Proof. repeat split. Qed.

Example listener_without_selection_object :
  replies (snd (onMessage Sample.platform {| action := "extractPageData" |}
                  Sample.noSelectionObject))
  = [ {| success := false; data := None;
         error :=
           Some "Cannot read properties of null (reading 'toString')" |} ].
Proof. reflexivity. Qed.

(** ** Instances of the properties, and where two stated ones fail *)

Lemma selection_wins_witness :
  selection Sample.withSelection = Some (lit "  Hello world ")
  /\ exists r w',
       extractPageData Sample.platform Sample.withSelection = (Normal r, w')
       /\ hasSelection r = true
       /\ content r = lit "Hello world"
       /\ selectedText r = lit "Hello world".
Proof.
  split; [reflexivity|].
  apply (proj1 (selection_wins Sample.platform Sample.withSelection
                  (lit "  Hello world ") eq_refl)).
  vm_compute. discriminate.
Defined.

Lemma contentLength_exact_witness :
  exists r w',
    extractPageData Sample.platform Sample.withArticle = (Normal r, w')
    /\ contentLength r = List.length (content r)
    /\ contentLength r = 24.
Proof.
  eexists _, _. split; [vm_compute; reflexivity|]. split; [|reflexivity].
  apply (contentLength_exact Sample.platform Sample.withArticle _ _ eq_refl).
Defined.

(** C3 as stated fails: Readability gives nothing, the body reads "Hello",
    yet the empty [<article>] element is found first and the content is
    empty. *)
Lemma fallback_empty_despite_body_text :
  structured Sample.emptyArticle = None
  /\ sourceOf Sample.emptyArticle = Some FALLBACK
  /\ option_map element_text
       (document_body Sample.platform (document Sample.emptyArticle))
     = Some (lit "Hello")
  /\ option_map content
       (returned (fst (extractPageData Sample.platform Sample.emptyArticle)))
     = Some [].
Proof. repeat split. Qed.

Lemma fallback_content_witness :
  sourceOf Sample.plain = Some FALLBACK
  /\ fallbackElement Sample.plain = Some (Sample.textNode "Hello")
  /\ exists r w',
       extractPageData Sample.platform Sample.plain = (Normal r, w')
       /\ content r = lit "Hello".
Proof.
  split; [reflexivity|]. split; [reflexivity|].
  apply (proj1 (fallback_content Sample.platform Sample.plain eq_refl)
           (Sample.textNode "Hello") eq_refl).
Defined.

Lemma title_precedence_witness :
  exists r w',
    extractPageData Sample.platform Sample.withArticle = (Normal r, w')
    /\ title r = lit "Extractor Title".
Proof.
  eexists _, _. split; [vm_compute; reflexivity|].
  apply (proj1 (title_precedence Sample.platform Sample.withArticle _ _
                  eq_refl)).
Defined.

Lemma excerpt_capped_witness :
  exists r w',
    extractPageData Sample.platform Sample.withSelection = (Normal r, w')
    /\ sourceOf Sample.withSelection = Some SELECTION
    /\ excerpt r = substring0 300 (selectedText r)
    /\ List.length (excerpt r) <= 300.
Proof.
  eexists _, _. split; [vm_compute; reflexivity|]. split; [reflexivity|].
  apply (proj1 (excerpt_capped Sample.platform Sample.withSelection _ _
                  eq_refl) eq_refl).
Defined.

(** C6 as stated fails: the extractor gives an article without site name,
    and the record's site name is empty, not the host name. *)
Lemma siteName_empty_not_hostname :
  option_map art_siteName (structured Sample.withArticle) = Some []
  /\ location_hostname (window_location Sample.platform Sample.withArticle) = lit "example.com"
  /\ option_map siteName
       (returned (fst (extractPageData Sample.platform Sample.withArticle)))
     = Some []
  /\ option_map siteName
       (returned (fst (extractPageData Sample.platform Sample.withArticle)))
     <> Some (location_hostname (window_location Sample.platform Sample.withArticle)).
Proof. repeat split. discriminate. Qed.

Lemma author_siteName_fallbacks_witness :
  exists r w',
    extractPageData Sample.platform Sample.withArticle = (Normal r, w')
    /\ author r = lit "A. Writer"
    /\ siteName r = [].
Proof.
  eexists _, _. split; [vm_compute; reflexivity|].
  apply (author_siteName_fallbacks Sample.platform Sample.withArticle _ _
           eq_refl).
Defined.

Lemma extraction_deterministic_witness :
  samePage Sample.withArticle Sample.withArticleLater
  /\ fst (extractPageData Sample.platform Sample.withArticle)
     = fst (extractPageData Sample.platform Sample.withArticleLater).
Proof.
  assert (H : samePage Sample.withArticle Sample.withArticleLater)
    by (repeat split; reflexivity).
  split; [exact H|].
  apply (proj1 (extraction_deterministic Sample.platform Sample.withArticle
                  Sample.withArticleLater H)).
Defined.

Lemma excerpt_nonempty_witness :
  exists r w',
    extractPageData Sample.platform Sample.plain = (Normal r, w')
    /\ content r = lit "Hello"
    /\ excerpt r <> [].
Proof.
  eexists _, _. split; [vm_compute; reflexivity|]. split; [reflexivity|].
  apply (proj1 (excerpt_nonempty Sample.platform Sample.plain _ _ eq_refl)).
  vm_compute. discriminate.
Defined.

(** ** More on the string primitives *)

Section MoreStringFacts.

Lemma trimStart_split s :
  exists pre, s = pre ++ trimStart s /\ Forall (fun c => is_ws c = true) pre.
Proof.
  induction s as [|c t (pre & E & Hpre)]; [exists []; split; [reflexivity|constructor]|].
  simpl. destruct (is_ws c) eqn:Hc.
  - exists (c :: pre). split; [simpl; congruence | constructor; assumption].
  - exists []. split; [reflexivity | constructor].
Qed.

Lemma trimEnd_split s :
  exists post, s = trimEnd s ++ post /\ Forall (fun c => is_ws c = true) post.
Proof.
  induction s as [|c t (post & E & Hpost)]; [exists []; split; [reflexivity|constructor]|].
  simpl. destruct (trimEnd t) as [|d t'] eqn:Ht.
  - destruct (is_ws c) eqn:Hc.
    + exists (c :: post). split; [simpl in *; congruence | constructor; assumption].
    + exists post. simpl in *. split; [congruence | assumption].
  - exists post. split; [simpl in *; congruence | assumption].
Qed.

Lemma trimEnd_last s : is_ws (last (trimEnd s) 0%N) = false.
Proof.
  induction s as [|c t IH]; [reflexivity|].
  simpl. destruct (trimEnd t) as [|d t'] eqn:Ht.
  - destruct (is_ws c) eqn:Hc; [reflexivity | exact Hc].
  - exact IH.
Qed.

Lemma trim_ends s :
  is_ws (hd 0%N (trim s)) = false /\ is_ws (last (trim s) 0%N) = false.
Proof.
  split; [|apply trimEnd_last].
  pose proof (trim_head s) as H. destruct (trim s); [reflexivity | exact H].
Qed.

Lemma trim_split s :
  exists pre post,
    s = pre ++ trim s ++ post
    /\ Forall (fun c => is_ws c = true) pre
    /\ Forall (fun c => is_ws c = true) post.
Proof.
  destruct (trimStart_split s) as (pre & E & Hpre).
  destruct (trimEnd_split (trimStart s)) as (post & E' & Hpost).
  exists pre, post. unfold trim. rewrite <- E', <- E. auto.
Qed.

Lemma trim_incl s c : In c (trim s) -> In c s.
Proof.
  intros H. destruct (trim_split s) as (pre & post & E & _).
  rewrite E. apply in_or_app. right. apply in_or_app. left. exact H.
Qed.

(** A string that neither starts nor ends with whitespace is its own trim. *)
Lemma trim_fixed s :
  is_ws (hd 0%N s) = false -> is_ws (last s 0%N) = false -> trim s = s.
Proof.
  intros Hh Hl. unfold trim.
  rewrite trimStart_fixed by (destruct s; [exact I | exact Hh]).
  clear Hh. induction s as [|c t IH]; [reflexivity|].
  simpl. destruct t as [|d t'].
  - simpl in Hl. rewrite Hl. reflexivity.
  - rewrite IH by exact Hl. reflexivity.
Qed.

Lemma split_nonempty sep s : split sep s <> [].
Proof.
  destruct s as [|c t]; simpl; [discriminate|].
  destruct (c =? sep)%N; [discriminate|].
  destruct (split sep t); discriminate.
Qed.

Lemma split_length sep s :
  List.length (split sep s) = S (count_occ N.eq_dec s sep).
Proof.
  induction s as [|c t IH]; [reflexivity|].
  simpl. destruct (N.eqb_spec c sep) as [->|Hne].
  - destruct (N.eq_dec sep sep); [|congruence]. simpl. congruence.
  - destruct (N.eq_dec c sep); [congruence|].
    pose proof (split_nonempty sep t).
    destruct (split sep t); [congruence | exact IH].
Qed.

Lemma split_pieces sep s piece :
  In piece (split sep s) -> ~ In sep piece.
Proof.
  revert piece. induction s as [|c t IH]; intros piece Hin.
  - simpl in Hin. destruct Hin as [<-|[]]. intros [].
  - simpl in Hin. destruct (N.eqb_spec c sep) as [->|Hne].
    + destruct Hin as [<-|Hin]; [intros [] | now apply IH].
    + pose proof (split_nonempty sep t).
      destruct (split sep t) as [|p rest] eqn:E; [congruence|].
      destruct Hin as [<-|Hin].
      * intros [Hc|Hc]; [congruence|]. apply (IH p); [now left | exact Hc].
      * apply IH. now right.
Qed.

Lemma firstNonEmpty_empty candidates :
  firstNonEmpty candidates = []
  <-> Forall (fun c => truthy c = false) candidates.
Proof.
  induction candidates as [|[[|c t]|] rest IH]; simpl.
  - split; [constructor | reflexivity].
  - rewrite IH. split; [constructor; auto | inversion 1; assumption].
  - split; [discriminate | inversion 1; discriminate].
  - rewrite IH. split; [constructor; auto | inversion 1; assumption].
Qed.

(** The value of [firstNonEmpty] sits in the list, behind falsy entries only. *)
Lemma firstNonEmpty_found candidates :
  firstNonEmpty candidates <> [] ->
  exists skipped later,
    candidates = skipped ++ Some (firstNonEmpty candidates) :: later
    /\ Forall (fun c => truthy c = false) skipped.
Proof.
  induction candidates as [|[[|c t]|] rest IH]; simpl; intros Hne.
  - congruence.
  - destruct (IH Hne) as (skipped & later & E & Hs).
    exists (Some [] :: skipped), later. split; [simpl; f_equal; exact E|].
    constructor; [reflexivity | exact Hs].
  - exists [], rest. split; [reflexivity | constructor].
  - destruct (IH Hne) as (skipped & later & E & Hs).
    exists (None :: skipped), later. split; [simpl; f_equal; exact E|].
    constructor; [reflexivity | exact Hs].
Qed.

End MoreStringFacts.

(** ** Further properties of the content script *)

Section ReaderProperties.

Variable P : Platform.
Implicit Types (w : World P) (r : ContentRecord).

(** X1.  [getSelectedText] changes nothing.  When there is a selection
    object it returns the selection text with whitespace taken off both ends
    and nothing else: the text is the result between two runs of whitespace,
    and the result neither starts nor ends with a whitespace unit.  Without a
    selection object it throws a TypeError. *)
Theorem getSelectedText_strips_whitespace w :
  match selection w with
  | Some text =>
      getSelectedText P w = (Normal (trim text), w)
      /\ (exists pre post,
            text = pre ++ trim text ++ post
            /\ Forall (fun c => is_ws c = true) pre
            /\ Forall (fun c => is_ws c = true) post)
      /\ is_ws (hd 0%N (trim text)) = false
      /\ is_ws (last (trim text) 0%N) = false
  | None =>
      getSelectedText P w
      = (Throw (TypeError "Cannot read properties of null (reading 'toString')"),
         w)
  end.
Proof.
  unfold getSelectedText, bind, reads, ret, throw.
  destruct (selection w) as [text|]; [|reflexivity].
  split; [reflexivity|]. split; [apply trim_split | apply trim_ends].
Qed.

(** X2.  [getMetaKeywords] is empty when the keywords tag is missing, has no
    content attribute or an empty one.  Otherwise it has one entry more than
    the content has commas (so empty entries between commas are kept), and
    every entry is free of commas and of whitespace at its ends. *)
Theorem getMetaKeywords_shape w :
  match getMetaContent P w "keywords" with
  | Some (c :: t) =>
      List.length (getMetaKeywords P w)
      = S (count_occ N.eq_dec (c :: t) 44%N)
  | _ => getMetaKeywords P w = []
  end
  /\ (forall keyword,
        In keyword (getMetaKeywords P w) ->
        ~ In 44%N keyword
        /\ trim keyword = keyword
        /\ is_ws (hd 0%N keyword) = false
        /\ is_ws (last keyword 0%N) = false).
Proof.
  unfold getMetaKeywords.
  destruct (getMetaContent P w "keywords") as [[|c t]|]; cbn -[split trim];
    (split; [try reflexivity | try (intros keyword []) ]).
  - rewrite length_map. apply split_length.
  - intros keyword Hin. apply in_map_iff in Hin.
    destruct Hin as (piece & <- & Hpiece).
    split; [|split; [apply trim_idem | apply trim_ends]].
    intros Hc. apply trim_incl in Hc.
    exact (split_pieces _ _ _ Hpiece Hc).
Qed.


(** X4.  Each of the four string readers returns the content of the first
    of its tags, in its fixed order, whose content is a non-empty string;
    a tag that is missing, has no content attribute or has an empty one is
    passed over; and the reader returns the empty string exactly when all of
    its tags are passed over. *)
Theorem metadata_chains w :
  let picks (reader : jstring) (names : list string) :=
    let candidates := map (getMetaContent P w) names in
    (reader = [] <-> Forall (fun c => truthy c = false) candidates)
    /\ (reader <> [] ->
        exists skipped later,
          candidates = skipped ++ Some reader :: later
          /\ Forall (fun c => truthy c = false) skipped) in
  picks (getMetaDescription P w)
    ["og:description"; "description"; "twitter:description"]
  /\ picks (getMetaAuthor P w)
       ["author"; "article:author"; "og:article:author"]
  /\ picks (getMetaDate P w) ["article:published_time"; "date"; "pubdate"]
  /\ picks (getMetaImage P w) ["og:image"; "twitter:image"].
Proof.
  assert (Hpick : forall reader names,
            reader = firstNonEmpty (map (getMetaContent P w) names) ->
            let candidates := map (getMetaContent P w) names in
            (reader = [] <-> Forall (fun c => truthy c = false) candidates)
            /\ (reader <> [] ->
                exists skipped later,
                  candidates = skipped ++ Some reader :: later
                  /\ Forall (fun c => truthy c = false) skipped)).
  { intros reader names -> candidates.
    split; [apply firstNonEmpty_empty | apply firstNonEmpty_found]. }
  cbv zeta.
  split; [|split; [|split]]; apply Hpick;
    unfold getMetaDescription, getMetaAuthor, getMetaDate, getMetaImage;
    cbn [map firstNonEmpty];
    repeat match goal with
           | |- context [getMetaContent P w ?n] =>
               destruct (getMetaContent P w n) as [[|? ?]|]
           end; reflexivity.
Qed.

End ReaderProperties.

Section PipelineProperties.

Variable P : Platform.
Implicit Types (w : World P) (r : ContentRecord).

(** What a run of [extractMainContent] gives and leaves behind. *)
Lemma extractMainContent_run w :
  exists article w',
    extractMainContent P w = (Normal article, w')
    /\ document w' = document w /\ selection w' = selection w
    /\ outbox w' = outbox w /\ replies w' = replies w
    /\ (console w' = console w
        \/ (article = None
            /\ exists e,
                 console w'
                 = console w ++ [ {| log_label := "Readability extraction error:";
                                     log_error := e |} ]))
    /\ (fst (Readability_parse P
               (removeAll P "script, style, noscript" (document w))
               readabilityOptions) = Normal None ->
        article = None /\ console w' = console w)
    /\ (forall a, article = Some a ->
                  art_length a = List.length (art_content a)).
Proof.
  unfold extractMainContent, tryCatch, bind, reads, lift, ret, console_error.
  destruct (Readability_parse P _ _) as [[[article|]|e] d']; cbn.
  - destruct (TurndownService P turndownOptions) as [turndown|e]; cbn.
    + destruct (truthy (rd_content article)); cbn.
      * destruct (turndown _) as [md|e]; cbn; eexists _, _;
          (split; [reflexivity|]); cbn; repeat split; eauto;
          try discriminate.
        intros a H; injection H as <-. destruct md; reflexivity.
      * eexists _, _; (split; [reflexivity|]); cbn; repeat split; eauto;
          try discriminate.
        intros a H; injection H as <-. cbn.
        destruct (or_str (rd_textContent article) []); reflexivity.
    + eexists _, _; (split; [reflexivity|]); cbn; repeat split; eauto;
        discriminate.
  - eexists _, _; (split; [reflexivity|]); cbn; repeat split; eauto;
      discriminate.
  - eexists _, _; (split; [reflexivity|]); cbn; repeat split; eauto;
      discriminate.
Qed.

(** X5.  [extractMainContent] never throws and touches nothing but the
    console: document, selection, outbox and responses are as before.  The
    console is either unchanged, or longer by one entry labelled
    "Readability extraction error:", and in that case the result is [null].
    When Readability itself yields [null] the result is [null] and nothing is
    logged.  An article that is returned carries the length of its own
    content. *)
Theorem extractMainContent_never_throws w :
  exists article w',
    extractMainContent P w = (Normal article, w')
    /\ document w' = document w /\ selection w' = selection w
    /\ outbox w' = outbox w /\ replies w' = replies w
    /\ (console w' = console w
        \/ (article = None
            /\ exists e,
                 console w'
                 = console w ++ [ {| log_label := "Readability extraction error:";
                                     log_error := e |} ]))
    /\ (fst (Readability_parse P
               (removeAll P "script, style, noscript" (document w))
               readabilityOptions) = Normal None ->
        article = None /\ console w' = console w)
    /\ (forall a, article = Some a ->
                  art_length a = List.length (art_content a)).
Proof. exact (extractMainContent_run w). Qed.

Lemma scanSelectors_first (d : Dom P) before selector after element :
  (forall s, In s before -> querySelector P d s = None) ->
  querySelector P d selector = Some element ->
  scanSelectors P d (before ++ selector :: after) = Some (element_text element).
Proof.
  intros Hnone Hsel. induction before as [|s rest IH]; simpl.
  - rewrite Hsel. reflexivity.
  - rewrite (Hnone s (or_introl eq_refl)).
    apply IH. intros s' Hin. apply Hnone. now right.
Qed.

(** X6.  [extractFallbackContent] goes by the order of its selector list:
    when a selector of the list finds an element and no earlier selector
    finds any, the result is that element's text, whatever the later
    selectors and the body hold; nothing is thrown and nothing changes.  The
    text is the element's [innerText], or its [textContent] when the
    [innerText] is missing or empty, or the empty string. *)
Theorem extractFallbackContent_priority w before selector after element :
  fallbackSelectors = before ++ selector :: after ->
  (forall s, In s before -> querySelector P (document w) s = None) ->
  querySelector P (document w) selector = Some element ->
  extractFallbackContent P w = (Normal (element_text element), w)
  /\ element_text element
     = firstNonEmpty [innerText element; textContent element].
Proof.
  intros Hlist Hnone Hsel. split.
  - unfold extractFallbackContent, bind, reads, ret. rewrite Hlist.
    cbn -[scanSelectors].
    rewrite (scanSelectors_first _ _ _ _ _ Hnone Hsel). reflexivity.
  - unfold element_text, firstNonEmpty, or_str.
    destruct (innerText element) as [[|c t]|];
      destruct (textContent element) as [[|c' t']|]; reflexivity.
Qed.

(** X7.  [extractPageData] throws in two situations only: there is no
    selection object (a TypeError on [toString], before anything is done), or
    the fallback branch finds neither a listed container nor a body (a
    TypeError on [innerText], after the notice has been handed over).  In
    every other state it returns a record. *)
Theorem extraction_failure_modes w :
  (forall e w',
     extractPageData P w = (Throw e, w') ->
     (selection w = None
      /\ e = TypeError "Cannot read properties of null (reading 'toString')"
      /\ w' = w)
     \/ (sourceOf w = Some FALLBACK /\ fallbackElement w = None
         /\ e = TypeError "Cannot read properties of null (reading 'innerText')"
         /\ outbox w' = outbox w ++ [degradedNotice]))
  /\ ((exists e w', extractPageData P w = (Throw e, w'))
      <-> (selection w = None
           \/ (sourceOf w = Some FALLBACK /\ fallbackElement w = None)))
  /\ ((exists r w', extractPageData P w = (Normal r, w'))
      <-> ~ (selection w = None
             \/ (sourceOf w = Some FALLBACK /\ fallbackElement w = None))).
Proof.
  destruct (selection w) as [text|] eqn:Hsel.
  - destruct (extractPageData_cases P w text Hsel)
      as (w1 & _ & _ & [(Hs & _ & _ & E) | [(a & Hs & _ & _ & _ & _ & E)
                                          | (Hs & _ & Ho & E)]]).
    + split; [|split].
      * intros e w' H. rewrite E in H. discriminate.
      * split; [intros (e & w' & H); rewrite E in H; discriminate|].
        intros [H|(H & _)]; congruence.
      * split; [|intros _; eexists _, _; exact E].
        intros _ [H|(H & _)]; congruence.
    + split; [|split].
      * intros e w' H. rewrite E in H. discriminate.
      * split; [intros (e & w' & H); rewrite E in H; discriminate|].
        intros [H|(H & _)]; congruence.
      * split; [|intros _; eexists _, _; exact E].
        intros _ [H|(H & _)]; congruence.
    + destruct (fallbackElement w) as [element|] eqn:Hel.
      * split; [|split].
        -- intros e w' H. rewrite E in H. discriminate.
        -- split; [intros (e & w' & H); rewrite E in H; discriminate|].
           intros [H|(_ & H)]; congruence.
        -- split; [|intros _; eexists _, _; exact E].
           intros _ [H|(_ & H)]; congruence.
      * split; [|split].
        -- intros e w' H. rewrite E in H. injection H as <- <-.
           right. repeat split; auto.
        -- split; [intros _; right; split; auto|].
           intros _. eexists _, _; exact E.
        -- split; [|intros H; exfalso; apply H; right; split; auto].
           intros (r & w' & H). rewrite E in H. discriminate.
  - rewrite (extractPageData_noSelectionObject P w Hsel). split; [|split].
    + intros e w' H. injection H as <- <-. left. repeat split.
    + split; [intros _; now left | intros _; eexists _, _; reflexivity].
    + split; [intros (r & w' & H); discriminate|].
      intros H. exfalso. apply H. now left.
Qed.

End PipelineProperties.

Section RecordProperties.

Variable P : Platform.
Implicit Types (w : World P) (r : ContentRecord).

(** The three branches and the last step leave the metadata fields alone. *)
Lemma branches_keep_metadata base r0 :
  r0 = useSelection base
  \/ (exists article, r0 = useArticle article base)
  \/ (exists text, r0 = useFallbackText text base) ->
  url (descriptionAsExcerpt r0) = url base
  /\ domain (descriptionAsExcerpt r0) = domain base
  /\ description (descriptionAsExcerpt r0) = description base
  /\ publishedDate (descriptionAsExcerpt r0) = publishedDate base
  /\ keywords (descriptionAsExcerpt r0) = keywords base
  /\ ogImage (descriptionAsExcerpt r0) = ogImage base
  /\ favicon (descriptionAsExcerpt r0) = favicon base.
Proof.
  intros [->|[(article & ->)|(text & ->)]];
    unfold descriptionAsExcerpt, useArticle;
    repeat match goal with
           | |- context [if ?b then _ else _] => destruct b
           end;
    repeat split.
Qed.

(** The excerpt of a returned record is empty only with its content and
    its description. *)
Lemma returned_excerpt_empty w r w' :
  extractPageData P w = (Normal r, w') ->
  (excerpt r = [] <-> content r = [] /\ description r = []).
Proof.
  intros H.
  destruct (extractPageData_returns P w r w' H)
    as (text & base & r0 & _ & Hb & -> & [(_ & Hn & ->) | [(a & _ & _ & _ & Hc & ->)
                                        | (element & _ & _ & _ & ->)]]).
  - apply nonempty_true in Hn.
    assert (Hex : excerpt (useSelection base) <> []).
    { subst base. cbn -[substring0 trim].
      destruct (trim text); [congruence | discriminate]. }
    rewrite (descriptionAsExcerpt_idle _ Hex).
    split; [congruence|]. intros (Hco & _). subst base. cbn in Hco. congruence.
  - apply nonempty_true in Hc.
    destruct (useArticle_keeps a base) as (Hco & Hex & _).
    assert (Hne : excerpt (useArticle a base) <> [])
      by (rewrite Hex; now apply excerpt_of_nonempty).
    rewrite (descriptionAsExcerpt_idle _ Hne).
    split; [congruence|]. intros (Hco' & _). congruence.
  - unfold descriptionAsExcerpt. cbn -[substring0].
    destruct (element_text element) as [|c t]; cbn.
    + destruct (description base) as [|d ds] eqn:Hd; cbn.
      * split; auto.
      * rewrite Hd. split; [discriminate | intros (_ & ?); discriminate].
    + split; [discriminate | intros (? & _); discriminate].
Qed.


(** The length field of a returned record is the length of its content. *)
Lemma returned_contentLength w r w' :
  extractPageData P w = (Normal r, w') ->
  contentLength r = List.length (content r).
Proof.
  intros H.
  destruct (extractPageData_returns P w r w' H)
    as (text & base & r0 & _ & Hb & -> & [(_ & _ & ->) | [(a & _ & _ & Ha & _ & ->)
                                        | (element & _ & _ & _ & ->)]]);
    match goal with
    | |- contentLength (descriptionAsExcerpt ?x) = _ =>
        destruct (descriptionAsExcerpt_keeps x)
          as (_ & _ & _ & -> & _ & _ & _ & _ & -> & _)
    end.
  - reflexivity.
  - destruct (useArticle_keeps a base) as (-> & _ & -> & _).
    rewrite (structured_length P w a Ha).
    destruct (art_content a); reflexivity.
  - reflexivity.
Qed.

(** X8.  In every record returned, the excerpt is empty exactly when both
    the content and the description are empty. *)
Theorem excerpt_empty_iff w r w' :
  extractPageData P w = (Normal r, w') ->
  (excerpt r = [] <-> content r = [] /\ description r = []).
Proof. exact (returned_excerpt_empty w r w'). Qed.

(** X9.  The excerpt of a returned record, branch by branch: the first 300
    units of the selection; on the structured branch the extractor's excerpt
    as it is, of whatever length, when it is non-empty, and the first 300
    units of the content otherwise; on the fallback branch the first 300
    units of the content when there is content, and the description
    otherwise. *)
Theorem excerpt_chain w r w' :
  extractPageData P w = (Normal r, w') ->
  excerpt r
  = match sourceOf w, structured w with
    | Some SELECTION, _ => substring0 300 (selectedText r)
    | Some STRUCTURED, Some article =>
        if nonempty (art_excerpt article) then art_excerpt article
        else substring0 300 (content r)
    | _, _ =>
        if nonempty (content r) then substring0 300 (content r)
        else description r
    end.
Proof.
  intros H.
  destruct (extractPageData_returns P w r w' H)
    as (text & base & r0 & _ & Hb & -> & [(Hs & Hn & ->) | [(a & Hs & _ & Ha & Hc & ->)
                                        | (element & Hs & _ & _ & ->)]]);
    rewrite Hs.
  - apply nonempty_true in Hn.
    assert (Hex : excerpt (useSelection base) <> []).
    { subst base. cbn -[substring0 trim].
      destruct (trim text); [congruence | discriminate]. }
    rewrite (descriptionAsExcerpt_idle _ Hex). reflexivity.
  - rewrite Ha. apply nonempty_true in Hc.
    destruct (useArticle_keeps a base) as (Hco & Hex & _).
    assert (Hne : excerpt (useArticle a base) <> [])
      by (rewrite Hex; now apply excerpt_of_nonempty).
    rewrite (descriptionAsExcerpt_idle _ Hne), Hex, Hco.
    destruct (art_excerpt a); reflexivity.
  - assert (E : excerpt (descriptionAsExcerpt
                           (useFallbackText (element_text element) base))
                = if nonempty (element_text element)
                  then substring0 300 (element_text element)
                  else description base).
    { unfold descriptionAsExcerpt. cbn -[substring0].
      destruct (element_text element) as [|c t]; cbn; [|reflexivity].
      destruct (description base); reflexivity. }
    rewrite E.
    destruct (descriptionAsExcerpt_keeps
                (useFallbackText (element_text element) base))
      as (_ & _ & _ & -> & _ & _ & -> & _).
    cbn. destruct (structured w); reflexivity.
Qed.

(** X10.  Whatever branch is taken, the address and metadata fields of a
    returned record are read off the page as it was before the call: url and
    domain from the location, description, date, keywords, image and favicon
    from their readers. *)
Theorem record_metadata w r w' :
  extractPageData P w = (Normal r, w') ->
  url r = location_href (window_location P w)
  /\ domain r = location_hostname (window_location P w)
  /\ description r = getMetaDescription P w
  /\ publishedDate r = getMetaDate P w
  /\ keywords r = getMetaKeywords P w
  /\ ogImage r = getMetaImage P w
  /\ favicon r = getFaviconUrl P w.
Proof.
  intros H.
  destruct (extractPageData_returns P w r w' H)
    as (text & base & r0 & _ & Hb & -> & Hcases).
  assert (Hshape : r0 = useSelection base
                   \/ (exists article, r0 = useArticle article base)
                   \/ (exists t, r0 = useFallbackText t base)).
  { destruct Hcases as [(_ & _ & ->) | [(a & _ & _ & _ & _ & ->)
                                       | (element & _ & _ & _ & ->)]]; eauto. }
  destruct (branches_keep_metadata base r0 Hshape)
    as (-> & -> & -> & -> & -> & -> & ->).
  subst base. repeat split.
Qed.

Lemma extractPageData_console w :
  console (snd (extractPageData P w))
  = match selection w with
    | Some _ => console (snd (extractMainContent P w))
    | None => console w
    end.
Proof.
  unfold extractPageData, getSelectedText, bind at 1 2, reads, ret, throw.
  destruct (selection w) as [text|]; [|reflexivity].
  cbn -[Nat.ltb]. unfold bind at 1.
  destruct (extractMainContent P w) as [[article|e] w0]; [|reflexivity].
  unfold bind, reads, determineContent, useFallback, bind,
    chrome_runtime_sendMessage, extractFallbackContent, bind, reads, ret,
    throw.
  cbn -[Nat.ltb scanSelectors fallbackSelectors].
  destruct (0 <? List.length (trim text))%nat; [reflexivity|].
  destruct article as [a|];
    [destruct (nonempty (art_content a)); [reflexivity|]|];
    (destruct (scanSelectors P (document w0) fallbackSelectors);
     [reflexivity|];
     destruct (document_body P (document w0)); reflexivity).
Qed.

Lemma onMessage_extract_world w :
  snd (onMessage P {| action := "extractPageData" |} w)
  = match extractPageData P w with
    | (Normal pageData, w1) =>
        {| document := document w1; selection := selection w1;
           outbox := outbox w1; settlement := settlement w1;
           console := console w1;
           replies := replies w1
                        ++ [ {| success := true; data := Some pageData;
                                error := None |} ] |}
    | (Throw e, w1) =>
        {| document := document w1; selection := selection w1;
           outbox := outbox w1; settlement := settlement w1;
           console := console w1
                        ++ [ {| log_label := "Content extraction error:";
                                log_error := e |} ];
           replies := replies w1
                        ++ [ {| success := false; data := None;
                                error := Some (message e) |} ] |}
    end.
Proof.
  unfold onMessage, bind, tryCatch, sendResponse, console_error, ret.
  change (String.eqb (action {| action := "extractPageData" |})
            "extractPageData") with true.
  cbv beta iota.
  destruct (extractPageData P w) as [[pageData|e] w1]; reflexivity.
Qed.

(** X11.  What the listener writes to the console on an extraction request:
    the run of [extractPageData] adds at most one entry, labelled
    "Readability extraction error:"; after it the listener adds one entry
    labelled "Content extraction error:" with the exception when the run
    threw, and nothing when it returned.  The document and the selection are
    as before. *)
Theorem listener_logs w :
  let run := extractPageData P w in
  let after := snd (onMessage P {| action := "extractPageData" |} w) in
  (exists earlier,
     console (snd run) = console w ++ earlier
     /\ List.length earlier <= 1
     /\ Forall (fun entry => log_label entry = "Readability extraction error:")
          earlier)
  /\ console after
     = console (snd run)
         ++ match fst run with
            | Throw e =>
                [ {| log_label := "Content extraction error:";
                     log_error := e |} ]
            | Normal _ => []
            end
  /\ document after = document w
  /\ selection after = selection w.
Proof.
  cbv zeta. split.
  - rewrite extractPageData_console.
    destruct (selection w); [|exists []; rewrite app_nil_r; repeat split; auto].
    destruct (extractMainContent_run P w)
      as (article & w0 & E & _ & _ & _ & _ & [Hc|(_ & e & Hc)] & _);
      rewrite E; cbn [snd]; rewrite Hc.
    + exists []. rewrite app_nil_r. repeat split; auto.
    + eexists. split; [reflexivity|]. split; [cbn; lia|].
      constructor; [reflexivity | constructor].
  - destruct (extractPageData_effects P w) as ((Hd & Hs) & _).
    rewrite onMessage_extract_world.
    destruct (extractPageData P w) as [[pageData|e] w1]; cbn in *;
      rewrite ?app_nil_r; repeat split; congruence.
Qed.

End RecordProperties.


(** ** Facts about the background service worker *)

Section WorkerFacts.

Import Background.

Variable B : Platform.
Implicit Types (w : World B) (data : SaveData).

Lemma quiet_refl w : quiet w w.
Proof. repeat split. Qed.

Lemma quiet_trans w1 w2 w3 : quiet w1 w2 -> quiet w2 w3 -> quiet w1 w3.
Proof.
  unfold quiet. intros (A1 & A2 & A3 & A4 & A5) (C1 & C2 & C3 & C4 & C5).
  repeat split; congruence.
Qed.

(** The retry loop ends, whatever the captures weigh.  It captures at the
    qualities of a descent from the quality it starts with, touches nothing
    but the console and the list of captures, and when it returns a capture,
    that capture fits or the descent has reached the minimum. *)
Lemma retryCapture_run quality result w :
  exists qs out w',
    retryCapture B quality result w = (out, w')
    /\ descends quality qs
    /\ captures w' = captures w ++ map jpeg qs
    /\ quiet w w'
    /\ (forall final,
          out = Normal final ->
          ((dataUrl_length B final <=? SCREENSHOT_MAX_SIZE_BYTES)%N = true
           \/ last (quality :: qs) 0 <= SCREENSHOT_MIN_QUALITY)
          /\ match rev qs with
             | [] => final = result
             | q :: _ =>
                 exists history,
                   captureVisibleTab B history (jpeg q) = Normal final
             end).
Proof.
  revert result w.
  induction quality as [quality IH] using lt_wf_ind. intros result w.
  rewrite retryCapture_equation.
  destruct ((SCREENSHOT_MAX_SIZE_BYTES <? dataUrl_length B result)%N
            && (SCREENSHOT_MIN_QUALITY <? quality)%nat) eqn:more.
  - apply andb_prop in more. destruct more as (_ & more).
    apply Nat.ltb_lt in more.
    unfold bind, console_write, chrome_tabs_captureVisibleTab. cbn.
    destruct (captureVisibleTab B (captures w)
                (jpeg (quality - SCREENSHOT_QUALITY_DECREMENT)))
      as [result'|e] eqn:Hcap;
      unfold jpeg in Hcap; rewrite Hcap.
    + match goal with
      | |- context [retryCapture B ?q ?r ?w1] =>
          destruct (IH q ltac:(unfold SCREENSHOT_MIN_QUALITY,
                                 SCREENSHOT_QUALITY_DECREMENT in *; lia) r w1)
            as (qs & out & w' & E & Hd & Hc & Hq & Hfinal)
      end.
      exists ((quality - SCREENSHOT_QUALITY_DECREMENT) :: qs), out, w'.
      split; [exact E|]. split; [cbn; auto|].
      split; [rewrite Hc; cbn; rewrite <- app_assoc; reflexivity|].
      split; [destruct Hq as (? & ? & ? & ? & ?); repeat split; assumption|].
      intros final Hout. destruct (Hfinal final Hout) as (Hfit & Hlast).
      split; [exact Hfit|].
      cbn [rev]. destruct (rev qs) as [|q rest] eqn:Hrev; cbn.
      * subst final. exists (captures w). exact Hcap.
      * exact Hlast.
    + eexists [_], _, _. split; [reflexivity|]. cbn.
      repeat split; auto; discriminate.
  - exists [], (Normal result), w. unfold ret.
    split; [reflexivity|]. split; [exact I|].
    split; [cbn; rewrite app_nil_r; reflexivity|].
    split; [apply quiet_refl|].
    intros final H. injection H as <-. split; [|reflexivity].
    apply Bool.andb_false_iff in more. destruct more as [more|more].
    + left. apply N.leb_le. apply N.ltb_ge in more. exact more.
    + right. cbn. apply Nat.ltb_ge in more. exact more.
Qed.

Lemma descends_ladder rest :
  descends SCREENSHOT_INITIAL_QUALITY rest ->
  exists k, rest = firstn k [50; 40; 30; 20].
Proof.
  unfold SCREENSHOT_INITIAL_QUALITY.
  destruct rest as [|a [|b [|c [|d [|e rest]]]]]; cbn;
    unfold SCREENSHOT_MIN_QUALITY, SCREENSHOT_QUALITY_DECREMENT.
  - exists 0. reflexivity.
  - intros (_ & -> & _). exists 1. reflexivity.
  - intros (_ & -> & _ & -> & _). exists 2. reflexivity.
  - intros (_ & -> & _ & -> & _ & -> & _). exists 3. reflexivity.
  - intros (_ & -> & _ & -> & _ & -> & _ & -> & _). exists 4. reflexivity.
  - intros (_ & -> & _ & -> & _ & -> & _ & -> & H & _). cbn in H. lia.
Qed.

Lemma descends_in quality qs q :
  descends quality qs -> In q qs -> q < quality.
Proof.
  revert quality. induction qs as [|x rest IH]; intros quality; cbn; [tauto|].
  unfold SCREENSHOT_MIN_QUALITY, SCREENSHOT_QUALITY_DECREMENT.
  intros (Hmin & -> & Hd) [<-|Hin]; [lia|].
  specialize (IH _ Hd Hin). lia.
Qed.

(** The screenshot step never throws.  Without a wish for a screenshot it
    does nothing; otherwise it captures at 60 and then down a descent, and a
    screenshot it hands on fits the limit and is what the last capture
    gave. *)
Lemma takeScreenshot_run data w :
  exists qs shot w',
    takeScreenshot B data w = (Normal shot, w')
    /\ captures w' = captures w ++ map jpeg qs
    /\ quiet w w'
    /\ (wantsScreenshot data = false -> qs = [] /\ shot = None /\ w' = w)
    /\ (wantsScreenshot data = true ->
        exists rest,
          qs = SCREENSHOT_INITIAL_QUALITY :: rest
          /\ descends SCREENSHOT_INITIAL_QUALITY rest)
    /\ (forall url,
          shot = Some url ->
          (dataUrl_length B url <= SCREENSHOT_MAX_SIZE_BYTES)%N
          /\ exists history,
               captureVisibleTab B history (jpeg (last qs 0)) = Normal url)
    /\ (forall url,
          captureVisibleTab B (captures w) (jpeg SCREENSHOT_INITIAL_QUALITY)
          = Normal url ->
          (dataUrl_length B url <= SCREENSHOT_MAX_SIZE_BYTES)%N ->
          wantsScreenshot data = true ->
          qs = [SCREENSHOT_INITIAL_QUALITY] /\ shot = Some url).
Proof.
  unfold takeScreenshot, wantsScreenshot.
  destruct (d_captureScreenshot data && truthy_num (d_tabId data)).
  - unfold tryCatch, bind at 1, chrome_tabs_captureVisibleTab.
    fold (jpeg SCREENSHOT_INITIAL_QUALITY).
    destruct (captureVisibleTab B (captures w) (jpeg SCREENSHOT_INITIAL_QUALITY))
      as [first|e] eqn:Hfirst.
    + unfold bind at 1.
      match goal with
      | |- context [retryCapture B ?q ?r ?w1] =>
          destruct (retryCapture_run q r w1)
            as (rest & out & w2 & E & Hd & Hc & Hq & Hfinal);
          rewrite E
      end.
      cbn in Hc, Hq.
      assert (Hlast : forall final,
                out = Normal final ->
                exists history,
                  captureVisibleTab B history
                    (jpeg (last (SCREENSHOT_INITIAL_QUALITY :: rest) 0))
                  = Normal final).
      { intros final Hout. destruct (Hfinal final Hout) as (_ & Hrev).
        destruct (rev rest) as [|q tl] eqn:Hr.
        - apply (f_equal (@rev nat)) in Hr. rewrite rev_involutive in Hr.
          subst rest final. exists (captures w). exact Hfirst.
        - apply (f_equal (@rev nat)) in Hr. rewrite rev_involutive in Hr.
          cbn in Hr. subst rest.
          replace (last (SCREENSHOT_INITIAL_QUALITY :: rev tl ++ [q]) 0)
            with q; [exact Hrev|].
          change (SCREENSHOT_INITIAL_QUALITY :: rev tl ++ [q])
            with ((SCREENSHOT_INITIAL_QUALITY :: rev tl) ++ [q]).
          rewrite last_last. reflexivity. }
      assert (Hone : forall url,
                Normal first = Normal url ->
                (dataUrl_length B url <= SCREENSHOT_MAX_SIZE_BYTES)%N ->
                rest = [] /\ out = Normal url).
      { intros url Hu Hfit. injection Hu as ->.
        rewrite retryCapture_equation in E.
        apply N.ltb_ge in Hfit. rewrite Hfit in E. cbn in E.
        unfold ret in E. injection E as <- <-.
        cbn in Hc. split; [|reflexivity].
        apply (f_equal (@List.length _)) in Hc.
        rewrite !length_app, length_map in Hc. cbn in Hc.
        destruct rest; [reflexivity | cbn in Hc; lia]. }
      destruct out as [final|e]; cbn -[N.leb SCREENSHOT_MAX_SIZE_BYTES].
      * destruct (dataUrl_length B final <=? SCREENSHOT_MAX_SIZE_BYTES)%N
          eqn:Hfit; unfold bind, console_write, ret; cbn;
          exists (SCREENSHOT_INITIAL_QUALITY :: rest); eexists _, _;
          (split; [reflexivity|]); cbn;
          (split; [rewrite Hc, <- app_assoc; reflexivity|]);
          (split; [exact Hq|]);
          (split; [discriminate|]);
          (split; [intros _; exists rest; split; [reflexivity | exact Hd]|]).
        -- split.
           ++ intros url H. injection H as <-.
              split; [now apply N.leb_le | now apply Hlast].
           ++ intros url Hu Hfit' _.
              destruct (Hone url Hu Hfit') as (-> & Hout).
              injection Hout as ->. split; reflexivity.
        -- split; [discriminate|].
           intros url Hu Hfit' _.
           destruct (Hone url Hu Hfit') as (-> & Hout).
           injection Hout as ->. apply N.leb_le in Hfit'.
           unfold SCREENSHOT_MAX_SIZE_BYTES in Hfit, Hfit'.
           change (1 * 1024 * 1024)%N with 1048576%N in Hfit, Hfit'.
           congruence.
      * unfold bind, console_write, ret; cbn.
        exists (SCREENSHOT_INITIAL_QUALITY :: rest); eexists _, _.
        split; [reflexivity|]. cbn.
        split; [rewrite Hc, <- app_assoc; reflexivity|].
        split; [exact Hq|]. split; [discriminate|].
        split; [intros _; exists rest; split; [reflexivity | exact Hd]|].
        split; [discriminate|].
        intros url Hu Hfit' _.
        destruct (Hone url Hu Hfit') as (_ & Hout). discriminate.
    + unfold bind, console_write, ret; cbn.
      exists [SCREENSHOT_INITIAL_QUALITY]; eexists _, _.
      split; [reflexivity|]. cbn.
      split; [reflexivity|]. split; [repeat split|].
      split; [discriminate|].
      split; [intros _; exists []; split; [reflexivity | exact I]|].
      split; [discriminate|]. intros url Hu. discriminate.
  - exists [], None, w. unfold ret. cbn. rewrite app_nil_r.
    split; [reflexivity|]. split; [reflexivity|]. split; [apply quiet_refl|].
    split; [auto|]. split; [discriminate|].
    split; [discriminate|]. intros url _ _ H. discriminate.
Qed.

Lemma showNotification_run title message type w :
  exists w',
    showNotification B title message type w = (Normal tt, w')
    /\ created w'
       = created w
           ++ (if notifications w
               then [ {| n_type := "basic"; n_iconUrl := "icons/icon-128.png";
                         n_title := title; n_message := message;
                         n_priority := 1 |} ]
               else [])
    /\ console w'
       = console w
           ++ (if notifications w then [] else [LogNotification title message])
    /\ notifications w' = notifications w /\ captures w' = captures w
    /\ requests w' = requests w /\ replies w' = replies w
    /\ unhandled w' = unhandled w.
Proof.
  unfold showNotification, bind, console_write, chrome_notifications_create.
  destruct (notifications w) eqn:Hn; cbn.
  - destruct (match type with Some t => t | None => "info" end =? "success")%string;
      eexists; (split; [reflexivity|]); cbn; rewrite ?app_nil_r; auto 10.
  - eexists; (split; [reflexivity|]); cbn; rewrite ?app_nil_r; auto 10.
Qed.

(** The message for a response that is not ok leaves the state alone; by
    status: 401 and 403 have fixed texts whatever the body; 422 with a list
    of errors gives the messages joined by ", "; otherwise the message of
    the body when it has one, else the default.  A body that does not parse
    counts as empty; a body that is [null] makes the reading throw. *)
Lemma failureMessage_run failed forbidden response w :
  snd (failureMessage B failed forbidden response w) = w
  /\ fst (failureMessage B failed forbidden response w)
     = if Nat.eqb (status response) 401 then Normal (lit "Authentication failed")
       else if Nat.eqb (status response) 403 then Normal (lit forbidden)
       else
         match json response with
         | Normal None =>
             Throw (TypeError
                      (if Nat.eqb (status response) 422
                       then "Cannot read properties of null (reading 'errors')"
                       else "Cannot read properties of null (reading 'message')"))
         | Normal (Some fields) =>
             match (if Nat.eqb (status response) 422
                    then body_errors fields else None) with
             | Some errors => Normal (joinedErrors errors)
             | None =>
                 Normal (if truthy (body_message fields)
                         then or_str (body_message fields) []
                         else lit failed)
             end
         | Throw _ => Normal (lit failed)
         end.
Proof.
  unfold failureMessage, tryCatch, bind, lift, ret, fieldsOf, throw, emptyObject.
  destruct (json response) as [[fields|]|e]; cbn;
    destruct (Nat.eqb (status response) 401); cbn; auto;
    destruct (Nat.eqb (status response) 403); cbn; auto;
    destruct (Nat.eqb (status response) 422); cbn; auto.
  - destruct (body_errors fields); cbn; auto.
    destruct (truthy (body_message fields)); auto.
  - destruct (truthy (body_message fields)); auto.
Qed.

(** The exchange that [saveKnowledge] and [updateKnowledge] have in common:
    one request, then the reply by the answer. *)
Lemma exchange_run url method headers body failed forbidden title text w w0 :
  notifications w0 = notifications w -> created w0 = created w ->
  captures w0 = captures w -> requests w0 = requests w ->
  replies w0 = replies w -> unhandled w0 = unhandled w ->
  let request := {| req_url := url; req_method := method;
                    req_headers := headers; req_body := body;
                    req_timeout := 30000 |} in
  exists out w',
    bind B (fetchWithTimeout B url method headers body)
      (fun response =>
         if negb (ok response) then
           bind B (failureMessage B failed forbidden response)
             (fun errorMessage => ret B (Failed errorMessage))
         else
           bind B (lift B (json response))
             (fun responseData =>
                bind B (showNotification B title text (Some "success"))
                  (fun _ =>
                     bind B (fieldsOf B responseData "data")
                       (fun fields => ret B (Succeeded (body_data fields))))))
      w0 = (out, w')
    /\ requests w' = requests w ++ [request]
    /\ captures w' = captures w /\ replies w' = replies w
    /\ unhandled w' = unhandled w /\ notifications w' = notifications w
    /\ match fetch B (requests w) request with
       | Throw e =>
           created w' = created w
           /\ out = Throw (if String.eqb (exn_name e) "AbortError"
                           then {| exn_name := "Error";
                                   message := "Request timeout" |}
                           else e)
       | Normal response =>
           if ok response then
             match json response with
             | Throw e => created w' = created w /\ out = Throw e
             | Normal responseData =>
                 created w'
                 = created w
                     ++ (if notifications w
                         then [ {| n_type := "basic";
                                   n_iconUrl := "icons/icon-128.png";
                                   n_title := title; n_message := text;
                                   n_priority := 1 |} ]
                         else [])
                 /\ out = match responseData with
                          | Some fields => Normal (Succeeded (body_data fields))
                          | None =>
                              Throw (TypeError
                                       "Cannot read properties of null (reading 'data')")
                          end
             end
           else
             created w' = created w
             /\ out = match fst (failureMessage B failed forbidden response w) with
                      | Normal errorMessage => Normal (Failed errorMessage)
                      | Throw e => Throw e
                      end
       end.
Proof.
  intros Hn Hcr Hca Hrq Hrp Hun request.
  unfold bind at 1, fetchWithTimeout, tryCatch, await_fetch, throw.
  rewrite Hrq. fold request.
  destruct (fetch B (requests w) request) as [response|e].
  - destruct (ok response); cbn [negb].
    + unfold bind at 1, lift.
      destruct (json response) as [responseData|e].
      * unfold bind at 1.
        match goal with
        | |- context [showNotification B ?t ?m ?ty ?w1] =>
            destruct (showNotification_run t m ty w1)
              as (w2 & E & Hc2 & _ & Hn2 & Hca2 & Hrq2 & Hrp2 & Hun2);
            rewrite E
        end.
        cbn in Hc2, Hn2, Hca2, Hrq2, Hrp2, Hun2.
        unfold bind, fieldsOf, ret, throw.
        destruct responseData as [fields|]; eexists _, _;
          (split; [reflexivity|]);
          rewrite Hrq2, Hca2, Hrp2, Hun2, Hn2, Hc2, Hn, Hcr;
          repeat split; auto.
      * eexists _, _. split; [reflexivity|]. cbn. repeat split; auto.
    + unfold bind at 1.
      match goal with
      | |- context [failureMessage B ?f ?fb ?r ?w1] =>
          destruct (failureMessage_run f fb r w1) as (Hs & Hv);
          destruct (failureMessage_run f fb r w) as (_ & Hv');
          destruct (failureMessage B f fb r w1) as [out1 w1'] eqn:E1
      end.
      cbn [fst snd] in Hs, Hv. subst w1'. rewrite Hv', <- Hv.
      destruct out1; eexists _, _; (split; [reflexivity|]); cbn;
        repeat split; auto.
  - destruct (String.eqb (exn_name e) "AbortError");
      eexists _, _; (split; [reflexivity|]); cbn; repeat split; auto.
Qed.

(** What sending the save does, by the answer to its one request. *)
Lemma sendSave_run data shot apiUrl token w :
  let request := saveRequest data shot apiUrl token in
  exists out w',
    sendSave B data shot apiUrl token w = (out, w')
    /\ requests w' = requests w ++ [request]
    /\ captures w' = captures w /\ replies w' = replies w
    /\ unhandled w' = unhandled w /\ notifications w' = notifications w
    /\ match fetch B (requests w) request with
       | Throw e =>
           created w' = created w
           /\ out = Throw (if String.eqb (exn_name e) "AbortError"
                           then {| exn_name := "Error";
                                   message := "Request timeout" |}
                           else e)
       | Normal response =>
           if ok response then
             match json response with
             | Throw e => created w' = created w /\ out = Throw e
             | Normal body =>
                 created w'
                 = created w
                     ++ (if notifications w then [savedNotification data]
                         else [])
                 /\ out = match body with
                          | Some fields => Normal (Succeeded (body_data fields))
                          | None =>
                              Throw (TypeError
                                       "Cannot read properties of null (reading 'data')")
                          end
             end
           else
             created w' = created w
             /\ out = match fst (failureMessage B "Failed to save"
                                   "Permission denied. Token requires knowledge:create scope"
                                   response w) with
                      | Normal text => Normal (Failed text)
                      | Throw e => Throw e
                      end
       end.
Proof.
  intros request. unfold sendSave, bind at 1.
  destruct (p_screenshot (savePayload B data shot)) as [url|].
  - unfold console_write.
    apply (exchange_run (apiUrl ++ lit "/api/v1/knowledge") "POST"
             (jsonHeaders token) (SaveBody (savePayload B data shot)));
      reflexivity.
  - unfold ret.
    apply (exchange_run (apiUrl ++ lit "/api/v1/knowledge") "POST"
             (jsonHeaders token) (SaveBody (savePayload B data shot)));
      reflexivity.
Qed.

(** [saveKnowledge] from end to end: the screenshot step, the one request,
    and the reply by the answer to that request.  It never throws. *)
Lemma saveKnowledge_run data apiUrl token w :
  exists qs shot reply w',
    saveKnowledge B data apiUrl token w = (Normal reply, w')
    /\ captures w' = captures w ++ map jpeg qs
    /\ (wantsScreenshot data = false -> qs = [] /\ shot = None)
    /\ (wantsScreenshot data = true ->
        exists rest,
          qs = SCREENSHOT_INITIAL_QUALITY :: rest
          /\ descends SCREENSHOT_INITIAL_QUALITY rest)
    /\ (forall url,
          shot = Some url ->
          (dataUrl_length B url <= SCREENSHOT_MAX_SIZE_BYTES)%N
          /\ exists history,
               captureVisibleTab B history (jpeg (last qs 0)) = Normal url)
    /\ (forall url,
          captureVisibleTab B (captures w) (jpeg SCREENSHOT_INITIAL_QUALITY)
          = Normal url ->
          (dataUrl_length B url <= SCREENSHOT_MAX_SIZE_BYTES)%N ->
          wantsScreenshot data = true ->
          qs = [SCREENSHOT_INITIAL_QUALITY] /\ shot = Some url)
    /\ requests w' = requests w ++ [saveRequest data shot apiUrl token]
    /\ replies w' = replies w /\ unhandled w' = unhandled w
    /\ notifications w' = notifications w
    /\ match fetch B (requests w) (saveRequest data shot apiUrl token) with
       | Throw e => created w' = created w /\ reply = Failed (errorText e)
       | Normal response =>
           if ok response then
             match json response with
             | Throw e =>
                 created w' = created w
                 /\ reply = Failed (messageOr e "Network error")
             | Normal body =>
                 created w'
                 = created w
                     ++ (if notifications w then [savedNotification data]
                         else [])
                 /\ reply = match body with
                            | Some fields => Succeeded (body_data fields)
                            | None =>
                                Failed (lit "Cannot read properties of null (reading 'data')")
                            end
             end
           else
             created w' = created w
             /\ reply = Failed
                          match fst (failureMessage B "Failed to save"
                                       "Permission denied. Token requires knowledge:create scope"
                                       response w) with
                          | Normal text => text
                          | Throw e => messageOr e "Network error"
                          end
       end.
Proof.
  destruct (takeScreenshot_run data w)
    as (qs & shot & w1 & E1 & Hc1 & (Hn1 & Hcr1 & Hrq1 & Hrp1 & Hun1)
        & Hno & Hyes & Hshot & Hfirst).
  destruct (sendSave_run data shot apiUrl token w1)
    as (out & w2 & E2 & Hrq2 & Hca2 & Hrp2 & Hun2 & Hn2 & Hout).
  cbv zeta in Hout. rewrite Hrq1 in Hrq2, Hout.
  assert (Hfm : forall response,
            fst (failureMessage B "Failed to save"
                   "Permission denied. Token requires knowledge:create scope"
                   response w1)
            = fst (failureMessage B "Failed to save"
                     "Permission denied. Token requires knowledge:create scope"
                     response w)).
  { intros response.
    rewrite (proj2 (failureMessage_run _ _ response w1)),
      (proj2 (failureMessage_run _ _ response w)). reflexivity. }
  exists qs, shot.
  unfold saveKnowledge, tryCatch, bind at 1. rewrite E1, E2.
  destruct out as [reply|e].
  - exists reply, w2. split; [reflexivity|].
    split; [congruence|]. split; [intros H; apply Hno in H; tauto|].
    split; [exact Hyes|]. split; [exact Hshot|]. split; [exact Hfirst|].
    split; [exact Hrq2|]. split; [congruence|]. split; [congruence|].
    split; [congruence|].
    destruct (fetch B (requests w) (saveRequest data shot apiUrl token))
      as [response|e]; [|destruct Hout; discriminate].
    destruct (ok response).
    + destruct (json response) as [body|e]; [|destruct Hout; discriminate].
      destruct Hout as (Hcr & Hreply). rewrite Hn1, Hcr1 in Hcr.
      split; [exact Hcr|]. destruct body; [congruence | discriminate].
    + destruct Hout as (Hcr & Hreply). split; [congruence|].
      rewrite Hfm in Hreply.
      destruct (fst (failureMessage B _ _ response w)); congruence.
  - unfold bind, console_write, ret. cbn.
    eexists _, _. split; [reflexivity|]. cbn.
    split; [congruence|]. split; [intros H; apply Hno in H; tauto|].
    split; [exact Hyes|]. split; [exact Hshot|]. split; [exact Hfirst|].
    split; [exact Hrq2|]. split; [congruence|]. split; [congruence|].
    split; [congruence|].
    destruct (fetch B (requests w) (saveRequest data shot apiUrl token))
      as [response|e'].
    + destruct (ok response).
      * destruct (json response) as [body|e'].
        -- destruct Hout as (Hcr & Hreply). rewrite Hn1, Hcr1 in Hcr.
           split; [exact Hcr|].
           destruct body; [discriminate|]. injection Hreply as ->.
           reflexivity.
        -- destruct Hout as (Hcr & Hreply). injection Hreply as ->.
           split; [congruence | reflexivity].
      * destruct Hout as (Hcr & Hreply). split; [congruence|].
        rewrite Hfm in Hreply.
        destruct (fst (failureMessage B _ _ response w));
          [discriminate|]. injection Hreply as ->. reflexivity.
    + destruct Hout as (Hcr & Hreply). injection Hreply as ->.
      split; [congruence|]. unfold errorText.
      destruct (String.eqb (exn_name e') "AbortError"); reflexivity.
Qed.

(** [updateKnowledge] from end to end: one request and no capture; the reply
    by the answer to the request.  It never throws. *)
Lemma updateKnowledge_run documentId data apiUrl token w :
  let request := updateRequest documentId data apiUrl token in
  exists reply w',
    updateKnowledge B documentId data apiUrl token w = (Normal reply, w')
    /\ captures w' = captures w
    /\ requests w' = requests w ++ [request]
    /\ replies w' = replies w /\ unhandled w' = unhandled w
    /\ notifications w' = notifications w
    /\ match fetch B (requests w) request with
       | Throw e => created w' = created w /\ reply = Failed (errorText e)
       | Normal response =>
           if ok response then
             match json response with
             | Throw e =>
                 created w' = created w
                 /\ reply = Failed (messageOr e "Network error")
             | Normal body =>
                 created w'
                 = created w
                     ++ (if notifications w then [updatedNotification data]
                         else [])
                 /\ reply = match body with
                            | Some fields => Succeeded (body_data fields)
                            | None =>
                                Failed (lit "Cannot read properties of null (reading 'data')")
                            end
             end
           else
             created w' = created w
             /\ reply = Failed
                          match fst (failureMessage B "Failed to update"
                                       "Permission denied" response w) with
                          | Normal text => text
                          | Throw e => messageOr e "Network error"
                          end
       end.
Proof.
  intros request.
  destruct (exchange_run (apiUrl ++ lit "/api/v1/knowledge/" ++ documentId)
              "PUT" (jsonHeaders token) (UpdateBody (updatePayload data))
              "Failed to update" "Permission denied"
              (lit "Updated Successfully")
              (lit dq ++ d_title data ++ lit (dq ++ " has been updated"))
              w w eq_refl eq_refl eq_refl eq_refl eq_refl eq_refl)
    as (out & w2 & E2 & Hrq2 & Hca2 & Hrp2 & Hun2 & Hn2 & Hout).
  cbv zeta in Hout. subst request. unfold updateRequest.
  unfold updateKnowledge, tryCatch. rewrite E2.
  destruct out as [reply|e].
  - exists reply, w2. split; [reflexivity|]. repeat (split; [assumption|]).
    destruct (fetch B (requests w) _)
      as [response|e]; [|destruct Hout; discriminate].
    destruct (ok response).
    + destruct (json response) as [body|e]; [|destruct Hout; discriminate].
      destruct Hout as (Hcr & Hreply).
      split; [exact Hcr|]. destruct body; [congruence | discriminate].
    + destruct Hout as (Hcr & Hreply). split; [congruence|].
      destruct (fst (failureMessage B _ _ response w)); congruence.
  - unfold bind, console_write, ret. cbn.
    eexists _, _. split; [reflexivity|]. cbn. repeat (split; [assumption|]).
    destruct (fetch B (requests w) _) as [response|e'].
    + destruct (ok response).
      * destruct (json response) as [body|e'].
        -- destruct Hout as (Hcr & Hreply).
           split; [exact Hcr|].
           destruct body; [discriminate|]. injection Hreply as ->.
           reflexivity.
        -- destruct Hout as (Hcr & Hreply). injection Hreply as ->.
           split; [congruence | reflexivity].
      * destruct Hout as (Hcr & Hreply). split; [congruence|].
        destruct (fst (failureMessage B _ _ response w));
          [discriminate|]. injection Hreply as ->. reflexivity.
    + destruct Hout as (Hcr & Hreply). injection Hreply as ->.
      split; [congruence|]. unfold errorText.
      destruct (String.eqb (exn_name e') "AbortError"); reflexivity.
Qed.

(** [validateToken] from end to end. *)
Lemma validateToken_run apiUrl token w :
  let request := validationRequest apiUrl token in
  exists reply w',
    validateToken B apiUrl token w = (Normal reply, w')
    /\ requests w' = requests w ++ [request]
    /\ captures w' = captures w /\ created w' = created w
    /\ replies w' = replies w /\ unhandled w' = unhandled w
    /\ notifications w' = notifications w
    /\ reply
       = match fetch B (requests w) request with
         | Throw e => TokenInvalid (errorText e)
         | Normal response =>
             if ok response then
               match json response with
               | Normal user => TokenValid user
               | Throw e => TokenInvalid (messageOr e "Network error")
               end
             else
               TokenInvalid
                 (if Nat.eqb (status response) 401 then lit "Invalid token"
                  else lit ("Server error: " ++ decimal (status response)))
         end.
Proof.
  intros request.
  unfold validateToken, tryCatch, bind at 1, fetchWithTimeout, tryCatch,
    await_fetch, throw.
  fold (@validationRequest B apiUrl token). fold request.
  destruct (fetch B (requests w) request) as [response|e].
  - destruct (ok response); cbn [negb].
    + unfold bind, lift, ret, console_write.
      destruct (json response) as [user|e];
        eexists _, _; (split; [reflexivity|]); cbn; repeat split; auto.
    + unfold ret. eexists _, _; (split; [reflexivity|]); cbn;
        repeat split; auto.
  - unfold errorText, bind, console_write, ret.
    destruct (String.eqb (exn_name e) "AbortError");
      eexists _, _; (split; [reflexivity|]); cbn; repeat split; auto.
Qed.

Lemma captureScreenshot_run tabId w :
  exists reply w',
    captureScreenshot B tabId w = (Normal reply, w')
    /\ captures w' = captures w ++ [ {| format := "png"; quality := 90 |} ]
    /\ requests w' = requests w /\ created w' = created w
    /\ replies w' = replies w /\ unhandled w' = unhandled w
    /\ notifications w' = notifications w
    /\ reply
       = match captureVisibleTab B (captures w)
                 {| format := "png"; quality := 90 |} with
         | Normal dataUrl => Shot dataUrl
         | Throw e => Failed (lit (message e))
         end.
Proof.
  unfold captureScreenshot, tryCatch, bind at 1, chrome_tabs_captureVisibleTab.
  destruct (captureVisibleTab B (captures w) _) as [dataUrl|e];
    unfold bind, console_write, ret;
    eexists _, _; (split; [reflexivity|]); cbn; repeat split; auto.
Qed.

End WorkerFacts.

(** ** Properties of the background service worker *)

Section WorkerProperties.

Import Background.

Variable B : Platform.
Implicit Types (w : World B) (data : SaveData).

(** X12.  The listener of the worker answers every request without leaving
    a rejection unhandled.  For the four requests it hands to an async
    function (validate, save, update, capture) it returns [true] and exactly
    one response follows; for a notification request it responds
    [{success: true}] and returns [false]; for any other action it returns
    [undefined] and does nothing at all. *)
Theorem worker_listener_replies request w :
  exists result w',
    onMessage B request w = (Normal result, w')
    /\ unhandled w' = unhandled w
    /\ (In (action request)
          ["validateToken"; "saveKnowledge"; "updateKnowledge";
           "captureScreenshot"] ->
        result = Some true /\ exists reply, replies w' = replies w ++ [reply])
    /\ (action request = "showNotification" ->
        result = Some false /\ replies w' = replies w ++ [Acknowledged])
    /\ (~ In (action request)
            ["validateToken"; "saveKnowledge"; "updateKnowledge";
             "captureScreenshot"; "showNotification"] ->
        result = None /\ w' = w).
Proof.
  unfold onMessage.
  destruct (String.eqb_spec (action request) "validateToken") as [Ha|Ha1].
  { destruct (validateToken_run B (m_apiUrl request) (m_token request) w)
      as (reply & w1 & E & _ & _ & _ & Hrp & Hun & _).
    unfold bind, andThen, sendResponse, ret. rewrite E. cbn.
    eexists _, _. split; [reflexivity|]. cbn.
    split; [exact Hun|]. split; [intros _; split; [reflexivity|];
                                 exists reply; congruence|].
    split; [intros H; rewrite Ha in H; discriminate|].
    intros H. exfalso. apply H. rewrite Ha. cbn. auto. }
  destruct (String.eqb_spec (action request) "saveKnowledge") as [Ha|Ha2].
  { destruct (saveKnowledge_run B (m_data request) (m_apiUrl request)
                (m_token request) w)
      as (qs & shot & reply & w1 & E & _ & _ & _ & _ & _ & _ & Hrp & Hun & _).
    unfold bind, andThen, sendResponse, ret. rewrite E. cbn.
    eexists _, _. split; [reflexivity|]. cbn.
    split; [exact Hun|]. split; [intros _; split; [reflexivity|];
                                 exists reply; congruence|].
    split; [intros H; rewrite Ha in H; discriminate|].
    intros H. exfalso. apply H. rewrite Ha. cbn. auto. }
  destruct (String.eqb_spec (action request) "updateKnowledge") as [Ha|Ha3].
  { destruct (updateKnowledge_run B (m_documentId request) (m_data request)
                (m_apiUrl request) (m_token request) w)
      as (reply & w1 & E & _ & _ & Hrp & Hun & _).
    unfold bind, andThen, sendResponse, ret. rewrite E. cbn.
    eexists _, _. split; [reflexivity|]. cbn.
    split; [exact Hun|]. split; [intros _; split; [reflexivity|];
                                 exists reply; congruence|].
    split; [intros H; rewrite Ha in H; discriminate|].
    intros H. exfalso. apply H. rewrite Ha. cbn. auto. }
  destruct (String.eqb_spec (action request) "captureScreenshot") as [Ha|Ha4].
  { destruct (captureScreenshot_run B (m_tabId request) w)
      as (reply & w1 & E & _ & _ & _ & Hrp & Hun & _).
    unfold bind, andThen, sendResponse, ret. rewrite E. cbn.
    eexists _, _. split; [reflexivity|]. cbn.
    split; [exact Hun|]. split; [intros _; split; [reflexivity|];
                                 exists reply; congruence|].
    split; [intros H; rewrite Ha in H; discriminate|].
    intros H. exfalso. apply H. rewrite Ha. cbn. auto. }
  destruct (String.eqb_spec (action request) "showNotification") as [Ha|Ha5].
  { destruct (showNotification_run B (m_title request) (m_message request)
                (m_type request) w)
      as (w1 & E & _ & _ & _ & _ & _ & Hrp & Hun).
    unfold bind, sendResponse, ret. rewrite E. cbn.
    eexists _, _. split; [reflexivity|]. cbn.
    split; [exact Hun|].
    split; [intros [H|[H|[H|[H|[]]]]]; rewrite Ha in H; discriminate|].
    split; [intros _; split; [reflexivity | congruence]|].
    intros H. exfalso. apply H. rewrite Ha. cbn. auto 10. }
  exists None, w. unfold ret. split; [reflexivity|]. split; [reflexivity|].
  split; [intros [H|[H|[H|[H|[]]]]]; congruence|].
  split; [congruence | auto].
Qed.

Lemma ladder_prefix rest :
  descends SCREENSHOT_INITIAL_QUALITY rest ->
  exists k,
    1 <= k <= 5
    /\ SCREENSHOT_INITIAL_QUALITY :: rest = firstn k [60; 50; 40; 30; 20]
    /\ In (last (SCREENSHOT_INITIAL_QUALITY :: rest) 0) [60; 50; 40; 30; 20].
Proof.
  intros Hd. destruct (descends_ladder rest Hd) as (k & ->).
  destruct k as [|[|[|[|[|k]]]]];
    [exists 1 | exists 2 | exists 3 | exists 4 | exists 5 | exists 5];
    (split; [lia|]); (split; [reflexivity|]); cbn; auto 10.
Qed.

(** X13.  The captures of a save: none when no screenshot is wanted (the
    box is unticked, or the tab id is missing or zero); otherwise between
    one and five, all JPEG, at the qualities 60, 50, 40, 30, 20 in this
    order, and a single one when the first capture already fits in 1 MB.
    The loop always ends. *)
Theorem save_capture_ladder data apiUrl token w :
  exists k,
    k <= 5
    /\ captures (snd (saveKnowledge B data apiUrl token w))
       = captures w ++ map jpeg (firstn k [60; 50; 40; 30; 20])
    /\ (k = 0 <-> wantsScreenshot data = false)
    /\ (forall url,
          captureVisibleTab B (captures w) (jpeg 60) = Normal url ->
          (dataUrl_length B url <= 1048576)%N ->
          wantsScreenshot data = true ->
          k = 1).
Proof.
  destruct (saveKnowledge_run B data apiUrl token w)
    as (qs & shot & reply & w' & E & Hc & Hno & Hyes & _ & Hfirst & _).
  rewrite E. cbn [snd].
  destruct (wantsScreenshot data) eqn:Hw.
  - destruct (Hyes eq_refl) as (rest & -> & Hd).
    destruct (ladder_prefix rest Hd) as (k & Hk & Hpre & _).
    exists k. split; [lia|]. split; [rewrite Hc, Hpre; reflexivity|].
    split; [split; [lia | discriminate]|].
    intros url Hu Hfit _.
    destruct (Hfirst url Hu Hfit eq_refl) as (Hqs & _).
    injection Hqs as ->.
    destruct k as [|[|k]]; [lia | reflexivity | discriminate Hpre].
  - destruct (Hno eq_refl) as (-> & _).
    exists 0. split; [lia|]. split; [exact Hc|].
    split; [tauto | discriminate].
Qed.

(** X14.  A save sends exactly one request, whatever became of the
    screenshot: a POST to [apiUrl + "/api/v1/knowledge"] with the bearer
    token and the payload.  A screenshot in the payload is never empty, is
    at most 1 MB long, and is what a JPEG capture at one of the five
    qualities gave; when no screenshot is wanted there is none. *)
Theorem save_request data apiUrl token w :
  exists shot,
    requests (snd (saveKnowledge B data apiUrl token w))
    = requests w ++ [saveRequest data shot apiUrl token]
    /\ req_url (saveRequest data shot apiUrl token)
       = apiUrl ++ lit "/api/v1/knowledge"
    /\ In ("Authorization", lit "Bearer " ++ token)
         (req_headers (saveRequest data shot apiUrl token))
    /\ (wantsScreenshot data = false ->
        p_screenshot (savePayload B data shot) = None)
    /\ (forall url,
          p_screenshot (savePayload B data shot) = Some url ->
          (0 < dataUrl_length B url <= 1048576)%N
          /\ exists history q,
               In q [60; 50; 40; 30; 20]
               /\ captureVisibleTab B history (jpeg q) = Normal url).
Proof.
  destruct (saveKnowledge_run B data apiUrl token w)
    as (qs & shot & reply & w' & E & _ & Hno & Hyes & Hshot & _ & Hrq & _).
  rewrite E. cbn [snd]. exists shot.
  split; [exact Hrq|]. split; [reflexivity|]. split; [cbn; auto|].
  split.
  - intros Hw. destruct (Hno Hw) as (_ & ->). reflexivity.
  - intros url Hp. cbn in Hp. unfold usableScreenshot in Hp.
    destruct shot as [url'|]; [|discriminate].
    destruct (0 <? dataUrl_length B url')%N eqn:Hpos; [|discriminate].
    injection Hp as ->. apply N.ltb_lt in Hpos.
    destruct (Hshot url eq_refl) as (Hfit & history & Hcap).
    split; [split; [exact Hpos | exact Hfit]|].
    exists history, (last qs 0). split; [|exact Hcap].
    destruct (wantsScreenshot data) eqn:Hw.
    + destruct (Hyes eq_refl) as (rest & -> & Hd).
      destruct (ladder_prefix rest Hd) as (k & _ & _ & Hin). exact Hin.
    + destruct (Hno eq_refl) as (_ & H). discriminate.
Qed.

(** X15.  What every save or update payload satisfies: the tags are the
    given ones followed by "source:clipper"; the privacy level is never
    empty ("private" by default); the TTL is passed on as it is, null
    included; a text field that may be left out (notes, source URL, author,
    thumbnail, favicon) is never present and empty.  A save names the
    refresh interval exactly when it turns auto-refresh on and never sends
    auto-refresh as false; an update passes the auto-refresh flag on as it
    is and never sends an interval of zero. *)
Theorem payload_shape data shot :
  let p := savePayload B data shot in
  let u := updatePayload data in
  p_tags p
  = match d_tags data with Some tags => tags | None => [] end
      ++ [lit "source:clipper"]
  /\ u_tags u = p_tags p
  /\ last (p_tags p) [] = lit "source:clipper"
  /\ p_privacy_level p <> [] /\ u_privacy_level u = p_privacy_level p
  /\ (d_privacy data = [] -> p_privacy_level p = lit "private")
  /\ p_ttl_hours p = d_ttl data /\ u_ttl_hours u = d_ttl data
  /\ Forall (fun field => field <> Some [])
       [ p_notes p; p_external_source_identifier p; p_author p;
         p_thumbnail_url p; p_favicon_url p; u_notes u ]
  /\ (p_refresh_interval_minutes p <> None
      <-> p_auto_refresh_enabled p = Some true)
  /\ p_auto_refresh_enabled p <> Some false
  /\ u_auto_refresh_enabled u = d_autoRefreshEnabled data
  /\ u_refresh_interval_minutes u <> Some 0%Z.
Proof.
  assert (Hwhen : forall v, whenTruthy v <> Some []).
  { intros [[|c t]|]; cbn; discriminate. }
  cbv zeta. cbn -[lit whenTruthy].
  split; [reflexivity|]. split; [reflexivity|].
  split; [apply last_last|].
  split; [destruct (d_privacy data); discriminate|].
  split; [reflexivity|].
  split; [intros ->; reflexivity|].
  split; [reflexivity|]. split; [reflexivity|].
  split; [repeat constructor; apply Hwhen|].
  split; [destruct (d_autoRefreshEnabled data) as [[|]|];
          split; congruence|].
  split; [destruct (d_autoRefreshEnabled data) as [[|]|]; discriminate|].
  split; [reflexivity|].
  destruct (d_autoRefreshEnabled data) as [[|]|]; try discriminate.
  destruct (d_refreshIntervalMinutes data) as [z|]; cbn; [|discriminate].
  destruct (Z.eqb_spec z 0); cbn; congruence.
Qed.


(** X17.  When the server answers a save with an ok response whose body
    parses, the success notification is shown once (or written to the
    console when there is no notifications API), and the reply carries the
    [data] of the body.  If the body is the JSON value [null], the
    notification is shown all the same but the reply is a failure. *)
Theorem save_success data apiUrl token w response body :
  (forall history request, fetch B history request = Normal response) ->
  ok response = true ->
  json response = Normal body ->
  exists reply w',
    saveKnowledge B data apiUrl token w = (Normal reply, w')
    /\ created w'
       = created w ++ (if notifications w then [savedNotification data] else [])
    /\ (notifications w = false ->
        In (LogNotification (n_title (savedNotification data))
              (n_message (savedNotification data)))
          (console w'))
    /\ reply = match body with
               | Some fields => Succeeded (body_data fields)
               | None =>
                   Failed (lit "Cannot read properties of null (reading 'data')")
               end.
Proof.
  intros Hfetch Hok Hjson.
  destruct (saveKnowledge_run B data apiUrl token w)
    as (qs & shot & reply & w' & E & _ & _ & _ & _ & _ & _ & _ & _ & _ & Hout).
  rewrite Hfetch, Hok, Hjson in Hout. destruct Hout as (Hcr & ->).
  eexists _, w'. split; [exact E|]. split; [exact Hcr|].
  split; [|reflexivity].
  intros Hnone.
  (* the console line is written by [showNotification] inside the run *)
  destruct (takeScreenshot_run B data w)
    as (qs1 & shot1 & w1 & E1 & _ & (Hn1 & _) & _).
  unfold saveKnowledge, tryCatch, bind at 1 in E. rewrite E1 in E.
  unfold sendSave, bind at 1 in E.
  assert (Hrest : forall w0 : World B,
            notifications w0 = false ->
            forall out w2,
              bind B (fetchWithTimeout B (apiUrl ++ lit "/api/v1/knowledge")
                        "POST" (jsonHeaders token)
                        (SaveBody (savePayload B data shot1)))
                (fun response0 =>
                   if negb (ok response0) then
                     bind B (failureMessage B "Failed to save"
                               "Permission denied. Token requires knowledge:create scope"
                               response0)
                       (fun errorMessage => ret B (Failed errorMessage))
                   else
                     bind B (lift B (json response0))
                       (fun responseData =>
                          bind B (showNotification B (lit "Saved Successfully")
                                    (lit dq ++ d_title data
                                       ++ lit (dq ++ " has been added to your knowledge system"))
                                    (Some "success"))
                            (fun _ =>
                               bind B (fieldsOf B responseData "data")
                                 (fun fields => ret B (Succeeded (body_data fields))))))
                w0 = (out, w2) ->
              In (LogNotification (lit "Saved Successfully")
                    (lit dq ++ d_title data
                       ++ lit (dq ++ " has been added to your knowledge system")))
                (console w2)).
  { intros w0 Hn0 out w2.
    unfold bind at 1, fetchWithTimeout, tryCatch, await_fetch.
    rewrite Hfetch, Hok. cbn [negb].
    unfold bind at 1, lift. rewrite Hjson. unfold bind at 1.
    match goal with
    | |- context [showNotification B ?t ?m ?ty ?w3] =>
        destruct (showNotification_run B t m ty w3)
          as (w4 & E4 & _ & Hlog & _); rewrite E4
    end.
    cbn in Hlog. rewrite Hn0 in Hlog.
    unfold bind, fieldsOf, ret, throw.
    destruct body; intros H; injection H as _ <-; rewrite Hlog;
      apply in_or_app; right; left; reflexivity. }
  assert (Hcatch : forall (out : Completion (Reply B)) (w2 w3 : World B) r,
            In (LogNotification (lit "Saved Successfully")
                  (lit dq ++ d_title data
                     ++ lit (dq ++ " has been added to your knowledge system")))
              (console w2) ->
            match out with
            | Normal a => (Normal a, w2)
            | Throw e =>
                bind B (console_write B (ErrorLine "Save knowledge error:" e))
                  (fun _ => ret B (Failed (messageOr e "Network error"))) w2
            end = (Normal r, w3) ->
            In (LogNotification (lit "Saved Successfully")
                  (lit dq ++ d_title data
                     ++ lit (dq ++ " has been added to your knowledge system")))
              (console w3)).
  { intros out w2 w3 r Hin. destruct out.
    - intros H; injection H as _ <-. exact Hin.
    - unfold bind, console_write, ret. intros H; injection H as _ <-.
      cbn. apply in_or_app. left. exact Hin. }
  change (n_title (savedNotification data)) with (lit "Saved Successfully").
  change (n_message (savedNotification data))
    with (lit dq ++ d_title data
            ++ lit (dq ++ " has been added to your knowledge system")).
  destruct (p_screenshot (savePayload B data shot1)) as [url|].
  - unfold console_write in E at 1.
    match type of E with
    | context [bind B (fetchWithTimeout B ?u ?m ?h ?b) ?k ?w0] =>
        destruct (bind B (fetchWithTimeout B u m h b) k w0) as [out w2] eqn:E2
    end.
    eapply Hcatch; [|exact E].
    eapply Hrest; [|exact E2]. cbn. congruence.
  - unfold ret in E at 1.
    match type of E with
    | context [bind B (fetchWithTimeout B ?u ?m ?h ?b) ?k ?w0] =>
        destruct (bind B (fetchWithTimeout B u m h b) k w0) as [out w2] eqn:E2
    end.
    eapply Hcatch; [|exact E].
    eapply Hrest; [|exact E2]. congruence.
Qed.


(** X19.  An update never captures the tab, even when the data ask for a
    screenshot.  It sends exactly one request, a PUT to
    [apiUrl + "/api/v1/knowledge/" + documentId], and shows at most one
    notification, the one of a successful update. *)
Theorem update_sends_one_request documentId data apiUrl token w :
  let w' := snd (updateKnowledge B documentId data apiUrl token w) in
  captures w' = captures w
  /\ requests w' = requests w ++ [updateRequest documentId data apiUrl token]
  /\ req_method (@updateRequest B documentId data apiUrl token) = "PUT"
  /\ req_url (@updateRequest B documentId data apiUrl token)
     = apiUrl ++ lit "/api/v1/knowledge/" ++ documentId
  /\ (created w' = created w
      \/ created w' = created w ++ [updatedNotification data]).
Proof.
  cbv zeta.
  destruct (updateKnowledge_run B documentId data apiUrl token w)
    as (reply & w' & E & Hca & Hrq & _ & _ & _ & Hout).
  cbv zeta in Hout. rewrite E. cbn [snd].
  split; [exact Hca|]. split; [exact Hrq|].
  split; [reflexivity|]. split; [reflexivity|].
  destruct (fetch B (requests w) _) as [response|e];
    [|left; tauto].
  destruct (ok response); [|left; tauto].
  destruct (json response); [|left; tauto].
  destruct Hout as (Hcr & _). rewrite Hcr.
  destruct (notifications w); [right; reflexivity|].
  left. apply app_nil_r.
Qed.

End WorkerProperties.

Section NoticeDelivery.

Variable P : Platform.
Variable B : Background.Platform.

(** X20.  Every notice that a run of [extractPageData] hands to the runtime
    is one the worker's listener knows: it shows one notification titled
    "Content Extraction Notice" (or writes it to the console when there is
    no notifications API), responds [{success: true}], returns [false], and
    neither captures nor fetches anything. *)
Theorem notice_reaches_worker (cw : World P) (w : Background.World B)
    (rest : Background.Message) :
  exists sent,
    outbox (snd (extractPageData P cw)) = outbox cw ++ sent
    /\ forall notice,
         In notice sent ->
         exists w',
           Background.onMessage B (Background.ofNotice notice rest) w
           = (Normal (Some false), w')
           /\ Background.replies w'
              = Background.replies w ++ [Background.Acknowledged]
           /\ Background.created w'
              = Background.created w
                  ++ (if Background.notifications w
                      then [ {| Background.n_type := "basic";
                                Background.n_iconUrl := "icons/icon-128.png";
                                Background.n_title :=
                                  lit "Content Extraction Notice";
                                Background.n_message :=
                                  lit "Using basic extraction. Page structure may not be optimized for reading.";
                                Background.n_priority := 1 |} ]
                      else [])
           /\ (Background.notifications w = false ->
               Background.console w'
               = Background.console w
                   ++ [ Background.LogNotification
                          (lit "Content Extraction Notice")
                          (lit "Using basic extraction. Page structure may not be optimized for reading.") ])
           /\ Background.captures w' = Background.captures w
           /\ Background.requests w' = Background.requests w
           /\ Background.unhandled w' = Background.unhandled w.
Proof.
  destruct (extractPageData_effects P cw) as (_ & _ & Ho).
  eexists. split; [exact Ho|].
  intros notice Hin.
  assert (Hnotice : notice = degradedNotice).
  { destruct (sourceOf cw) as [[| |]|]; cbn in Hin;
      try contradiction; destruct Hin as [<-|[]]; reflexivity. }
  subst notice.
  destruct (showNotification_run B (lit "Content Extraction Notice")
              (lit "Using basic extraction. Page structure may not be optimized for reading.")
              (Some "info") w)
    as (w1 & E & Hcr & Hlog & _ & Hca & Hrq & Hrp & Hun).
  unfold Background.onMessage, Background.ofNotice, degradedNotice.
  cbn [Background.action note_action Background.m_title Background.m_message
       Background.m_type note_title note_message note_type].
  change (String.eqb "showNotification" "validateToken") with false.
  change (String.eqb "showNotification" "saveKnowledge") with false.
  change (String.eqb "showNotification" "updateKnowledge") with false.
  change (String.eqb "showNotification" "captureScreenshot") with false.
  change (String.eqb "showNotification" "showNotification") with true.
  cbv iota.
  unfold Background.bind at 1. rewrite E.
  unfold Background.bind, Background.sendResponse, Background.ret.
  eexists. split; [reflexivity|]. cbn.
  split; [congruence|]. split; [exact Hcr|].
  split; [intros Hn; rewrite Hn in Hlog; exact Hlog|].
  auto.
Qed.

End NoticeDelivery.


(** ** Properties of the popup's tag field *)

Section TagFacts.

Lemma split_whole sep t : ~ In sep t -> split sep t = [t].
Proof.
  induction t as [|c t IH]; intros Hno; [reflexivity|].
  simpl. destruct (N.eqb_spec c sep) as [->|Hne].
  - exfalso. apply Hno. now left.
  - rewrite IH; [reflexivity|]. intros H. apply Hno. now right.
Qed.

Lemma split_cons_other sep c s :
  c <> sep ->
  split sep (c :: s)
  = match split sep s with
    | piece :: rest => (c :: piece) :: rest
    | [] => [[c]]
    end.
Proof.
  intros Hne. simpl. apply N.eqb_neq in Hne. rewrite Hne. reflexivity.
Qed.

Lemma split_app_sep sep t rest :
  ~ In sep t -> split sep (t ++ sep :: rest) = t :: split sep rest.
Proof.
  induction t as [|c t IH]; intros Hno.
  - simpl. rewrite N.eqb_refl. reflexivity.
  - simpl. destruct (N.eqb_spec c sep) as [->|Hne].
    + exfalso. apply Hno. now left.
    + rewrite IH; [reflexivity|]. intros H. apply Hno. now right.
Qed.

Lemma join_cons sep t t' rest :
  join sep (t :: t' :: rest) = t ++ sep ++ join sep (t' :: rest).
Proof. reflexivity. Qed.

Lemma split_join_tags t rest :
  Forall (fun tag => ~ In 44%N tag) (t :: rest) ->
  split 44%N (join (lit ", ") (t :: rest))
  = t :: map (fun tag => 32%N :: tag) rest.
Proof.
  revert t. induction rest as [|t' rest IH]; intros t Hall.
  - simpl. apply split_whole. now inversion Hall.
  - rewrite join_cons. change (lit ", ") with [44%N; 32%N].
    change ([44%N; 32%N] ++ join [44%N; 32%N] (t' :: rest))
      with (44%N :: 32%N :: join [44%N; 32%N] (t' :: rest)).
    inversion Hall as [|? ? Ht Hrest]; subst.
    rewrite (split_app_sep _ _ _ Ht).
    rewrite split_cons_other by discriminate.
    change [44%N; 32%N] with (lit ", "). rewrite (IH t' Hrest).
    reflexivity.
Qed.

Lemma trim_after_space t : trim (32%N :: t) = trim t.
Proof. reflexivity. Qed.

Lemma join_head sep t rest :
  t <> [] -> hd 0%N (join sep (t :: rest)) = hd 0%N t.
Proof.
  intros Hne. destruct rest; [reflexivity|].
  rewrite join_cons. destruct t; [congruence | reflexivity].
Qed.

Lemma join_nonempty sep t rest : t <> [] -> join sep (t :: rest) <> [].
Proof.
  intros Hne. destruct rest; [exact Hne|].
  rewrite join_cons. destruct t; [congruence | discriminate].
Qed.

Lemma last_app_nonempty (a b : jstring) d : b <> [] -> last (a ++ b) d = last b d.
Proof.
  intros Hb. induction a as [|x a IH]; [reflexivity|].
  simpl. destruct (a ++ b) eqn:E; [|exact IH].
  apply app_eq_nil in E. destruct E; congruence.
Qed.

Lemma join_last sep t rest :
  Forall (fun tag => tag <> [] /\ is_ws (last tag 0%N) = false) (t :: rest) ->
  is_ws (last (join sep (t :: rest)) 0%N) = false.
Proof.
  revert t. induction rest as [|t' rest IH]; intros t Hall.
  - inversion Hall as [|? ? (_ & Hl) _]; exact Hl.
  - inversion Hall as [|? ? _ Hrest]; subst.
    rewrite join_cons, !last_app_nonempty.
    + apply IH. exact Hrest.
    + apply join_nonempty. inversion Hrest as [|? ? (Hne & _) _]; exact Hne.
    + intros E. apply app_eq_nil in E. destruct E as (_ & E).
      revert E. apply join_nonempty.
      inversion Hrest as [|? ? (Hne & _) _]; exact Hne.
Qed.

End TagFacts.

Section PopupProperties.

(** X21.  The tags that [handleSaveSubmit] reads from the field: none when
    the field is empty or blank; otherwise every tag is non-empty, free of
    commas and free of whitespace at its ends (empty pieces between commas
    are dropped). *)
Theorem parseTags_shape fieldValue :
  (trim fieldValue = [] -> Popup.parseTags fieldValue = [])
  /\ (forall tag,
        In tag (Popup.parseTags fieldValue) ->
        tag <> []
        /\ ~ In 44%N tag
        /\ trim tag = tag
        /\ is_ws (hd 0%N tag) = false
        /\ is_ws (last tag 0%N) = false).
Proof.
  unfold Popup.parseTags. split.
  - intros ->. reflexivity.
  - intros tag. cbv zeta. destruct (nonempty (trim fieldValue)); [|intros []].
    intros Hin. apply filter_In in Hin. destruct Hin as (Hin & Hlen).
    apply in_map_iff in Hin. destruct Hin as (piece & <- & Hpiece).
    split; [destruct (trim piece); [discriminate | discriminate]|].
    split; [|split; [apply trim_idem | apply trim_ends]].
    intros Hc. apply trim_incl in Hc. exact (split_pieces _ _ _ Hpiece Hc).
Qed.

(** X22.  Tags survive the field: a list of tags, each non-empty, free of
    commas and of whitespace at its ends, that is written into the field
    joined by ", " and read back by [handleSaveSubmit] is the same list. *)
Theorem tags_round_trip tags :
  Forall (fun tag =>
            tag <> [] /\ ~ In 44%N tag
            /\ is_ws (hd 0%N tag) = false /\ is_ws (last tag 0%N) = false)
    tags ->
  Popup.parseTags (Popup.showTags tags) = tags.
Proof.
  intros Hall. destruct tags as [|t rest]; [reflexivity|].
  unfold Popup.parseTags, Popup.showTags. cbv zeta.
  assert (Hne : t <> []) by (inversion Hall as [|? ? (H & _) _]; exact H).
  assert (Htrim : trim (join (lit ", ") (t :: rest)) = join (lit ", ") (t :: rest)).
  { apply trim_fixed.
    - rewrite (join_head _ _ _ Hne).
      inversion Hall as [|? ? (_ & _ & H & _) _]; exact H.
    - apply join_last. eapply Forall_impl; [|exact Hall].
      intros tag (H1 & _ & _ & H4). split; assumption. }
  rewrite Htrim.
  pose proof (join_nonempty (lit ", ") t rest Hne) as Hjoin.
  destruct (join (lit ", ") (t :: rest)) eqn:Ej;
    [exfalso; apply Hjoin; try exact Ej; reflexivity|].
  cbn [nonempty]. rewrite <- Ej.
  rewrite split_join_tags
    by (eapply Forall_impl; [|exact Hall]; intros tag (_ & H & _); exact H).
  cbn [map filter].
  inversion Hall as [|? ? (_ & _ & Hh & Hl) Hrest]; subst.
  rewrite (trim_fixed t Hh Hl).
  destruct t as [|c0 t0]; [congruence|]. cbn [List.length Nat.ltb Nat.leb].
  f_equal. clear -Hrest.
  induction rest as [|t2 rest IH]; [reflexivity|].
  inversion Hrest as [|? ? (Hne & _ & Hh & Hl) Hrest']; subst.
  cbn [map filter]. rewrite trim_after_space, (trim_fixed t2 Hh Hl).
  destruct t2 as [|c2 t3]; [congruence|]. cbn [List.length Nat.ltb Nat.leb].
  f_equal. exact (IH Hrest').
Qed.

(** X23.  The masked token that [showConfigScreen] displays is sixteen
    bullets followed by the last eight units of the token, and by the whole
    token when it is no longer than eight. *)
Theorem maskedToken_reveals apiToken :
  exists hidden shown,
    apiToken = hidden ++ shown
    /\ Popup.maskedToken apiToken = repeat 8226%N 16 ++ shown
    /\ List.length shown = Nat.min 8 (List.length apiToken)
    /\ (List.length apiToken <= 8 -> shown = apiToken).
Proof.
  unfold Popup.maskedToken, Popup.sliceLast.
  exists (firstn (List.length apiToken - 8) apiToken),
         (skipn (List.length apiToken - 8) apiToken).
  split; [symmetry; apply firstn_skipn|]. split; [reflexivity|].
  split; [rewrite length_skipn; lia|].
  intros Hshort. replace (List.length apiToken - 8) with 0 by lia.
  reflexivity.
Qed.

Variable P : Platform.
Variable toLocaleString : nat -> jstring.

(** X24.  What the popup shows of a record that [extractPageData] returned,
    when its document has all its elements: the title; in the description
    field the description, or the excerpt when there is no description, so
    that the field is empty only when content and description both are; the
    length of the content, which is the record's [contentLength]; the
    content itself, or "No content extracted" when it is empty; the
    selection badge exactly when [hasSelection] holds.  It ends by starting
    [loadDefaultSettings]. *)
Theorem popup_preview (w : World P) r w' :
  extractPageData P w = (Normal r, w') ->
  exists effects,
    Popup.populateSaveForm Popup.complete toLocaleString r []
    = (Normal tt, effects)
    /\ Popup.assigned "title" "value" effects = Some (title r)
    /\ Popup.assigned "description" "value" effects
       = Some (if nonempty (description r) then description r else excerpt r)
    /\ (Popup.assigned "description" "value" effects = Some []
        <-> content r = [] /\ description r = [])
    /\ Popup.assigned "content-length" "textContent" effects
       = Some (toLocaleString (contentLength r))
    /\ Popup.assigned "content-text" "textContent" effects
       = Some (if nonempty (content r) then content r
               else lit "No content extracted")
    /\ (Popup.assigned "selection-badge" "style.display" effects
        = Some (lit "inline-flex")
        <-> hasSelection r = true)
    /\ last effects (Popup.Start EmptyString)
       = Popup.Start "loadDefaultSettings".
Proof.
  intros H.
  pose proof (returned_contentLength P w r w' H) as Hlen.
  pose proof (returned_excerpt_empty P w r w' H) as Hex.
  assert (Hcount : (if nonempty (content r) then List.length (content r) else 0)
                   = contentLength r).
  { rewrite Hlen. destruct (content r); reflexivity. }
  assert (Hor : forall s d : jstring,
            or_str (Some s) d = if nonempty s then s else d).
  { intros [|c s] d; reflexivity. }
  assert (Hfield : (if nonempty (description r) then description r
                    else if nonempty (excerpt r) then excerpt r else []) = []
                   <-> content r = [] /\ description r = []).
  { destruct (description r) as [|d ds]; cbn [nonempty].
    - destruct (excerpt r) as [|e es]; cbn [nonempty].
      + split; [intros _; apply Hex; reflexivity | reflexivity].
      + split; [discriminate|]. intros Hc. apply Hex in Hc. discriminate.
    - split; [discriminate | intros (_ & ?); discriminate]. }
  assert (Hshown : (if nonempty (description r) then description r
                    else if nonempty (excerpt r) then excerpt r else [])
                   = (if nonempty (description r) then description r
                      else excerpt r)).
  { destruct (description r), (excerpt r); reflexivity. }
  assert (Htitle : (if nonempty (title r) then title r else []) = title r).
  { destruct (title r); reflexivity. }
  unfold Popup.populateSaveForm, Popup.bind, Popup.assign, Popup.display,
    Popup.start, Popup.ret, Popup.complete.
  rewrite Hcount, !Hor, Htitle. rewrite <- Hshown.
  destruct (hasSelection r) eqn:Hsel;
    destruct (0 <? List.length (keywords r))%nat eqn:Hkw;
    cbn -[lit nonempty join firstn];
    (eexists; split; [reflexivity|]);
    cbn -[lit nonempty join firstn];
    (split; [reflexivity|]);
    (split; [reflexivity|]);
    (split; [rewrite <- Hfield; split;
             [intros [= E]; exact E | intros E; f_equal; exact E]|]);
    (split; [reflexivity|]);
    (split; [reflexivity|]);
    (split; [split; [try reflexivity; try discriminate
                    | try reflexivity; try discriminate]
            | reflexivity]).
Qed.

End PopupProperties.

(** ** Properties of the storage wrapper *)

Section StorageProperties.

Import Storage.

Variable accepts : Store -> list (string * Value) -> bool.

Lemma putAll_other items key store :
  ~ In key (map fst items) -> putAll items store key = store key.
Proof.
  revert store. induction items as [|[k v] rest IH]; intros store Hno;
    [reflexivity|].
  simpl. rewrite IH by (intros H; apply Hno; now right).
  unfold put. destruct (String.eqb_spec key k) as [->|Hne]; [|reflexivity].
  exfalso. apply Hno. now left.
Qed.

(** X25.  After [clearConfig] the configuration is the default one (empty
    address and token, privacy "private", no tags, screenshots on, no TTL),
    whatever was stored before, and the extension counts as not
    configured. *)
Theorem storage_clear store :
  let store' := snd (clearConfig store) in
  fst (getConfig store')
  = {| apiUrl := VString []; apiToken := VString [];
       defaultPrivacy := VString (lit "private"); defaultTags := VList [];
       enableScreenshots := VBool true; defaultTTL := VNull |}
  /\ fst (isConfigured store') = false
  /\ fst (isScreenshotsEnabled store') = true.
Proof. repeat split. Qed.

(** X26.  Saving an address and a token, as the configuration form does:
    when the storage takes the write and both are non-empty, the extension
    counts as configured, [getApiUrl] and [getApiToken] give them back, and
    the four other settings are as before. *)
Theorem storage_save_configured store address token :
  accepts store [("apiUrl", VString address); ("apiToken", VString token)]
  = true ->
  address <> [] -> token <> [] ->
  let items := [("apiUrl", VString address); ("apiToken", VString token)] in
  let store' := snd (saveConfig accepts items store) in
  fst (isConfigured store') = true
  /\ fst (getApiUrl store') = VString address
  /\ fst (getApiToken store') = VString token
  /\ defaultPrivacy (fst (getConfig store'))
     = defaultPrivacy (fst (getConfig store))
  /\ defaultTags (fst (getConfig store')) = defaultTags (fst (getConfig store))
  /\ enableScreenshots (fst (getConfig store'))
     = enableScreenshots (fst (getConfig store))
  /\ defaultTTL (fst (getConfig store')) = defaultTTL (fst (getConfig store)).
Proof.
  intros Hacc Ha Ht. cbv zeta.
  unfold saveConfig, chrome_storage_sync_set. cbn [snd]. rewrite Hacc. cbn.
  destruct address; [congruence|]. destruct token; [congruence|].
  repeat split.
Qed.

(** X27.  [updateConfig] changes one setting and no other: when the storage
    takes the write, the configuration read afterwards has the new value
    under that key, if it is one of the six keys of the configuration, and
    under every other key what it had before. *)
Theorem storage_update_lookup store key value :
  accepts store [(key, value)] = true ->
  let before := fst (getConfig store) in
  let after := fst (getConfig (snd (updateConfig accepts key value store))) in
  (In key configKeys -> configField key after = value)
  /\ (forall other, other <> key ->
                    configField other after = configField other before).
Proof.
  intros Hacc. cbv zeta.
  unfold updateConfig, chrome_storage_sync_set. rewrite Hacc. cbn [snd putAll].
  split.
  - intros Hin. cbn in Hin.
    destruct Hin as [<-|[<-|[<-|[<-|[<-|[<-|[]]]]]]]; reflexivity.
  - intros other Hne.
    assert (Hput : forall k, k <> key -> put key value store k = store k).
    { intros k Hk. unfold put. apply String.eqb_neq in Hk. rewrite Hk.
      reflexivity. }
    unfold configField.
    repeat match goal with
           | |- context [String.eqb other ?k] =>
               destruct (String.eqb_spec other k) as [->|?]
           end;
      cbn; rewrite ?Hput by assumption; reflexivity.
Qed.


End StorageProperties.


(** ** The properties at sample pages, workers and stores *)

Lemma extractFallbackContent_priority_witness :
  extractFallbackContent Sample.platform Sample.withMain
  = (Normal (lit "Main column"), Sample.withMain).
Proof.
  refine (proj1 (extractFallbackContent_priority Sample.platform
                   Sample.withMain ["article"] "main" _
                   (Sample.textNode "Main column") eq_refl _ eq_refl)).
  intros s [<-|[]]. reflexivity.
Defined.

Lemma excerpt_empty_iff_witness :
  exists r w',
    extractPageData Sample.platform Sample.plain = (Normal r, w')
    /\ (excerpt r = [] <-> content r = [] /\ description r = []).
Proof.
  eexists _, _. split; [vm_compute; reflexivity|].
  apply (excerpt_empty_iff Sample.platform Sample.plain _ _ eq_refl).
Defined.

Lemma excerpt_chain_witness :
  exists r w',
    extractPageData Sample.platform Sample.withArticle = (Normal r, w')
    /\ sourceOf Sample.withArticle = Some STRUCTURED
    /\ excerpt r = substring0 300 (content r).
Proof.
  eexists _, _. split; [vm_compute; reflexivity|]. split; [reflexivity|].
  apply (excerpt_chain Sample.platform Sample.withArticle _ _ eq_refl).
Defined.

Lemma record_metadata_witness :
  exists r w',
    extractPageData Sample.platform Sample.withSelection = (Normal r, w')
    /\ url r = location_href Sample.here
    /\ domain r = location_hostname Sample.here.
Proof.
  eexists _, _. split; [vm_compute; reflexivity|].
  pose proof (record_metadata Sample.platform Sample.withSelection _ _ eq_refl)
    as (Hurl & Hdomain & _).
  split; [exact Hurl | exact Hdomain].
Defined.


Lemma save_success_witness :
  exists w',
    Background.saveKnowledge WorkerSample.accepting WorkerSample.clipping
      (lit "https://kb.example") (lit "secret")
      (WorkerSample.start WorkerSample.accepting)
    = (Normal (@Background.Succeeded WorkerSample.accepting (Some 7)), w')
    /\ Background.created w'
       = [Background.savedNotification WorkerSample.clipping].
Proof.
  destruct (save_success WorkerSample.accepting WorkerSample.clipping
              (lit "https://kb.example") (lit "secret")
              (WorkerSample.start WorkerSample.accepting)
              WorkerSample.created201 _ (fun _ _ => eq_refl) eq_refl eq_refl)
    as (reply & w' & Hrun & Hcreated & _ & ->).
  exists w'. split; [exact Hrun | exact Hcreated].
Defined.


Lemma tags_round_trip_witness :
  Popup.parseTags (lit "reading, to do") = [lit "reading"; lit "to do"].
Proof.
  refine (tags_round_trip [lit "reading"; lit "to do"] _).
  repeat constructor; try discriminate;
    vm_compute; intuition discriminate.
Defined.

Lemma popup_preview_witness :
  exists r w' effects,
    extractPageData Sample.platform Sample.withSelection = (Normal r, w')
    /\ Popup.populateSaveForm Popup.complete (fun n => lit (decimal n)) r []
       = (Normal tt, effects)
    /\ Popup.assigned "content-length" "textContent" effects
       = Some (lit (decimal (contentLength r))).
Proof.
  destruct (extractPageData Sample.platform Sample.withSelection)
    as [[r|e] w'] eqn:E; [|vm_compute in E; discriminate].
  destruct (popup_preview Sample.platform (fun n => lit (decimal n))
              Sample.withSelection r w' E)
    as (effects & Hrun & _ & _ & _ & Hlength & _).
  exists r, w', effects. split; [reflexivity|].
  split; [exact Hrun | exact Hlength].
Defined.

Lemma storage_save_configured_witness :
  fst (Storage.isConfigured
         (snd (Storage.saveConfig Storage.roomy
                 [ ("apiUrl", Storage.VString (lit "https://kb.example"));
                   ("apiToken", Storage.VString (lit "secret")) ]
                 Storage.empty)))
  = true.
Proof.
  refine (proj1 (storage_save_configured Storage.roomy Storage.empty
                   (lit "https://kb.example") (lit "secret") eq_refl _ _));
    discriminate.
Defined.

Lemma storage_update_lookup_witness :
  Storage.configField "defaultPrivacy"
    (fst (Storage.getConfig
            (snd (Storage.updateConfig Storage.roomy "defaultPrivacy"
                    (Storage.VString (lit "public")) Storage.empty))))
  = Storage.VString (lit "public").
Proof.
  refine (proj1 (storage_update_lookup Storage.roomy Storage.empty
                   "defaultPrivacy" (Storage.VString (lit "public")) eq_refl)
            _).
  right. right. left. reflexivity.
Defined.
